(** * The job execution pipeline of [handler.py]

    A shallow embedding of the RunPod job handler of the ComfyUI worker:
    the pre-flight resource guard, the workflow payload builder, the unique
    filename prefix injection, submission and polling, the harvesting of
    images and text files, and the classification of failures.

    Python values that travel through the handler are JSON values; Python
    dictionaries keep their insertion order, so a dictionary is an
    association list.  Everything the handler reads from or does to its
    environment (the generation service, the file system, the random token
    source, the log) is explicit: the read-only part is a [world], the
    mutable part a [state] threaded through a small exception monad. *)

From Stdlib Require Import String Ascii List ZArith QArith Lia Bool.
Import ListNotations.

Local Open Scope string_scope.
Local Open Scope Z_scope.

(** ** JSON values and the Python operations the handler applies to them *)

#[warnings="-register-all"]
Inductive json : Type :=
| JNull
| JBool (b : bool)
| JInt (z : Z)
| JFloat (q : Q)
| JStr (s : string)
| JList (l : list json)
| JDict (d : list (string * json)).

(** Exceptions the handler can meet.  [PyException] and [RuntimeError] are
    the two the source raises itself, with the message it builds. *)
Inductive exn : Type :=
| PyException (msg : string)
| RuntimeError (msg : string)
| KeyError (key : json)
| TypeError
| AttributeError
| ValueError
| IndexError
| JSONDecodeError
| RequestException
| FileError (path : string).

Module Str.

(** [sub in s]: Python's [sub in s] on strings. *)
Fixpoint contains (sub s : string) : bool :=
  if String.prefix sub s then true
  else match s with
       | EmptyString => false
       | String _ s' => contains sub s'
       end.

(** [s.startswith(p)] *)
Definition startswith (p s : string) : bool := String.prefix p s.

(** [s.endswith(e)] *)
Fixpoint endswith (e s : string) : bool :=
  if String.eqb e s then true
  else match s with
       | EmptyString => false
       | String _ s' => endswith e s'
       end.

Definition lower_ascii (c : ascii) : ascii :=
  let n := nat_of_ascii c in
  if andb (Nat.leb 65 n) (Nat.leb n 90) then ascii_of_nat (n + 32) else c.

(** [s.lower()], on ASCII letters. *)
Fixpoint lower (s : string) : string :=
  match s with
  | EmptyString => EmptyString
  | String c s' => String (lower_ascii c) (lower s')
  end.

(** [s.split('_')[0]]: the text before the first underscore, the whole
    string when there is none. *)
Fixpoint before_underscore (s : string) : string :=
  match s with
  | EmptyString => EmptyString
  | String c s' =>
      if Ascii.eqb c "_"%char then EmptyString
      else String c (before_underscore s')
  end.

(** [sep.join(parts)] *)
Fixpoint join (sep : string) (parts : list string) : string :=
  match parts with
  | [] => ""
  | [p] => p
  | p :: rest => p ++ sep ++ join sep rest
  end.

(** [sub] occurs somewhere inside [s]. *)
Definition occurs_in (sub s : string) : Prop :=
  exists pre post, s = pre ++ sub ++ post.

End Str.

Module Dict.

Definition t := list (string * json).

Fixpoint get (k : string) (d : t) : option json :=
  match d with
  | [] => None
  | (k', v) :: d' => if String.eqb k k' then Some v else get k d'
  end.

Definition mem (k : string) (d : t) : bool :=
  match get k d with Some _ => true | None => false end.

(** [d[k] = v]: an existing key keeps its position, a new key goes last. *)
Fixpoint set (k : string) (v : json) (d : t) : t :=
  match d with
  | [] => [(k, v)]
  | (k', v') :: d' =>
      if String.eqb k k' then (k, v) :: d' else (k', v') :: set k v d'
  end.

Definition keys (d : t) : list string := map fst d.

End Dict.

(** ** Results of pure Python operations *)

Inductive result (A : Type) : Type :=
| Val (a : A)
| Exc (e : exn).

Arguments Val {A} a.
Arguments Exc {A} e.

Module Py.

(** [v == 's'] for a string literal ['s']. *)
Definition eq_str (v : json) (s : string) : bool :=
  match v with
  | JStr s' => String.eqb s' s
  | _ => false
  end.

(** Truth value of [v] in a condition. *)
Definition truthy (v : json) : bool :=
  match v with
  | JNull => false
  | JBool b => b
  | JInt z => negb (z =? 0)
  | JFloat q => negb (Qeq_bool q 0)
  | JStr s => negb (String.eqb s "")
  | JList l => match l with [] => false | _ => true end
  | JDict d => match d with [] => false | _ => true end
  end.

Definition is_str (v : json) : bool :=
  match v with JStr _ => true | _ => false end.

(** [obj[k]] for a string key. *)
Definition getitem (obj : json) (k : string) : result json :=
  match obj with
  | JDict d =>
      match Dict.get k d with
      | Some v => Val v
      | None => Exc (KeyError (JStr k))
      end
  | _ => Exc TypeError
  end.

(** [obj.get(k)] *)
Definition get (obj : json) (k : string) : result json :=
  match obj with
  | JDict d =>
      match Dict.get k d with
      | Some v => Val v
      | None => Val JNull
      end
  | _ => Exc AttributeError
  end.

(** [k in obj] for a string [k]. *)
Definition contains (k : string) (obj : json) : result bool :=
  match obj with
  | JDict d => Val (Dict.mem k d)
  | JStr s => Val (Str.contains k s)
  | JList l => Val (existsb (fun x => eq_str x k) l)
  | _ => Exc TypeError
  end.

(** [obj[k] = v] for a string key. *)
Definition setitem (obj : json) (k : string) (v : json) : result json :=
  match obj with
  | JDict d => Val (JDict (Dict.set k v d))
  | _ => Exc TypeError
  end.

(** [obj.items()] *)
Definition items (obj : json) : result (list (string * json)) :=
  match obj with
  | JDict d => Val d
  | _ => Exc AttributeError
  end.

(** [len(obj)] *)
Definition len (obj : json) : result nat :=
  match obj with
  | JDict d => Val (List.length d)
  | JList l => Val (List.length l)
  | JStr s => Val (String.length s)
  | _ => Exc TypeError
  end.

Fixpoint chars (s : string) : list json :=
  match s with
  | EmptyString => []
  | String c s' => JStr (String c EmptyString) :: chars s'
  end.

(** The elements a [for] loop over [obj] visits. *)
Definition iter (obj : json) : result (list json) :=
  match obj with
  | JList l => Val l
  | JDict d => Val (map (fun kv => JStr (fst kv)) d)
  | JStr s => Val (chars s)
  | _ => Exc TypeError
  end.

(** [l[z]] on a sequence, negative positions counted from the end. *)
Definition index (l : list json) (z : Z) : result json :=
  let n := Z.of_nat (List.length l) in
  let i := if z <? 0 then z + n else z in
  if andb (0 <=? i) (i <? n)
  then match nth_error l (Z.to_nat i) with
       | Some v => Val v
       | None => Exc IndexError
       end
  else Exc IndexError.

(** [obj[key]] for a key that is itself a JSON value. *)
Definition getitem_key (obj key : json) : result json :=
  match key with
  | JStr k => getitem obj k
  | JInt z =>
      match obj with
      | JDict _ => Exc (KeyError key)
      | JList l => index l z
      | JStr s => index (chars s) z
      | _ => Exc TypeError
      end
  | JBool b =>
      match obj with
      | JDict _ => Exc (KeyError key)
      | JList l => index l (if b then 1 else 0)
      | JStr s => index (chars s) (if b then 1 else 0)
      | _ => Exc TypeError
      end
  | JNull | JFloat _ =>
      match obj with
      | JDict _ => Exc (KeyError key)
      | _ => Exc TypeError
      end
  | JList _ | JDict _ => Exc TypeError
  end.

Fixpoint strings_of (l : list json) : result (list string) :=
  match l with
  | [] => Val []
  | JStr s :: rest =>
      match strings_of rest with
      | Val ss => Val (s :: ss)
      | Exc e => Exc e
      end
  | _ :: _ => Exc TypeError
  end.

(** [sep.join(obj)] *)
Definition join (sep : string) (obj : json) : result string :=
  match iter obj with
  | Val parts =>
      match strings_of parts with
      | Val ss => Val (Str.join sep ss)
      | Exc e => Exc e
      end
  | Exc e => Exc e
  end.

(** [a, b = obj] *)
Definition unpack2 (obj : json) : result (json * json) :=
  match iter obj with
  | Val [a; b] => Val (a, b)
  | Val _ => Exc ValueError
  | Exc e => Exc e
  end.

End Py.

(** ** The environment of the handler *)

(** What [requests] hands back: the status code, the body parsed by
    [.json()] ([None] when parsing raises) and [str(response.content)]. *)
Record http_response : Type := {
  status_code : Z;
  json_body : option json;
  content_str : string
}.

(** A file as the harvester sees it.  Each field is the outcome of one way
    of reading it, [None] when that way raises. *)
Record file : Type := {
  text_utf8 : option string;     (* open(path, 'r', encoding='utf-8').read() *)
  bytes_replace : option string; (* open(path, 'rb').read().decode('utf-8', errors='replace') *)
  jpeg_base64 : option string;   (* the PIL conversion to JPEG, base64 encoded *)
  removable : bool               (* whether os.remove(path) succeeds *)
}.

Inductive entry : Type :=
| Dir
| File (f : file).

(** Full path to entry. *)
Definition filesystem := list (string * entry).

Module Fs.

Fixpoint lookup (path : string) (fs : filesystem) : option entry :=
  match fs with
  | [] => None
  | (p, e) :: fs' => if String.eqb path p then Some e else lookup path fs'
  end.

(** [os.path.exists(path)] *)
Definition exists_ (path : string) (fs : filesystem) : bool :=
  match lookup path fs with Some _ => true | None => false end.

Fixpoint strip_prefix (pre s : string) : option string :=
  match pre, s with
  | EmptyString, _ => Some s
  | String a pre', String b s' =>
      if Ascii.eqb a b then strip_prefix pre' s' else None
  | String _ _, EmptyString => None
  end.

(** The name of [path] inside directory [dir], when it lies directly in it. *)
Definition name_in (dir path : string) : option string :=
  match strip_prefix (dir ++ "/") path with
  | Some name =>
      if orb (String.eqb name "") (Str.contains "/" name) then None
      else Some name
  | None => None
  end.

Fixpoint names_in (dir : string) (fs : filesystem) : list string :=
  match fs with
  | [] => []
  | (p, _) :: fs' =>
      match name_in dir p with
      | Some name => name :: names_in dir fs'
      | None => names_in dir fs'
      end
  end.

(** [os.listdir(dir)]: raises unless [dir] is a directory. *)
Definition listdir (dir : string) (fs : filesystem) : result (list string) :=
  match lookup dir fs with
  | Some Dir => Val (names_in dir fs)
  | _ => Exc (FileError dir)
  end.

Definition delete (path : string) (fs : filesystem) : filesystem :=
  filter (fun pe => negb (String.eqb path (fst pe))) fs.

(** [os.remove(path)] *)
Definition remove (path : string) (fs : filesystem) : result filesystem :=
  match lookup path fs with
  | Some (File f) =>
      if removable f then Val (delete path fs) else Exc (FileError path)
  | _ => Exc (FileError path)
  end.

Definition read_text (path : string) (fs : filesystem) : result string :=
  match lookup path fs with
  | Some (File f) =>
      match text_utf8 f with Some c => Val c | None => Exc (FileError path) end
  | _ => Exc (FileError path)
  end.

Definition read_bytes (path : string) (fs : filesystem) : result string :=
  match lookup path fs with
  | Some (File f) =>
      match bytes_replace f with Some c => Val c | None => Exc (FileError path) end
  | _ => Exc (FileError path)
  end.

Definition convert_jpeg (path : string) (fs : filesystem) : result string :=
  match lookup path fs with
  | Some (File f) =>
      match jpeg_base64 f with Some c => Val c | None => Exc (FileError path) end
  | _ => Exc (FileError path)
  end.

End Fs.

Inductive level : Type := DEBUG | INFO | WARNING | ERROR.

(** One constructor per [logging] call of the handler and of
    [scan_for_text_files]; the data is what the message is formatted from. *)
Inductive log_record : Type :=
| LogWorkflow (workflow_name : json)
| LogWorkflowLoadError (workflow_name : json)
| LogQueuingPrompt
| LogPromptQueued (prompt_id : json)
| LogGettingStatus (prompt_id : json)
| LogFilesGenerated (prompt_id : json)
| LogOutputImageSize (path : string)
| LogJpegImageSize (path : string)
| LogConvertError (path : string) (e : exn)
| LogConverted (path : string)
| LogDeletingOutput (path : string)
| LogDeletingTemp (path : string)
| LogTempDeleteError (path : string) (e : exn)
| LogLowMemory (available : Q)
| LogJobFailed (prompt_id : json)
| LogResponseJson (resp_json : json)
| LogHttpStatus (code : Z)
| LogHttpContent (body : json)
| LogException (e : exn)
| LogTextFile (path : string)
| LogTextFileBinary (path : string)
| LogTextFileError (path : string) (e : exn)
| LogScanError (dir : string) (e : exn).

Inductive event : Type :=
| EvLog (lvl : level) (r : log_record)
| EvOpen (path : string)                 (* open(path, 'r') of a workflow template *)
| EvPost (endpoint : string) (body : json)
| EvGet (endpoint : string)
| EvSleep.

(** The part of the environment the handler only reads.  The three
    telemetry functions are taken by what the handler keeps of their
    results; a Python float is the rational it denotes. *)
Record world : Type := {
  memory_available_gb : option Q;       (* get_container_memory_info(job_id).get('available'), before the job *)
  disk_free_bytes : option Z;           (* get_container_disk_info(job_id).get('free_bytes') *)
  memory_available_after : option Q;    (* the same memory reading after a successful job *)
  validate : json -> json;              (* validate(raw, INPUT_SCHEMA) *)
  load_json : string -> option json;    (* open(path) and json.load, None when either raises *)
  uuid4 : nat -> string;                (* the n-th str(uuid.uuid4()) of the run *)
  post : string -> json -> option http_response; (* session.post, None when it raises *)
  py_repr : json -> string;             (* str(v) of a value that is not a string *)
  fmt_2f : Q -> string;                 (* format(x, '.2f') *)
  tb_frames : exn -> string;            (* the stack part of traceback.format_exc() *)
  builtin_exn_line : exn -> string      (* the last line of a traceback for an interpreter-raised exception *)
}.

(** The part that changes during a run. *)
Record state : Type := {
  fs : filesystem;
  uuid_next : nat;
  history : list (option http_response);  (* answers of GET history/<id> still to come, None when the request raises *)
  trace : list event
}.

(** ** Exceptions, early returns and state *)

Definition bindr {A B : Type} (m : result A) (k : A -> result B) : result B :=
  match m with
  | Val a => k a
  | Exc e => Exc e
  end.

Notation "x <~ m ;; k" := (bindr m (fun x => k))
  (at level 61, m at next level, right associativity).

(** How a piece of the handler's body ends: it falls through with a value,
    executes a [return], raises, or never ends because the scripted service
    has no further answer while the poll loop is still waiting. *)
Inductive outcome (A : Type) : Type :=
| Ok (a : A)
| Return (r : json)
| Raise (e : exn)
| Hang.

Arguments Ok {A} a.
Arguments Return {A} r.
Arguments Raise {A} e.
Arguments Hang {A}.

Definition M (A : Type) : Type := state -> outcome A * state.

Definition ret {A : Type} (a : A) : M A := fun s => (Ok a, s).

Definition bind {A B : Type} (m : M A) (k : A -> M B) : M B :=
  fun s =>
    match m s with
    | (Ok a, s') => k a s'
    | (Return r, s') => (Return r, s')
    | (Raise e, s') => (Raise e, s')
    | (Hang, s') => (Hang, s')
    end.

Notation "x <- m ;; k" := (bind m (fun x => k))
  (at level 61, m at next level, right associativity).
Notation "m ;;; k" := (bind m (fun _ => k))
  (at level 61, right associativity).

Definition raise {A : Type} (e : exn) : M A := fun s => (Raise e, s).

Definition return_ {A : Type} (r : json) : M A := fun s => (Return r, s).

Definition lift {A : Type} (m : result A) : M A :=
  match m with
  | Val a => ret a
  | Exc e => raise e
  end.

(** [try: m  except Exception as e: h e] *)
Definition try_except {A : Type} (m : M A) (h : exn -> M A) : M A :=
  fun s =>
    match m s with
    | (Raise e, s') => h e s'
    | r => r
    end.

(** The boundary of a function whose body is [m]: a [return] inside the
    body is the value of the call. *)
Definition call (m : M json) : M json :=
  fun s =>
    match m s with
    | (Return r, s') => (Ok r, s')
    | r => r
    end.

Definition emit (e : event) : M unit :=
  fun s => (Ok tt, {| fs := fs s; uuid_next := uuid_next s;
                      history := history s; trace := trace s ++ [e] |}).

Definition log (lvl : level) (r : log_record) : M unit := emit (EvLog lvl r).

Definition get_fs : M filesystem := fun s => (Ok (fs s), s).

Definition put_fs (fs' : filesystem) : M unit :=
  fun s => (Ok tt, {| fs := fs'; uuid_next := uuid_next s;
                      history := history s; trace := trace s |}).

(** [os.remove(path)] *)
Definition os_remove (path : string) : M unit :=
  cur <- get_fs ;;
  fs' <- lift (Fs.remove path cur) ;;
  put_fs fs'.

(** [os.path.exists(path)] *)
Definition os_path_exists (path : string) : M bool :=
  cur <- get_fs ;; ret (Fs.exists_ path cur).

(** ** Constants of the module *)

Definition newline : string := String (ascii_of_nat 10) EmptyString.

Definition VOLUME_MOUNT_PATH : string := "/runpod-volume".
Definition DISK_MIN_FREE_BYTES : Z := 500 * 1024 * 1024.

Section Handler.

Variable W : world.

(** [str(v)], as an f-string renders [v]. *)
Definition py_str (v : json) : string :=
  match v with
  | JStr s => s
  | _ => py_repr W v
  end.

(** The last line of a traceback: the type, and the message when it is
    not empty. *)
Definition exn_line (e : exn) : string :=
  match e with
  | PyException msg =>
      if String.eqb msg "" then "Exception" else "Exception: " ++ msg
  | RuntimeError msg =>
      if String.eqb msg "" then "RuntimeError" else "RuntimeError: " ++ msg
  | _ => builtin_exn_line W e
  end.

(** [traceback.format_exc()] while [e] is being handled. *)
Definition format_exc (e : exn) : string :=
  tb_frames W e ++ exn_line e ++ newline.

(** [str(uuid.uuid4())] *)
Definition fresh_uuid : M string :=
  fun s => (Ok (uuid4 W (uuid_next s)),
            {| fs := fs s; uuid_next := S (uuid_next s);
               history := history s; trace := trace s |}).

(** *** Workflow payloads *)

(** [workflow[node]["inputs"][slot] = v] *)
Definition set_input (workflow : json) (node slot : string) (v : json)
  : result json :=
  n <~ Py.getitem workflow node ;;
  i <~ Py.getitem n "inputs" ;;
  i' <~ Py.setitem i slot v ;;
  n' <~ Py.setitem n "inputs" i' ;;
  Py.setitem workflow node n'.

(** [workflow[node]["inputs"][slot] = payload[param]] *)
Definition assign (payload : json) (workflow : json)
           (m : string * string * string) : result json :=
  let '(node, slot, param) := m in
  v <~ Py.getitem payload param ;;
  set_input workflow node slot v.

Fixpoint assign_all (payload : json) (workflow : json)
         (table : list (string * string * string)) : result json :=
  match table with
  | [] => Val workflow
  | m :: rest =>
      workflow' <~ assign payload workflow m ;;
      assign_all payload workflow' rest
  end.

(** The assignments of [get_txt2img_payload], in source order:
    node, input slot, job parameter. *)
Definition txt2img_table : list (string * string * string) :=
  [ ("3", "seed", "seed");
    ("3", "steps", "steps");
    ("3", "cfg", "cfg_scale");
    ("3", "sampler_name", "sampler_name");
    ("4", "ckpt_name", "ckpt_name");
    ("5", "batch_size", "batch_size");
    ("5", "width", "width");
    ("5", "height", "height");
    ("6", "text", "prompt");
    ("7", "text", "negative_prompt") ].

(** The assignments of [get_img2img_payload], in source order. *)
Definition img2img_table : list (string * string * string) :=
  [ ("13", "seed", "seed");
    ("13", "steps", "steps");
    ("13", "cfg", "cfg_scale");
    ("13", "sampler_name", "sampler_name");
    ("13", "scheduler", "scheduler");
    ("13", "denoise", "denoise");
    ("1", "ckpt_name", "ckpt_name");
    ("2", "width", "width");
    ("2", "height", "height");
    ("2", "target_width", "width");
    ("2", "target_height", "height");
    ("4", "width", "width");
    ("4", "height", "height");
    ("4", "target_width", "width");
    ("4", "target_height", "height");
    ("6", "text", "prompt");
    ("7", "text", "negative_prompt") ].

Definition get_txt2img_payload (workflow payload : json) : result json :=
  assign_all payload workflow txt2img_table.

Definition get_img2img_payload (workflow payload : json) : result json :=
  assign_all payload workflow img2img_table.

Definition workflow_path (workflow_name : json) : string :=
  "/workflows/" ++ py_str workflow_name ++ ".json".

Definition get_workflow_payload (workflow_name payload : json) : M json :=
  emit (EvOpen (workflow_path workflow_name)) ;;;
  match load_json W (workflow_path workflow_name) with
  | None => raise (FileError (workflow_path workflow_name))
  | Some workflow =>
      if Py.eq_str workflow_name "txt2img"
      then lift (get_txt2img_payload workflow payload)
      else ret workflow
  end.

(** *** Unique filename prefixes *)

Definition text_output_types : list string :=
  ["SaveText|pysssss"; "SaveText"; "TextFileOutput"; "WriteTextFile"].

(** [payload[key]['inputs'][slot] = v], where [value] is [payload[key]]. *)
Definition set_node_input (value : json) (slot : string) (v : json)
  : result json :=
  i <~ Py.getitem value "inputs" ;;
  i' <~ Py.setitem i slot v ;;
  Py.setitem value "inputs" i'.

(** One iteration of the loop of [create_unique_filename_prefix], on the
    node [value] stored under the current key; the result is the node
    after the in-place assignments. *)
Definition prefix_node (value : json) : M json :=
  class_type <- lift (Py.get value "class_type") ;;
  if Py.eq_str class_type "SaveImage" then
    u <- fresh_uuid ;;
    lift (set_node_input value "filename_prefix" (JStr u))
  else if existsb (Py.eq_str class_type) text_output_types then
    inputs <- lift (Py.getitem value "inputs") ;;
    has_prefix <- lift (Py.contains "filename_prefix" inputs) ;;
    if has_prefix then
      u <- fresh_uuid ;;
      lift (set_node_input value "filename_prefix" (JStr u))
    else
      has_file <- lift (Py.contains "file" inputs) ;;
      if has_file then
        original_filename <- lift (Py.getitem inputs "file") ;;
        u <- fresh_uuid ;;
        lift (set_node_input value "file"
                (JStr (u ++ "_" ++ py_str original_filename)))
      else
        has_filename <- lift (Py.contains "filename" inputs) ;;
        if has_filename then
          original_filename <- lift (Py.getitem inputs "filename") ;;
          u <- fresh_uuid ;;
          lift (set_node_input value "filename"
                  (JStr (u ++ "_" ++ py_str original_filename)))
        else ret value
  else ret value.

Fixpoint prefix_items (items : list (string * json))
  : M (list (string * json)) :=
  match items with
  | [] => ret []
  | (key, value) :: rest =>
      value' <- prefix_node value ;;
      rest' <- prefix_items rest ;;
      ret ((key, value') :: rest')
  end.

(** The payload after the call; the source mutates it in place, node by
    node in the order of [payload.items()], and no key is added or
    removed. *)
Definition create_unique_filename_prefix (payload : json) : M json :=
  items <- lift (Py.items payload) ;;
  items' <- prefix_items items ;;
  ret (JDict items').

(** *** Requests to the generation service *)

Definition send_post_request (endpoint : string) (payload : json)
  : M http_response :=
  emit (EvPost endpoint payload) ;;;
  match post W endpoint payload with
  | Some r => ret r
  | None => raise RequestException
  end.

(** [r.json()] *)
Definition response_json (r : http_response) : result json :=
  match json_body r with
  | Some j => Val j
  | None => Exc JSONDecodeError
  end.

Definition status_endpoint (prompt_id : json) : string :=
  "history/" ++ py_str prompt_id.

Definition should_log_status (retries : nat) : bool :=
  orb (Nat.eqb retries 0) (Nat.eqb (Nat.modulo retries 15) 0).

Definition take_history (rest : list (option http_response)) : M unit :=
  fun s => (Ok tt, {| fs := fs s; uuid_next := uuid_next s;
                      history := rest; trace := trace s |}).

(** The [while True] loop of the handler, started with [retries] and with
    [script] the answers the service still has; it ends with the
    [resp_json] the loop breaks on. *)
Fixpoint poll_from (prompt_id : json) (script : list (option http_response))
         (retries : nat) : M json :=
  (if should_log_status retries
   then log INFO (LogGettingStatus prompt_id) else ret tt) ;;;
  emit (EvGet (status_endpoint prompt_id)) ;;;
  match script with
  | [] => fun s => (Hang, s)
  | answer :: rest =>
      take_history rest ;;;
      match answer with
      | None => raise RequestException
      | Some r =>
          resp_json <- lift (response_json r) ;;
          stop <- (if status_code r =? 200
                   then n <- lift (Py.len resp_json) ;; ret (negb (Nat.eqb n 0))
                   else ret false) ;;
          if (stop : bool) then ret resp_json
          else emit EvSleep ;;; poll_from prompt_id rest (S retries)
      end
  end.

Definition poll_history (prompt_id : json) : M json :=
  fun s => poll_from prompt_id (history s) 0 s.

(** *** Harvesting *)

Definition image_file (image : json) : json :=
  JDict [("type", JStr "image"); ("data", image)].

Fixpoint output_files_of (items : list (string * json)) : result (list json) :=
  match items with
  | [] => Val []
  | (key, value) :: rest =>
      has_images <~ Py.contains "images" value ;;
      here <~ (if (has_images : bool) then
                 images <~ Py.getitem value "images" ;;
                 match images with
                 | JList l => Val (map image_file l)
                 | _ => Val []
                 end
               else Val []) ;;
      later <~ output_files_of rest ;;
      Val (here ++ later)%list
  end.

Definition get_output_files (output : json) : result (list json) :=
  items <~ Py.items output ;;
  output_files_of items.

(** [try: os.remove(image_path)  except: log] of the temp branches. *)
Definition remove_temp (image_path : string) : M unit :=
  log INFO (LogDeletingTemp image_path) ;;;
  try_except (os_remove image_path)
             (fun e => log ERROR (LogTempDeleteError image_path e)).

(** The body of the loop over [output_files]; [images] is the list built
    so far. *)
Definition process_output_file (images : list json) (output_file : json)
  : M (list json) :=
  type <- lift (Py.getitem output_file "type") ;;
  if Py.eq_str type "image" then
    data <- lift (Py.getitem output_file "data") ;;
    filename <- lift (Py.get data "filename") ;;
    file_type <- lift (Py.get data "type") ;;
    if Py.eq_str file_type "output" then
      let image_path :=
        VOLUME_MOUNT_PATH ++ "/ComfyUI/output/" ++ py_str filename in
      present <- os_path_exists image_path ;;
      if (present : bool) then
        log INFO (LogOutputImageSize image_path) ;;;
        images' <- try_except
                     (cur <- get_fs ;;
                      image_data <- lift (Fs.convert_jpeg image_path cur) ;;
                      log INFO (LogJpegImageSize image_path) ;;;
                      ret (images ++ [JStr image_data])%list)
                     (fun e =>
                        log ERROR (LogConvertError image_path e) ;;;
                        ret images) ;;
        log INFO (LogConverted image_path) ;;;
        log INFO (LogDeletingOutput image_path) ;;;
        os_remove image_path ;;;
        ret images'
      else ret images
    else if Py.eq_str file_type "temp" then
      let image_path :=
        VOLUME_MOUNT_PATH ++ "/ComfyUI/temp/" ++ py_str filename in
      present <- os_path_exists image_path ;;
      if (present : bool) then remove_temp image_path ;;; ret images
      else
        let image_path := "/tmp/" ++ py_str filename in
        present <- os_path_exists image_path ;;
        if (present : bool) then remove_temp image_path ;;; ret images
        else ret images
    else ret images
  else ret images.

Fixpoint process_output_files (images : list json) (output_files : list json)
  : M (list json) :=
  match output_files with
  | [] => ret images
  | output_file :: rest =>
      images' <- process_output_file images output_file ;;
      process_output_files images' rest
  end.

(** [filename.split('_')[0]] when ['_' in filename]; [None] otherwise. *)
Definition token_of (filename : string) : option json :=
  if Str.contains "_" filename
  then Some (JStr (Str.before_underscore filename))
  else None.

(** The loop that derives [unique_prefix] from the payload; it stops at
    the first node that yields one, and the result is [JNull] when there
    is none. *)
Fixpoint unique_prefix_of (items : list (string * json)) : result json :=
  match items with
  | [] => Val JNull
  | (key, value) :: rest =>
      match value with
      | JDict node =>
          match Dict.get "inputs" node with
          | Some inputs =>
              has_prefix <~ Py.contains "filename_prefix" inputs ;;
              if (has_prefix : bool) then Py.getitem inputs "filename_prefix"
              else
                has_file <~ Py.contains "file" inputs ;;
                file <~ (if (has_file : bool)
                         then Py.getitem inputs "file" else Val JNull) ;;
                match has_file, file with
                | true, JStr filename =>
                    match token_of filename with
                    | Some t => Val t
                    | None => unique_prefix_of rest
                    end
                | _, _ =>
                    has_filename <~ Py.contains "filename" inputs ;;
                    file <~ (if (has_filename : bool)
                             then Py.getitem inputs "filename" else Val JNull) ;;
                    match has_filename, file with
                    | true, JStr filename =>
                        match token_of filename with
                        | Some t => Val t
                        | None => unique_prefix_of rest
                        end
                    | _, _ => unique_prefix_of rest
                    end
                end
          | None => unique_prefix_of rest
          end
      | _ => unique_prefix_of rest
      end
  end.

Definition extract_unique_prefix (payload : json) : result json :=
  items <~ Py.items payload ;;
  unique_prefix_of items.

Definition text_extensions : list string :=
  [".txt"; ".json"; ".xml"; ".csv"; ".log"; ".md"; ".yaml"; ".yml"].

Definition scan_dirs : list string :=
  [ VOLUME_MOUNT_PATH ++ "/ComfyUI/output";
    VOLUME_MOUNT_PATH ++ "/ComfyUI/temp";
    "/tmp" ].

Definition is_text_file (filename : string) : bool :=
  existsb (fun ext => Str.endswith ext (Str.lower filename)) text_extensions.

Definition text_entry (filename content : string) : json :=
  JDict [("filename", JStr filename); ("content", JStr content)].

(** [unique_prefix and not filename.startswith(unique_prefix)] *)
Definition skipped_by_prefix (unique_prefix : json) (filename : string)
  : result bool :=
  if Py.truthy unique_prefix then
    match unique_prefix with
    | JStr p => Val (negb (Str.startswith p filename))
    | _ => Exc TypeError
    end
  else Val false.

(** The binary-mode fallback of the inner [except]. *)
Definition read_binary (file_path filename : string) (text_files : list json)
  : M (list json) :=
  cur <- get_fs ;;
  match Fs.read_bytes file_path cur with
  | Val content =>
      let text_files' := (text_files ++ [text_entry filename content])%list in
      log INFO (LogTextFileBinary file_path) ;;;
      try_except (os_remove file_path ;;; ret text_files')
                 (fun e2 =>
                    log ERROR (LogTextFileError file_path e2) ;;;
                    ret text_files')
  | Exc e2 =>
      log ERROR (LogTextFileError file_path e2) ;;; ret text_files
  end.

(** The inner [try] for one file that passed the filters; [text_files] is
    the list built so far, and what is appended stays appended when a
    later statement of the [try] raises. *)
Definition read_text_file (file_path filename : string) (text_files : list json)
  : M (list json) :=
  cur <- get_fs ;;
  match Fs.read_text file_path cur with
  | Val content =>
      let text_files' := (text_files ++ [text_entry filename content])%list in
      log INFO (LogTextFile file_path) ;;;
      try_except (os_remove file_path ;;; ret text_files')
                 (fun _ => read_binary file_path filename text_files')
  | Exc _ => read_binary file_path filename text_files
  end.

(** The loop over [os.listdir(scan_dir)] inside the outer [try]: an
    exception that escapes an iteration ends the loop, is logged by the
    outer [except], and leaves [text_files] as it was. *)
Fixpoint scan_names (unique_prefix : json) (scan_dir : string)
         (names : list string) (text_files : list json) : M (list json) :=
  match names with
  | [] => ret text_files
  | filename :: rest =>
      let file_path := scan_dir ++ "/" ++ filename in
      if is_text_file filename then
        match skipped_by_prefix unique_prefix filename with
        | Val true => scan_names unique_prefix scan_dir rest text_files
        | Val false =>
            text_files' <- read_text_file file_path filename text_files ;;
            scan_names unique_prefix scan_dir rest text_files'
        | Exc e =>
            log WARNING (LogScanError scan_dir e) ;;; ret text_files
        end
      else scan_names unique_prefix scan_dir rest text_files
  end.

Definition scan_dir_for_text_files (unique_prefix : json) (scan_dir : string)
           (text_files : list json) : M (list json) :=
  present <- os_path_exists scan_dir ;;
  if (present : bool) then
    cur <- get_fs ;;
    match Fs.listdir scan_dir cur with
    | Val names => scan_names unique_prefix scan_dir names text_files
    | Exc e => log WARNING (LogScanError scan_dir e) ;;; ret text_files
    end
  else ret text_files.

Fixpoint scan_all (unique_prefix : json) (dirs : list string)
         (text_files : list json) : M (list json) :=
  match dirs with
  | [] => ret text_files
  | scan_dir :: rest =>
      text_files' <- scan_dir_for_text_files unique_prefix scan_dir text_files ;;
      scan_all unique_prefix rest text_files'
  end.

Definition scan_for_text_files (unique_prefix : json) : M (list json) :=
  scan_all unique_prefix scan_dirs [].

(** *** The handler *)

Definition Qltb (a b : Q) : bool := negb (Qle_bool b a).

Definition memory_message (memory_available_gb : Q) : string :=
  "Insufficient available container memory: " ++ fmt_2f W memory_available_gb
    ++ " GB available (minimum 0.5 GB required)".

Definition disk_message (disk_free_bytes : Z) : string :=
  let free_gb := (inject_Z disk_free_bytes / inject_Z (1024 ^ 3))%Q in
  "Insufficient free container disk space: " ++ fmt_2f W free_gb
    ++ " GB available (minimum 0.5 GB required)".

(** The two checks at the head of the [try]. *)
Definition resource_guard : M unit :=
  (match memory_available_gb W with
   | Some m =>
       if Qltb m (1 # 2) then raise (PyException (memory_message m))
       else ret tt
   | None => ret tt
   end) ;;;
  match disk_free_bytes W with
  | Some d =>
      if d <? DISK_MIN_FREE_BYTES then raise (PyException (disk_message d))
      else ret tt
  | None => ret tt
  end.

(** The payload that is submitted for [workflow_name] and the validated
    [payload]: the alias, the template, the unique prefixes. *)
Definition build_payload (workflow_name payload : json) : M json :=
  let workflow_name :=
    if Py.eq_str workflow_name "default" then JStr "txt2img"
    else workflow_name in
  log INFO (LogWorkflow workflow_name) ;;;
  payload <- (if negb (Py.eq_str workflow_name "custom") then
                try_except
                  (get_workflow_payload workflow_name payload)
                  (fun e =>
                     log ERROR (LogWorkflowLoadError workflow_name) ;;;
                     raise e)
              else ret payload) ;;
  create_unique_filename_prefix payload.

(** From validation to the payload that is submitted. *)
Definition prepare_payload (event : json) : M json :=
  input <- lift (Py.getitem event "input") ;;
  let validated_input := validate W input in
  has_errors <- lift (Py.contains "errors" validated_input) ;;
  if (has_errors : bool) then
    errors <- lift (Py.getitem validated_input "errors") ;;
    text <- lift (Py.join newline errors) ;;
    return_ (JDict [("error", JStr text)])
  else
    payload <- lift (Py.getitem validated_input "validated_input") ;;
    workflow_name <- lift (Py.getitem payload "workflow") ;;
    payload <- lift (Py.getitem payload "payload") ;;
    build_payload workflow_name payload.

(** What follows the answer to the queue request: on HTTP 200 the poll
    loop, which yields the prompt id and the [resp_json] it ended on;
    otherwise the error response for the status code. *)
Definition handle_queue_response (queue_response : http_response)
  : M (json * json) :=
  if status_code queue_response =? 200 then
    resp_json <- lift (response_json queue_response) ;;
    prompt_id <- lift (Py.getitem resp_json "prompt_id") ;;
    log INFO (LogPromptQueued prompt_id) ;;;
    resp_json <- poll_history prompt_id ;;
    ret (prompt_id, resp_json)
  else
    queue_response_content <-
      try_except (lift (response_json queue_response))
                 (fun _ => ret (JStr (content_str queue_response))) ;;
    log ERROR (LogHttpStatus (status_code queue_response)) ;;;
    log ERROR (LogHttpContent queue_response_content) ;;;
    return_ (JDict [("error",
                     JStr ("HTTP status code: "
                             ++ py_str (JInt (status_code queue_response))));
                    ("output", queue_response_content)]).

(** Queue the prompt and wait for its history entry. *)
Definition submit_and_poll (payload : json) : M (json * json) :=
  log DEBUG LogQueuingPrompt ;;;
  queue_response <- send_post_request "prompt" (JDict [("prompt", payload)]) ;;
  handle_queue_response queue_response.

(** The response of a successful job. *)
Definition success_response (images text_files : list json) : M json :=
  let response := [("images", JList images)] in
  let response :=
    match text_files with
    | [] => response
    | _ => Dict.set "text_files" (JList text_files) response
    end in
  match memory_available_after W with
  | Some m =>
      if Qltb m 1 then
        log INFO (LogLowMemory m) ;;;
        return_ (JDict (Dict.set "refresh_worker" (JBool true) response))
      else return_ (JDict response)
  | None => return_ (JDict response)
  end.

Definition job_failed_message (prompt_id : json) : string :=
  "Job did not process successfully for prompt_id: " ++ py_str prompt_id.

(** The loop over [status['messages']] of a job that did not succeed. *)
Fixpoint check_messages (prompt_id resp_json : json) (messages : list json)
  : M unit :=
  match messages with
  | [] => ret tt
  | message :: rest =>
      kv <- lift (Py.unpack2 message) ;;
      let key := fst kv in
      let value := snd kv in
      if Py.eq_str key "execution_error" then
        has_node <- lift (Py.contains "node_type" value) ;;
        both <- (if (has_node : bool)
                 then lift (Py.contains "exception_message" value)
                 else ret false) ;;
        if (both : bool) then
          node_type <- lift (Py.getitem value "node_type") ;;
          exception_message <- lift (Py.getitem value "exception_message") ;;
          raise (RuntimeError
                   (py_str node_type ++ ": " ++ py_str exception_message))
        else
          log ERROR (LogJobFailed prompt_id) ;;;
          log INFO (LogResponseJson resp_json) ;;;
          raise (RuntimeError (job_failed_message prompt_id))
      else check_messages prompt_id resp_json rest
  end.

(** [status['status_str'] == 'success' and status['completed']] *)
Definition succeeded (status : json) : result bool :=
  status_str <~ Py.getitem status "status_str" ;;
  if Py.eq_str status_str "success" then
    completed <~ Py.getitem status "completed" ;;
    Val (Py.truthy completed)
  else Val false.

(** What the handler does with the history entry it polled. *)
Definition finish (payload prompt_id resp_json : json) : M json :=
  entry <- lift (Py.getitem_key resp_json prompt_id) ;;
  status <- lift (Py.getitem entry "status") ;;
  ok <- lift (succeeded status) ;;
  if (ok : bool) then
    outputs <- lift (Py.getitem entry "outputs") ;;
    log INFO (LogFilesGenerated prompt_id) ;;;
    output_files <- lift (get_output_files outputs) ;;
    images <- process_output_files [] output_files ;;
    unique_prefix <- lift (extract_unique_prefix payload) ;;
    text_files <- scan_for_text_files unique_prefix ;;
    success_response images text_files
  else
    messages <- lift (Py.getitem status "messages") ;;
    messages <- lift (Py.iter messages) ;;
    check_messages prompt_id resp_json messages ;;;
    ret JNull.

(** The body of the [try]. *)
Definition handler_try (event : json) : M json :=
  resource_guard ;;;
  payload <- prepare_payload event ;;
  polled <- submit_and_poll payload ;;
  finish payload (fst polled) (snd polled).

Definition error_response (e : exn) : json :=
  JDict [("error", JStr (format_exc e)); ("refresh_worker", JBool true)].

(** The handler on an id that [os.environ] accepts.  The assignment
    before the [try] is kept as the test that the id is a string (what
    else it refuses is in [handler_entry] below), and the telemetry calls
    at the head of the [try] as the two readings of the world: the trace
    holds the handler's own log lines and requests, not those of the
    telemetry functions, which are modelled in [Telemetry]. *)
Definition handler (event : json) : M json :=
  call
    (job_id <- lift (Py.getitem event "id") ;;
     (if Py.is_str job_id then ret tt else raise TypeError) ;;;
     try_except
       (handler_try event)
       (fun e =>
          log ERROR (LogException e) ;;;
          return_ (error_response e))).

(** *** The assignment to the environment *)

Definition holds_nul (s : string) : bool := Str.contains (String "000" "") s.

(** [os.environ['RUNPOD_JOB_ID'] = job_id]: a value that is not a string
    raises [TypeError]; a string is encoded for the file system, which
    raises [UnicodeEncodeError], a [ValueError], when it does not encode
    (a lone surrogate), and one that holds a NUL character raises
    [ValueError].  [encodes] says which strings encode. *)
Definition set_job_environ (encodes : string -> bool) (job_id : json)
  : result unit :=
  match job_id with
  | JStr s =>
      if negb (encodes s) then Exc ValueError
      else if holds_nul s then Exc ValueError
      else Val tt
  | _ => Exc TypeError
  end.

(** The handler from its first line, with the assignment to the
    environment before the [try] spelled out; [handler] is this function
    on the ids the environment accepts. *)
Definition handler_entry (encodes : string -> bool) (event : json) : M json :=
  call
    (job_id <- lift (Py.getitem event "id") ;;
     lift (set_job_environ encodes job_id) ;;;
     try_except
       (handler_try event)
       (fun e =>
          log ERROR (LogException e) ;;;
          return_ (error_response e))).

End Handler.

(** ** A concrete worker, used to run the model *)

Module Scenario.

Definition uuids (n : nat) : string :=
  match n with
  | O => "0b0e6bd2-6c1c-4b1e-9d0a-5f1f2f3a4b5c"
  | S O => "7c9e6679-7425-40de-944b-e07fc1f90ae7"
  | _ => "f47ac10b-58cc-4372-a567-0e02b2c3d479"
  end.

Definition node (class_type : string) (inputs : list (string * json)) : json :=
  JDict [("inputs", JDict inputs); ("class_type", JStr class_type)].

Definition link (n : string) (i : Z) : json := JList [JStr n; JInt i].

Definition txt2img_template : json :=
  JDict
    [ ("3", node "KSampler"
              [("seed", JInt 0); ("steps", JInt 20); ("cfg", JInt 8);
               ("sampler_name", JStr "euler"); ("scheduler", JStr "normal");
               ("denoise", JInt 1); ("model", link "4" 0);
               ("positive", link "6" 0); ("negative", link "7" 0);
               ("latent_image", link "5" 0)]);
      ("4", node "CheckpointLoaderSimple" [("ckpt_name", JStr "model.safetensors")]);
      ("5", node "EmptyLatentImage"
              [("width", JInt 512); ("height", JInt 512); ("batch_size", JInt 1)]);
      ("6", node "CLIPTextEncode" [("text", JStr ""); ("clip", link "4" 1)]);
      ("7", node "CLIPTextEncode" [("text", JStr ""); ("clip", link "4" 1)]);
      ("8", node "VAEDecode" [("samples", link "3" 0); ("vae", link "4" 2)]);
      ("9", node "SaveImage" [("filename_prefix", JStr "ComfyUI"); ("images", link "8" 0)]) ].

Definition img2img_template : json :=
  JDict
    [ ("1", node "CheckpointLoaderSimple" [("ckpt_name", JStr "model.safetensors")]);
      ("2", node "CLIPTextEncodeSDXL"
              [("width", JInt 1024); ("height", JInt 1024);
               ("target_width", JInt 1024); ("target_height", JInt 1024)]);
      ("4", node "CLIPTextEncodeSDXL"
              [("width", JInt 1024); ("height", JInt 1024);
               ("target_width", JInt 1024); ("target_height", JInt 1024)]);
      ("6", node "CLIPTextEncode" [("text", JStr "")]);
      ("7", node "CLIPTextEncode" [("text", JStr "")]);
      ("13", node "KSampler"
               [("seed", JInt 0); ("steps", JInt 20); ("cfg", JInt 8);
                ("sampler_name", JStr "euler"); ("scheduler", JStr "normal");
                ("denoise", JInt 1)]);
      ("9", node "SaveImage" [("filename_prefix", JStr "ComfyUI")]) ].

Definition params : json :=
  JDict
    [ ("seed", JInt 42); ("steps", JInt 30); ("cfg_scale", JInt 7);
      ("sampler_name", JStr "dpmpp_2m"); ("scheduler", JStr "karras");
      ("denoise", JInt 1); ("ckpt_name", JStr "sdxl.safetensors");
      ("batch_size", JInt 1); ("width", JInt 768); ("height", JInt 768);
      ("prompt", JStr "a red fox"); ("negative_prompt", JStr "blurry") ].

Definition templates (path : string) : option json :=
  if String.eqb path "/workflows/txt2img.json" then Some txt2img_template
  else if String.eqb path "/workflows/img2img.json" then Some img2img_template
  else None.

Definition queued : http_response :=
  {| status_code := 200;
     json_body := Some (JDict [("prompt_id", JStr "p-1"); ("number", JInt 1)]);
     content_str := "" |}.

Definition worker : world :=
  {| memory_available_gb := Some (8 # 1);
     disk_free_bytes := Some (20 * 1024 * 1024 * 1024);
     memory_available_after := Some (6 # 1);
     validate := fun input => JDict [("validated_input", input)];
     load_json := templates;
     uuid4 := uuids;
     post := fun _ _ => Some queued;
     py_repr := fun _ => "<value>";
     fmt_2f := fun _ => "0.00";
     tb_frames := fun _ => "Traceback (most recent call last):" ++ newline;
     builtin_exn_line := fun _ => "Error" |}.

(** The same worker with 100 MB of free disk. *)
Definition low_disk_worker : world :=
  {| memory_available_gb := None;
     disk_free_bytes := Some (100 * 1024 * 1024);
     memory_available_after := None;
     validate := validate worker;
     load_json := templates;
     uuid4 := uuids;
     post := post worker;
     py_repr := py_repr worker;
     fmt_2f := fun _ => "0.10";
     tb_frames := tb_frames worker;
     builtin_exn_line := builtin_exn_line worker |}.

(** The same worker, left with 0.75 GB of memory after the job. *)
Definition tight_worker : world :=
  {| memory_available_gb := memory_available_gb worker;
     disk_free_bytes := disk_free_bytes worker;
     memory_available_after := Some (3 # 4);
     validate := validate worker;
     load_json := templates;
     uuid4 := uuids;
     post := post worker;
     py_repr := py_repr worker;
     fmt_2f := fmt_2f worker;
     tb_frames := tb_frames worker;
     builtin_exn_line := builtin_exn_line worker |}.

Definition job (workflow : string) (payload : json) : json :=
  JDict [("id", JStr "job-1");
         ("input", JDict [("workflow", JStr workflow); ("payload", payload)])].

Definition pending : http_response :=
  {| status_code := 200; json_body := Some (JDict []); content_str := "{}" |}.

Definition history_entry (status_str : string) (completed : bool)
           (messages : list json) (outputs : list (string * json)) : http_response :=
  {| status_code := 200;
     json_body :=
       Some (JDict
               [("p-1",
                 JDict [("status",
                         JDict [("status_str", JStr status_str);
                                ("completed", JBool completed);
                                ("messages", JList messages)]);
                        ("outputs", JDict outputs)])]);
     content_str := "" |}.

Definition output_image (filename : string) : (string * json) :=
  ("9", JDict [("images",
                JList [JDict [("filename", JStr filename);
                              ("subfolder", JStr "");
                              ("type", JStr "output")]])]).

(** Sixteen empty answers, then a successful entry without outputs. *)
Definition slow_script : list (option http_response) :=
  (List.repeat (Some pending) 16
     ++ [Some (history_entry "success" true [] [])])%list.

(** A caller-built workflow that saves an image and a text file. *)
Definition custom_payload : json :=
  JDict
    [ ("6", node "CLIPTextEncode" [("text", JStr "a red fox")]);
      ("9", node "SaveImage"
              [("filename_prefix", JStr "ComfyUI"); ("images", link "8" 0)]);
      ("10", node "SaveText|pysssss"
               [("root_dir", JStr "output"); ("file", JStr "caption.txt");
                ("text", link "11" 0)]) ].

(** A caller-built workflow that only saves a text file. *)
Definition text_payload : json :=
  JDict
    [ ("6", node "CLIPTextEncode" [("text", JStr "a red fox")]);
      ("10", node "SaveText|pysssss"
               [("root_dir", JStr "output"); ("file", JStr "caption.txt");
                ("text", link "11" 0)]) ].

Definition done_script : list (option http_response) :=
  [Some pending; Some (history_entry "success" true [] [])].

Definition message (key : string) (value : list (string * json)) : json :=
  JList [JStr key; JDict value].

Definition execution_start : json :=
  message "execution_start" [("prompt_id", JStr "p-1")].

Definition cuda_oom : json :=
  message "execution_error"
          [("prompt_id", JStr "p-1"); ("node_id", JStr "3");
           ("node_type", JStr "KSampler");
           ("exception_message", JStr "CUDA OOM");
           ("exception_type", JStr "torch.OutOfMemoryError")].

Definition execution_interrupted : json :=
  message "execution_interrupted"
          [("prompt_id", JStr "p-1"); ("node_id", JStr "3");
           ("node_type", JStr "KSampler")].

Definition failing_script (messages : list json) : list (option http_response) :=
  [Some pending; Some (history_entry "error" false messages [])].

Definition plain_file (content : string) : entry :=
  File {| text_utf8 := Some content; bytes_replace := Some content;
          jpeg_base64 := None; removable := true |}.

Definition image (b64 : string) : entry :=
  File {| text_utf8 := None; bytes_replace := Some "";
          jpeg_base64 := Some b64; removable := true |}.

(** A readable file that [os.remove] cannot delete. *)
Definition locked_file (content : string) : entry :=
  File {| text_utf8 := Some content; bytes_replace := Some content;
          jpeg_base64 := None; removable := false |}.

Definition caption_path : string :=
  "/runpod-volume/ComfyUI/output/" ++ uuids 0 ++ "_caption.txt".

(** Where the SaveText node of [custom_payload] writes: its [file] slot
    after injection starts with the second token of the run. *)
Definition custom_caption_path : string :=
  "/runpod-volume/ComfyUI/output/" ++ uuids 1 ++ "_caption.txt".

Definition dirs : filesystem :=
  [ ("/runpod-volume/ComfyUI/output", Dir);
    ("/runpod-volume/ComfyUI/temp", Dir);
    ("/tmp", Dir) ].

Definition start (files : filesystem) (script : list (option http_response)) : state :=
  {| fs := (dirs ++ files)%list; uuid_next := 0; history := script; trace := [] |}.

End Scenario.

(** ** Waiting for the service at start-up *)

Module Startup.

(** One [requests.get(url)] of [wait_for_service]: it returns, it raises a
    [RequestException], or it raises something else. *)
Inductive probe : Type := Up | Refused | Failed.

Inductive startup_event : Type :=
| NotReadyLog      (* logging.info('Service not ready yet. Retrying...') *)
| ProbeErrorLog    (* logging.error(f'Error: {err}') *)
| StartupSleep.    (* time.sleep(0.2) *)

Definition not_ready_line (retries : nat) : list startup_event :=
  if Nat.eqb (Nat.modulo retries 15) 0 then [NotReadyLog] else [].

(** The loop of [wait_for_service] from a given value of [retries], over
    the outcomes the probes still have; [None] when the outcomes run out
    while the loop is still waiting. *)
Fixpoint wait_from (script : list probe) (retries : nat)
  : option (list startup_event) :=
  match script with
  | [] => None
  | Up :: _ => Some []
  | Refused :: rest =>
      match wait_from rest (S retries) with
      | Some evs => Some (not_ready_line (S retries) ++ StartupSleep :: evs)%list
      | None => None
      end
  | Failed :: rest =>
      match wait_from rest retries with
      | Some evs => Some (ProbeErrorLog :: StartupSleep :: evs)
      | None => None
      end
  end.

Definition wait_for_service (script : list probe) : option (list startup_event) :=
  wait_from script 0.

Definition is_refused (p : probe) : bool :=
  match p with Refused => true | _ => false end.

Definition is_failed (p : probe) : bool :=
  match p with Failed => true | _ => false end.

Definition is_up (p : probe) : bool :=
  match p with Up => true | _ => false end.

Definition is_not_ready_log (e : startup_event) : bool :=
  match e with NotReadyLog => true | _ => false end.

Definition is_probe_error_log (e : startup_event) : bool :=
  match e with ProbeErrorLog => true | _ => false end.

Definition is_sleep (e : startup_event) : bool :=
  match e with StartupSleep => true | _ => false end.

Definition tally {A : Type} (f : A -> bool) (l : list A) : nat :=
  List.length (filter f l).

End Startup.

(** ** Telemetry *)

Module Telemetry.

(** [open(path)] followed by reading the file: [FileNotFoundError], any
    other exception, or the content. *)
Inductive file_read : Type :=
| Missing
| Unreadable
| Text (content : string).

(** What the telemetry functions ask of the operating system. *)
Record system : Type := {
  read_file : string -> file_read;
  disk_usage : option (Z * Z * Z);   (* shutil.disk_usage('/'): total, used, free; None when it raises *)
  statvfs : option (Z * Z)           (* os.statvfs('/'): f_files, f_ffree; None when it raises *)
}.

(** What they ask of the interpreter, over a type [F] of floats. *)
Record python (F : Type) : Type := {
  py_int : string -> option Z;        (* int(s), None for ValueError *)
  py_split : string -> list string;   (* s.split() *)
  py_strip : string -> string;        (* s.strip() *)
  py_lines : string -> list string;   (* the lines of a file *)
  true_div : Z -> Z -> option F;      (* a / b on ints, None for ZeroDivisionError or OverflowError *)
  float_sub : F -> F -> F;            (* x - y on floats *)
  float_mul_int : F -> Z -> F         (* x * n *)
}.

Arguments py_int {F}.
Arguments py_split {F}.
Arguments py_strip {F}.
Arguments py_lines {F}.
Arguments true_div {F}.
Arguments float_sub {F}.
Arguments float_mul_int {F}.

Inductive telemetry_log : Type :=
| HostMemoryWarning                 (* 'Failed to read host memory info: ...' *)
| CgroupMemoryWarning               (* 'Could not find cgroup memory information' *)
| MemoryLine (keys : list string)   (* 'Container Memory (GB): ...' with these figures *)
| MemoryUnavailable                 (* 'Container memory information not available' *)
| MemoryError                       (* 'Error getting container memory info: ...' *)
| DiskUsageWarning                  (* 'Failed to get disk usage stats: ...' *)
| CgroupIoWarning                   (* 'Could not find cgroup disk I/O information' *)
| InodeWarning                      (* 'Failed to get inode information: ...' *)
| DiskLine (keys : list string)     (* 'Container Disk: ...' with these figures *)
| DiskUnavailable                   (* 'Container disk space information not available' *)
| DiskError.                        (* 'Error getting container disk info: ...' *)

(** How a block of reads ends: normally, with [FileNotFoundError], or
    with another exception. *)
Inductive status : Type := Fine | NotFound | Broken.

Record mem_info (F : Type) : Type := {
  mem_total : option F;
  mem_available : option F;
  mem_free : option F;
  mem_used : option F;
  mem_limit : option F
}.

Arguments mem_total {F}.
Arguments mem_available {F}.
Arguments mem_free {F}.
Arguments mem_used {F}.
Arguments mem_limit {F}.

Record disk_info (F : Type) : Type := {
  total_bytes : option Z;
  used_bytes : option Z;
  free_bytes : option Z;
  usage_percent : option F;
  io_stats_raw : option string;
  io_bytes : option Z;
  total_inodes : option Z;
  free_inodes : option Z;
  used_inodes : option Z;
  inodes_usage_percent : option F
}.

Arguments total_bytes {F}.
Arguments used_bytes {F}.
Arguments free_bytes {F}.
Arguments usage_percent {F}.
Arguments io_stats_raw {F}.
Arguments io_bytes {F}.
Arguments total_inodes {F}.
Arguments free_inodes {F}.
Arguments used_inodes {F}.
Arguments inodes_usage_percent {F}.

Definition KIB_PER_GIB : Z := 1024 * 1024.
Definition BYTES_PER_GIB : Z := 1024 * 1024 * 1024.
Definition BYTES_PER_MIB : Z := 1024 * 1024.

Definition MEMINFO : string := "/proc/meminfo".
Definition MEMORY_MAX : string := "/sys/fs/cgroup/memory.max".
Definition MEMORY_CURRENT : string := "/sys/fs/cgroup/memory.current".
Definition V1_MEMORY_LIMIT : string := "/sys/fs/cgroup/memory/memory.limit_in_bytes".
Definition V1_MEMORY_USAGE : string := "/sys/fs/cgroup/memory/memory.usage_in_bytes".
Definition FLAT_MEMORY_LIMIT : string := "/sys/fs/cgroup/memory.limit_in_bytes".
Definition FLAT_MEMORY_USAGE : string := "/sys/fs/cgroup/memory.usage_in_bytes".
Definition IO_STAT : string := "/sys/fs/cgroup/io.stat".
Definition V1_IO_BYTES : string := "/sys/fs/cgroup/blkio/blkio.throttle.io_service_bytes".
Definition FLAT_IO_BYTES : string := "/sys/fs/cgroup/blkio.throttle.io_service_bytes".

Section Model.

Variable F : Type.
Variable P : python F.
Variable OS : system.

(** *** get_container_memory_info *)

Definition empty_mem : mem_info F :=
  {| mem_total := None; mem_available := None; mem_free := None;
     mem_used := None; mem_limit := None |}.

Definition set_total (v : F) (m : mem_info F) : mem_info F :=
  {| mem_total := Some v; mem_available := mem_available m;
     mem_free := mem_free m; mem_used := mem_used m; mem_limit := mem_limit m |}.

Definition set_available (v : F) (m : mem_info F) : mem_info F :=
  {| mem_total := mem_total m; mem_available := Some v;
     mem_free := mem_free m; mem_used := mem_used m; mem_limit := mem_limit m |}.

Definition set_free (v : F) (m : mem_info F) : mem_info F :=
  {| mem_total := mem_total m; mem_available := mem_available m;
     mem_free := Some v; mem_used := mem_used m; mem_limit := mem_limit m |}.

Definition set_used (v : F) (m : mem_info F) : mem_info F :=
  {| mem_total := mem_total m; mem_available := mem_available m;
     mem_free := mem_free m; mem_used := Some v; mem_limit := mem_limit m |}.

Definition set_limit (v : F) (m : mem_info F) : mem_info F :=
  {| mem_total := mem_total m; mem_available := mem_available m;
     mem_free := mem_free m; mem_used := mem_used m; mem_limit := Some v |}.

(** [int(line.split()[1]) / (1024 * 1024)]; [None] when the index, the
    conversion or the division raises. *)
Definition gb_of_kb_field (line : string) : option F :=
  match nth_error (py_split P line) 1 with
  | Some w =>
      match py_int P w with
      | Some n => true_div P n KIB_PER_GIB
      | None => None
      end
  | None => None
  end.

(** The loop over the lines of /proc/meminfo; [false] when a line raised,
    with the figures stored before it. *)
Fixpoint read_meminfo (lines : list string) (m : mem_info F) : bool * mem_info F :=
  match lines with
  | [] => (true, m)
  | line :: rest =>
      if Str.contains "MemTotal:" line then
        match gb_of_kb_field line with
        | Some v => read_meminfo rest (set_total v m)
        | None => (false, m)
        end
      else if Str.contains "MemAvailable:" line then
        match gb_of_kb_field line with
        | Some v => read_meminfo rest (set_available v m)
        | None => (false, m)
        end
      else if Str.contains "MemFree:" line then
        match gb_of_kb_field line with
        | Some v => read_meminfo rest (set_free v m)
        | None => (false, m)
        end
      else read_meminfo rest m
  end.

(** The host block, under [except Exception]. *)
Definition host_memory (m : mem_info F) : mem_info F * list telemetry_log :=
  match read_file OS MEMINFO with
  | Text content =>
      match read_meminfo (py_lines P content) m with
      | (true, m1) =>
          (match mem_total m1, mem_free m1 with
           | Some t, Some f => set_used (float_sub P t f) m1
           | _, _ => m1
           end, [])
      | (false, m1) => (m1, [HostMemoryWarning])
      end
  | _ => (m, [HostMemoryWarning])
  end.

(** [int(s) / (1024 * 1024 * 1024)] *)
Definition gb_of_bytes (n : Z) : option F := true_div P n BYTES_PER_GIB.

(** [mem_info['used'] = int(f.read().strip()) / GiB] under [with open(path)] *)
Definition read_usage (path : string) (m : mem_info F) : status * mem_info F :=
  match read_file OS path with
  | Missing => (NotFound, m)
  | Unreadable => (Broken, m)
  | Text content =>
      match py_int P (py_strip P content) with
      | Some n =>
          match gb_of_bytes n with
          | Some v => (Fine, set_used v m)
          | None => (Broken, m)
          end
      | None => (Broken, m)
      end
  end.

(** The body of the cgroup v2 [try]. *)
Definition cgroup_v2 (m : mem_info F) : status * mem_info F :=
  match read_file OS MEMORY_MAX with
  | Missing => (NotFound, m)
  | Unreadable => (Broken, m)
  | Text content =>
      let max_mem := py_strip P content in
      if String.eqb max_mem "max" then read_usage MEMORY_CURRENT m
      else
        match py_int P max_mem with
        | Some n =>
            match gb_of_bytes n with
            | Some v => read_usage MEMORY_CURRENT (set_limit v m)
            | None => (Broken, m)
            end
        | None => (Broken, m)
        end
  end.

(** The body of either cgroup v1 [try]. *)
Definition cgroup_v1 (limit_path usage_path : string) (m : mem_info F)
  : status * mem_info F :=
  match read_file OS limit_path with
  | Missing => (NotFound, m)
  | Unreadable => (Broken, m)
  | Text content =>
      match py_int P (py_strip P content) with
      | Some mem_limit =>
          if mem_limit <? 2 ^ 63 then
            match gb_of_bytes mem_limit with
            | Some v => read_usage usage_path (set_limit v m)
            | None => (Broken, m)
            end
          else read_usage usage_path m
      | None => (Broken, m)
      end
  end.

(** The nested [try ... except FileNotFoundError] blocks; [false] when an
    exception leaves them. *)
Definition cgroup_memory (m : mem_info F) : bool * mem_info F * list telemetry_log :=
  match cgroup_v2 m with
  | (Fine, m1) => (true, m1, [])
  | (Broken, m1) => (false, m1, [])
  | (NotFound, m1) =>
      match cgroup_v1 V1_MEMORY_LIMIT V1_MEMORY_USAGE m1 with
      | (Fine, m2) => (true, m2, [])
      | (Broken, m2) => (false, m2, [])
      | (NotFound, m2) =>
          match cgroup_v1 FLAT_MEMORY_LIMIT FLAT_MEMORY_USAGE m2 with
          | (Fine, m3) => (true, m3, [])
          | (Broken, m3) => (false, m3, [])
          | (NotFound, m3) => (true, m3, [CgroupMemoryWarning])
          end
      end
  end.

Definition derive_available (m : mem_info F) : mem_info F :=
  match mem_limit m, mem_used m with
  | Some l, Some u => set_available (float_sub P l u) m
  | _, _ => m
  end.

Definition named {A : Type} (name : string) (v : option A) : list string :=
  match v with Some _ => [name] | None => [] end.

Definition memory_line (m : mem_info F) : telemetry_log :=
  match (named "Total" (mem_total m) ++ named "Limit" (mem_limit m)
         ++ named "Used" (mem_used m) ++ named "Available" (mem_available m)
         ++ named "Free" (mem_free m))%list with
  | [] => MemoryUnavailable
  | keys => MemoryLine keys
  end.

Definition get_container_memory_info : mem_info F * list telemetry_log :=
  let '(m1, host_log) := host_memory empty_mem in
  match cgroup_memory m1 with
  | (true, m2, cgroup_log) =>
      let m3 := derive_available m2 in
      (m3, (host_log ++ cgroup_log ++ [memory_line m3])%list)
  | (false, _, cgroup_log) =>
      (empty_mem, (host_log ++ cgroup_log ++ [MemoryError])%list)
  end.

(** *** get_container_disk_info *)

Definition empty_disk : disk_info F :=
  {| total_bytes := None; used_bytes := None; free_bytes := None;
     usage_percent := None; io_stats_raw := None; io_bytes := None;
     total_inodes := None; free_inodes := None; used_inodes := None;
     inodes_usage_percent := None |}.

Definition set_usage (total used free : Z) (d : disk_info F) : disk_info F :=
  {| total_bytes := Some total; used_bytes := Some used; free_bytes := Some free;
     usage_percent := usage_percent d; io_stats_raw := io_stats_raw d;
     io_bytes := io_bytes d; total_inodes := total_inodes d;
     free_inodes := free_inodes d; used_inodes := used_inodes d;
     inodes_usage_percent := inodes_usage_percent d |}.

Definition set_usage_percent (v : F) (d : disk_info F) : disk_info F :=
  {| total_bytes := total_bytes d; used_bytes := used_bytes d;
     free_bytes := free_bytes d;
     usage_percent := Some v; io_stats_raw := io_stats_raw d;
     io_bytes := io_bytes d; total_inodes := total_inodes d;
     free_inodes := free_inodes d; used_inodes := used_inodes d;
     inodes_usage_percent := inodes_usage_percent d |}.

Definition set_io_stats_raw (v : string) (d : disk_info F) : disk_info F :=
  {| total_bytes := total_bytes d; used_bytes := used_bytes d;
     free_bytes := free_bytes d;
     usage_percent := usage_percent d; io_stats_raw := Some v;
     io_bytes := io_bytes d; total_inodes := total_inodes d;
     free_inodes := free_inodes d; used_inodes := used_inodes d;
     inodes_usage_percent := inodes_usage_percent d |}.

Definition set_io_bytes (v : Z) (d : disk_info F) : disk_info F :=
  {| total_bytes := total_bytes d; used_bytes := used_bytes d;
     free_bytes := free_bytes d;
     usage_percent := usage_percent d; io_stats_raw := io_stats_raw d;
     io_bytes := Some v; total_inodes := total_inodes d;
     free_inodes := free_inodes d; used_inodes := used_inodes d;
     inodes_usage_percent := inodes_usage_percent d |}.

Definition set_inodes (files ffree : Z) (d : disk_info F) : disk_info F :=
  {| total_bytes := total_bytes d; used_bytes := used_bytes d;
     free_bytes := free_bytes d;
     usage_percent := usage_percent d; io_stats_raw := io_stats_raw d;
     io_bytes := io_bytes d; total_inodes := Some files;
     free_inodes := Some ffree; used_inodes := Some (files - ffree);
     inodes_usage_percent := inodes_usage_percent d |}.

Definition set_inodes_usage_percent (v : F) (d : disk_info F) : disk_info F :=
  {| total_bytes := total_bytes d; used_bytes := used_bytes d;
     free_bytes := free_bytes d;
     usage_percent := usage_percent d; io_stats_raw := io_stats_raw d;
     io_bytes := io_bytes d; total_inodes := total_inodes d;
     free_inodes := free_inodes d; used_inodes := used_inodes d;
     inodes_usage_percent := Some v |}.

(** The [shutil.disk_usage] block, under [except Exception]. *)
Definition root_usage (d : disk_info F) : disk_info F * list telemetry_log :=
  match disk_usage OS with
  | Some (total, used, free) =>
      let d1 := set_usage total used free d in
      match true_div P used total with
      | Some q => (set_usage_percent (float_mul_int P q 100) d1, [])
      | None => (d1, [DiskUsageWarning])
      end
  | None => (d, [DiskUsageWarning])
  end.

(** The loop over the lines of an io_service_bytes file, up to its
    [break]; [None] when [int(parts[2])] raised. *)
Fixpoint io_total (lines : list string) : option (option Z) :=
  match lines with
  | [] => Some None
  | line :: rest =>
      let parts := py_split P (py_strip P line) in
      if (3 <=? Z.of_nat (List.length parts)) && Str.contains "Total" line then
        match nth_error parts 2 with
        | Some w =>
            match py_int P w with
            | Some n => Some (Some n)
            | None => None
            end
        | None => None
        end
      else io_total rest
  end.

(** The body of the cgroup v2 [try]. *)
Definition io_v2 (d : disk_info F) : status * disk_info F :=
  match read_file OS IO_STAT with
  | Missing => (NotFound, d)
  | Unreadable => (Broken, d)
  | Text raw =>
      let content := py_strip P raw in
      if String.eqb content "" then (Fine, d)
      else (Fine, set_io_stats_raw content d)
  end.

(** The body of either cgroup v1 [try]. *)
Definition io_v1 (path : string) (d : disk_info F) : status * disk_info F :=
  match read_file OS path with
  | Missing => (NotFound, d)
  | Unreadable => (Broken, d)
  | Text content =>
      match io_total (py_lines P content) with
      | Some (Some n) => (Fine, set_io_bytes n d)
      | Some None => (Fine, d)
      | None => (Broken, d)
      end
  end.

Definition cgroup_io (d : disk_info F) : bool * disk_info F * list telemetry_log :=
  match io_v2 d with
  | (Fine, d1) => (true, d1, [])
  | (Broken, d1) => (false, d1, [])
  | (NotFound, d1) =>
      match io_v1 V1_IO_BYTES d1 with
      | (Fine, d2) => (true, d2, [])
      | (Broken, d2) => (false, d2, [])
      | (NotFound, d2) =>
          match io_v1 FLAT_IO_BYTES d2 with
          | (Fine, d3) => (true, d3, [])
          | (Broken, d3) => (false, d3, [])
          | (NotFound, d3) => (true, d3, [CgroupIoWarning])
          end
      end
  end.

(** The [os.statvfs] block, under [except Exception]. *)
Definition inodes (d : disk_info F) : disk_info F * list telemetry_log :=
  match statvfs OS with
  | Some (files, ffree) =>
      let d1 := set_inodes files ffree d in
      if 0 <? files then
        match true_div P (files - ffree) files with
        | Some q => (set_inodes_usage_percent (float_mul_int P q 100) d1, [])
        | None => (d1, [InodeWarning])
        end
      else (d1, [])
  | None => (d, [InodeWarning])
  end.

(** One figure of the log line that is an int divided by a unit: the
    key is absent, or the division gives the figure, or it raises. *)
Definition scaled (name : string) (v : option Z) (unit : Z) : option (list string) :=
  match v with
  | None => Some []
  | Some n =>
      match true_div P n unit with
      | Some _ => Some [name]
      | None => None
      end
  end.

(** The figures of the log line; [None] when formatting one raised. *)
Definition disk_log_parts (d : disk_info F) : option (list string) :=
  match scaled "Total" (total_bytes d) BYTES_PER_GIB with
  | None => None
  | Some p1 =>
      match scaled "Used" (used_bytes d) BYTES_PER_GIB with
      | None => None
      | Some p2 =>
          match scaled "Free" (free_bytes d) BYTES_PER_GIB with
          | None => None
          | Some p3 =>
              let p4 := named "Usage" (usage_percent d) in
              let p5 := named "Inodes" (inodes_usage_percent d) in
              match scaled "I/O" (io_bytes d) BYTES_PER_MIB with
              | None => None
              | Some p6 => Some (p1 ++ p2 ++ p3 ++ p4 ++ p5 ++ p6)%list
              end
          end
      end
  end.

Definition disk_line (keys : list string) : telemetry_log :=
  match keys with
  | [] => DiskUnavailable
  | _ => DiskLine keys
  end.

Definition get_container_disk_info : disk_info F * list telemetry_log :=
  let '(d1, usage_log) := root_usage empty_disk in
  match cgroup_io d1 with
  | (true, d2, io_log) =>
      let '(d3, inode_log) := inodes d2 in
      match disk_log_parts d3 with
      | Some keys =>
          (d3, (usage_log ++ io_log ++ inode_log ++ [disk_line keys])%list)
      | None =>
          (empty_disk, (usage_log ++ io_log ++ inode_log ++ [DiskError])%list)
      end
  | (false, _, io_log) =>
      (empty_disk, (usage_log ++ io_log ++ [DiskError])%list)
  end.

End Model.

Arguments empty_mem {F}.
Arguments empty_disk {F}.
Arguments host_memory {F}.
Arguments get_container_memory_info {F}.
Arguments get_container_disk_info {F}.

(** The worker whose two readings are those of the telemetry functions:
    [memory_info.get('available')] and [disk_info.get('free_bytes')]. *)
Definition measured {F : Type} (to_Q : F -> Q) (P : python F) (OS : system)
  (W : world) : world :=
  {| memory_available_gb :=
       option_map to_Q (mem_available (fst (get_container_memory_info P OS)));
     disk_free_bytes := free_bytes (fst (get_container_disk_info P OS));
     memory_available_after := memory_available_after W;
     validate := validate W;
     load_json := load_json W;
     uuid4 := uuid4 W;
     post := post W;
     py_repr := py_repr W;
     fmt_2f := fmt_2f W;
     tb_frames := tb_frames W;
     builtin_exn_line := builtin_exn_line W |}.

(** A cgroup file that is there and does not give a number. *)
Definition unusable {F : Type} (P : python F) (OS : system) (path : string) : Prop :=
  match read_file OS path with
  | Missing => False
  | Unreadable => True
  | Text content => py_int P (py_strip P content) = None
  end.

End Telemetry.

(** ** Concrete hosts for the telemetry functions *)

Module Hosts.

Definition is_blank (c : ascii) : bool :=
  Ascii.eqb c " " || Ascii.eqb c "010" || Ascii.eqb c "009".

Fixpoint lstrip (s : string) : string :=
  match s with
  | String c rest => if is_blank c then lstrip rest else s
  | EmptyString => EmptyString
  end.

Fixpoint rstrip (s : string) : string :=
  match s with
  | EmptyString => EmptyString
  | String c rest =>
      let rest' := rstrip rest in
      if is_blank c && String.eqb rest' "" then EmptyString else String c rest'
  end.

Definition strip (s : string) : string := rstrip (lstrip s).

Fixpoint words_from (s cur : string) : list string :=
  match s with
  | EmptyString => if String.eqb cur "" then [] else [cur]
  | String c rest =>
      if is_blank c then
        if String.eqb cur "" then words_from rest ""
        else cur :: words_from rest ""
      else words_from rest (cur ++ String c "")
  end.

Definition words (s : string) : list string := words_from s "".

Fixpoint lines_from (s cur : string) : list string :=
  match s with
  | EmptyString => if String.eqb cur "" then [] else [cur]
  | String c rest =>
      if Ascii.eqb c "010" then (cur ++ String c "") :: lines_from rest ""
      else lines_from rest (cur ++ String c "")
  end.

Definition lines (s : string) : list string := lines_from s "".

Fixpoint decimal (s : string) (acc : Z) : option Z :=
  match s with
  | EmptyString => Some acc
  | String c rest =>
      let d := Z.of_nat (nat_of_ascii c) - 48 in
      if (0 <=? d) && (d <=? 9) then decimal rest (10 * acc + d) else None
  end.

Definition int_of (s : string) : option Z :=
  match s with
  | EmptyString => None
  | _ => decimal s 0
  end.

(** An interpreter whose floats are read as rationals. *)
Definition rational : Telemetry.python Q :=
  {| Telemetry.py_int := int_of;
     Telemetry.py_split := words;
     Telemetry.py_strip := strip;
     Telemetry.py_lines := lines;
     Telemetry.true_div := fun a b =>
       if b =? 0 then None else Some (inject_Z a / inject_Z b)%Q;
     Telemetry.float_sub := Qminus;
     Telemetry.float_mul_int := fun x n => (x * inject_Z n)%Q |}.

Definition newline : string := String "010" "".

Definition meminfo : string :=
  "MemTotal:       65536000 kB" ++ newline ++
  "MemFree:        20971520 kB" ++ newline ++
  "MemAvailable:   41943040 kB" ++ newline.

Definition files (table : list (string * Telemetry.file_read)) (path : string)
  : Telemetry.file_read :=
  match find (fun entry => String.eqb (fst entry) path) table with
  | Some entry => snd entry
  | None => Telemetry.Missing
  end.

(** A container under cgroup v2 with a limit of 8 GiB, 6 GiB of it in use. *)
Definition limited : Telemetry.system :=
  {| Telemetry.read_file := files
       [(Telemetry.MEMINFO, Telemetry.Text meminfo);
        (Telemetry.MEMORY_MAX, Telemetry.Text ("8589934592" ++ newline));
        (Telemetry.MEMORY_CURRENT, Telemetry.Text ("6442450944" ++ newline));
        (Telemetry.IO_STAT, Telemetry.Text ("8:0 rbytes=4096" ++ newline))];
     Telemetry.disk_usage := Some (100 * 1024 ^ 3, 40 * 1024 ^ 3, 60 * 1024 ^ 3);
     Telemetry.statvfs := Some (1000, 400) |}.

(** The same container without a memory limit. *)
Definition unlimited : Telemetry.system :=
  {| Telemetry.read_file := files
       [(Telemetry.MEMINFO, Telemetry.Text meminfo);
        (Telemetry.MEMORY_MAX, Telemetry.Text ("max" ++ newline));
        (Telemetry.MEMORY_CURRENT, Telemetry.Text ("6442450944" ++ newline));
        (Telemetry.IO_STAT, Telemetry.Text ("8:0 rbytes=4096" ++ newline))];
     Telemetry.disk_usage := Some (100 * 1024 ^ 3, 40 * 1024 ^ 3, 60 * 1024 ^ 3);
     Telemetry.statvfs := Some (1000, 400) |}.

(** A host without any cgroup file. *)
Definition bare : Telemetry.system :=
  {| Telemetry.read_file := files
       [(Telemetry.MEMINFO, Telemetry.Text meminfo)];
     Telemetry.disk_usage := Some (100 * 1024 ^ 3, 40 * 1024 ^ 3, 60 * 1024 ^ 3);
     Telemetry.statvfs := Some (1000, 400) |}.

(** A container that may not read its cgroup figures, with 100 MiB of
    disk left. *)
Definition locked : Telemetry.system :=
  {| Telemetry.read_file := files
       [(Telemetry.MEMINFO, Telemetry.Text meminfo);
        (Telemetry.MEMORY_MAX, Telemetry.Text ("8589934592" ++ newline));
        (Telemetry.MEMORY_CURRENT, Telemetry.Unreadable);
        (Telemetry.IO_STAT, Telemetry.Unreadable)];
     Telemetry.disk_usage := Some (100 * 1024 ^ 3, 100 * 1024 ^ 3 - 100 * 1024 ^ 2,
                                   100 * 1024 ^ 2);
     Telemetry.statvfs := Some (1000, 400) |}.

(** A container whose cgroup files cannot be opened at all, with 100 MiB
    of disk left. *)
Definition sealed : Telemetry.system :=
  {| Telemetry.read_file := files
       [(Telemetry.MEMINFO, Telemetry.Text meminfo);
        (Telemetry.MEMORY_MAX, Telemetry.Unreadable);
        (Telemetry.IO_STAT, Telemetry.Unreadable)];
     Telemetry.disk_usage := Some (100 * 1024 ^ 3, 100 * 1024 ^ 3 - 100 * 1024 ^ 2,
                                   100 * 1024 ^ 2);
     Telemetry.statvfs := Some (1000, 400) |}.

(** A container under cgroup v1 whose limit file holds the value the
    kernel writes when no limit is set. *)
Definition legacy : Telemetry.system :=
  {| Telemetry.read_file := files
       [(Telemetry.MEMINFO, Telemetry.Text meminfo);
        (Telemetry.V1_MEMORY_LIMIT, Telemetry.Text ("9223372036854771712" ++ newline));
        (Telemetry.V1_MEMORY_USAGE, Telemetry.Text ("6442450944" ++ newline))];
     Telemetry.disk_usage := Some (100 * 1024 ^ 3, 40 * 1024 ^ 3, 60 * 1024 ^ 3);
     Telemetry.statvfs := Some (1000, 400) |}.

(** A root file system that reports a size of zero. *)
Definition sizeless : Telemetry.system :=
  {| Telemetry.read_file := files
       [(Telemetry.MEMINFO, Telemetry.Text meminfo);
        (Telemetry.IO_STAT, Telemetry.Text ("8:0 rbytes=4096" ++ newline))];
     Telemetry.disk_usage := Some (0, 0, 2 * 1024 ^ 3);
     Telemetry.statvfs := None |}.

End Hosts.

(** ** Further concrete workers and jobs *)

Module Cases.

(** A worker whose validator rejects every input. *)
Definition strict_worker : world :=
  {| memory_available_gb := memory_available_gb Scenario.worker;
     disk_free_bytes := disk_free_bytes Scenario.worker;
     memory_available_after := memory_available_after Scenario.worker;
     validate := fun _ =>
       JDict [("errors", JList [JStr "workflow is a required input.";
                                JStr "payload is a required input."])];
     load_json := Scenario.templates;
     uuid4 := Scenario.uuids;
     post := post Scenario.worker;
     py_repr := py_repr Scenario.worker;
     fmt_2f := fmt_2f Scenario.worker;
     tb_frames := tb_frames Scenario.worker;
     builtin_exn_line := builtin_exn_line Scenario.worker |}.

Definition bad_request : http_response :=
  {| status_code := 400;
     json_body := Some (JDict [("error", JStr "prompt_outputs_failed_validation")]);
     content_str := "" |}.

(** A worker whose generation service refuses every prompt. *)
Definition refused_worker : world :=
  {| memory_available_gb := memory_available_gb Scenario.worker;
     disk_free_bytes := disk_free_bytes Scenario.worker;
     memory_available_after := memory_available_after Scenario.worker;
     validate := validate Scenario.worker;
     load_json := Scenario.templates;
     uuid4 := Scenario.uuids;
     post := fun _ _ => Some bad_request;
     py_repr := fun _ => "400";
     fmt_2f := fmt_2f Scenario.worker;
     tb_frames := tb_frames Scenario.worker;
     builtin_exn_line := builtin_exn_line Scenario.worker |}.

(** A text node that has both a [filename_prefix] and a [file] input. *)
Definition text_node_both : json :=
  Scenario.node "SaveText"
    [("filename_prefix", JStr "notes"); ("file", JStr "caption.txt");
     ("text", JStr "a red fox")].

(** An image descriptor as the history entry lists it. *)
Definition descriptor (filename type : string) : json :=
  JDict [("filename", JStr filename); ("subfolder", JStr "");
         ("type", JStr type)].

Definition png : file :=
  {| text_utf8 := None; bytes_replace := Some "";
     jpeg_base64 := Some "QUJD"; removable := true |}.

(** A file that is not an image. *)
Definition broken_png : file :=
  {| text_utf8 := None; bytes_replace := Some "";
     jpeg_base64 := None; removable := true |}.

Definition locked_png : file :=
  {| text_utf8 := None; bytes_replace := Some "";
     jpeg_base64 := Some "QUJD"; removable := false |}.

(** An [execution_error] message without a node type. *)
Definition bare_error : json :=
  Scenario.message "execution_error" [("prompt_id", JStr "p-1")].

End Cases.

(** ** Vocabulary of the statements *)

(** The value a workflow holds at [node]/[slot]. *)
Definition slot_value (workflow : json) (node slot : string) : option json :=
  match workflow with
  | JDict nodes =>
      match Dict.get node nodes with
      | Some (JDict n) =>
          match Dict.get "inputs" n with
          | Some (JDict inputs) => Dict.get slot inputs
          | _ => None
          end
      | _ => None
      end
  | _ => None
  end.

Definition param_value (payload : json) (param : string) : option json :=
  match payload with
  | JDict d => Dict.get param d
  | _ => None
  end.

Definition add_events (s : state) (evs : list event) : state :=
  {| fs := fs s; uuid_next := uuid_next s; history := history s;
     trace := (trace s ++ evs)%list |}.

(** Every event [m] adds to the trace satisfies [P]. *)
Definition emits {A : Type} (P : event -> Prop) (m : M A) : Prop :=
  forall s, exists evs,
    trace (snd (m s)) = (trace s ++ evs)%list /\ Forall P evs.

Definition is_status_log (e : event) : bool :=
  match e with
  | EvLog _ (LogGettingStatus _) => true
  | _ => false
  end.

Definition is_get (e : event) : bool :=
  match e with
  | EvGet _ => true
  | _ => false
  end.

Definition is_post (e : event) : bool :=
  match e with
  | EvPost _ _ => true
  | _ => false
  end.

Definition is_open (e : event) : bool :=
  match e with
  | EvOpen _ => true
  | _ => false
  end.

(** A log line other than the status line of the poll loop. *)
Definition plain_log (e : event) : Prop :=
  match e with
  | EvLog _ (LogGettingStatus _) => False
  | EvLog _ _ => True
  | _ => False
  end.

(** What the poll loop does: status lines, history requests, sleeps. *)
Definition poll_event (e : event) : Prop :=
  match e with
  | EvLog _ (LogGettingStatus _) => True
  | EvGet _ => True
  | EvSleep => True
  | _ => False
  end.

Definition count (f : event -> bool) (evs : list event) : nat :=
  List.length (filter f evs).

(** The guard's two conditions: the metric is known and it is scarce. *)
Definition low_memory (W : world) : Prop :=
  exists m, memory_available_gb W = Some m /\ (m < 1 # 2)%Q.

Definition low_disk (W : world) : Prop :=
  exists d, disk_free_bytes W = Some d /\ d < 500 * 1024 * 1024.

(** A metric that does not block: unknown, or known and sufficient. *)
Definition memory_not_blocking (W : world) : Prop :=
  memory_available_gb W = None \/
  exists m, memory_available_gb W = Some m /\ (1 # 2 <= m)%Q.

Definition disk_not_blocking (W : world) : Prop :=
  disk_free_bytes W = None \/
  exists d, disk_free_bytes W = Some d /\ 500 * 1024 * 1024 <= d.

(** An answer of the history endpoint on which the poll loop goes on: a
    body that parses and is empty. *)
Definition pending_answer (a : option http_response) : Prop :=
  exists r j, a = Some r /\ json_body r = Some j /\ Py.len j = Val 0%nat.

(** An answer on which it stops: HTTP 200 with a body that is not empty. *)
Definition terminal_answer (r : http_response) (j : json) : Prop :=
  status_code r = 200 /\ json_body r = Some j /\
  exists n, Py.len j = Val (S n).

(** The status line of attempt number [retries], when it is logged. *)
Definition status_line (prompt_id : json) (retries : nat) : list event :=
  if should_log_status retries
  then [EvLog INFO (LogGettingStatus prompt_id)] else [].

Definition set_history (s : state) (rest : list (option http_response))
           (evs : list event) : state :=
  {| fs := fs s; uuid_next := uuid_next s; history := rest;
     trace := (trace s ++ evs)%list |}.

(** The events of a run of the loop that meets [n] pending answers from
    attempt number [retries] on, and then a terminal one. *)
Fixpoint poll_events (W : world) (prompt_id : json) (retries n : nat) : list event :=
  match n with
  | O => status_line prompt_id retries ++ [EvGet (status_endpoint W prompt_id)]
  | S n' =>
      status_line prompt_id retries
        ++ [EvGet (status_endpoint W prompt_id); EvSleep]
        ++ poll_events W prompt_id (S retries) n'
  end.

(** The handler, started in [s] on [event], passes the guard, builds
    [payload], queues it and polls [resp_json] for [prompt_id], which leaves
    it in state [s']. *)
Definition polled (W : world) (event : json) (s : state)
           (payload prompt_id resp_json : json) (s' : state) : Prop :=
  exists job_id s1,
    Py.getitem event "id" = Val (JStr job_id) /\
    resource_guard W s = (Ok tt, s) /\
    prepare_payload W event s = (Ok payload, s1) /\
    submit_and_poll W payload s1 = (Ok (prompt_id, resp_json), s').

(** Neither a status line nor a history request. *)
Definition outside_poll (e : event) : Prop :=
  is_status_log e = false /\ is_get e = false.

(** The validator accepts the input of [event] as a job for
    [workflow_name] with [payload]. *)
Definition validated_as (W : world) (event workflow_name payload : json) : Prop :=
  exists input validated,
    Py.getitem event "input" = Val input /\
    Py.contains "errors" (validate W input) = Val false /\
    Py.getitem (validate W input) "validated_input" = Val validated /\
    Py.getitem validated "workflow" = Val workflow_name /\
    Py.getitem validated "payload" = Val payload.

(** A node the prefix injection recognises as an output node. *)
Definition recognized_output (value : json) : Prop :=
  exists class_type,
    Py.get value "class_type" = Val class_type /\
    (Py.eq_str class_type "SaveImage" = true \/
     existsb (Py.eq_str class_type) text_output_types = true).

Definition prefix_slot (slot : string) : Prop :=
  slot = "filename_prefix" \/ slot = "file" \/ slot = "filename".

(** [value'] is [value], or [value] is a recognised output node and
    [value'] is [value] with one filename slot of its inputs assigned. *)
Definition node_injected (value value' : json) : Prop :=
  value' = value \/
  (recognized_output value /\
   exists slot v, prefix_slot slot /\ set_node_input value slot v = Val value').

Definition not_open (e : event) : Prop := is_open e = false.

Definition not_post (e : event) : Prop := is_post e = false.

(** What can follow the queue request. *)
Definition after_submit (e : event) : Prop := not_open e /\ not_post e.

(** The polled history entry reports a job that did not succeed, with
    [messages] the elements of its message list. *)
Definition job_failed (resp_json prompt_id : json) (messages : list json) : Prop :=
  exists entry status ms,
    Py.getitem_key resp_json prompt_id = Val entry /\
    Py.getitem entry "status" = Val status /\
    succeeded status = Val false /\
    Py.getitem status "messages" = Val ms /\
    Py.iter ms = Val messages.

(** The polled history entry reports success, with [outputs]. *)
Definition job_succeeded (resp_json prompt_id outputs : json) : Prop :=
  exists entry status,
    Py.getitem_key resp_json prompt_id = Val entry /\
    Py.getitem entry "status" = Val status /\
    succeeded status = Val true /\
    Py.getitem entry "outputs" = Val outputs.

(** A (key, value) message whose key is not [execution_error]. *)
Definition other_message (message : json) : Prop :=
  exists key value,
    Py.unpack2 message = Val (key, value) /\
    Py.eq_str key "execution_error" = false.

(** An [execution_error] message that carries both fields. *)
Definition execution_error (message node_type exception_message : json) : Prop :=
  exists value,
    Py.unpack2 message = Val (JStr "execution_error", JDict value) /\
    Dict.get "node_type" value = Some node_type /\
    Dict.get "exception_message" value = Some exception_message.

(** An [execution_error] message that lacks one of the two fields. *)
Definition bare_execution_error (message : json) : Prop :=
  exists value,
    Py.unpack2 message = Val (JStr "execution_error", value) /\
    (Py.contains "node_type" value = Val false \/
     (Py.contains "node_type" value = Val true /\
      Py.contains "exception_message" value = Val false)).

(** Harvesting [outputs] from state [s] goes through and yields [images]
    and [text_files]. *)
Definition harvested (W : world) (payload outputs : json) (s : state)
           (images text_files : list json) (s' : state) : Prop :=
  exists output_files unique_prefix s1,
    get_output_files outputs = Val output_files /\
    process_output_files W [] output_files s = (Ok images, s1) /\
    extract_unique_prefix payload = Val unique_prefix /\
    scan_for_text_files unique_prefix s1 = (Ok text_files, s').

Definition low_memory_after (W : world) : Prop :=
  exists m, memory_available_after W = Some m /\ (m < 1)%Q.

(** The shape of a success response: [images] always; [text_files] exactly
    when the list is not empty; [refresh_worker], true, exactly when the
    memory read after the job is known and below 1.0 GB; no other key. *)
Definition success_shape (W : world) (images text_files : list json)
           (response : Dict.t) : Prop :=
  Dict.get "images" response = Some (JList images)
  /\ (text_files <> [] ->
      Dict.get "text_files" response = Some (JList text_files))
  /\ (text_files = [] -> Dict.get "text_files" response = None)
  /\ (low_memory_after W ->
      Dict.get "refresh_worker" response = Some (JBool true))
  /\ (~ low_memory_after W -> Dict.get "refresh_worker" response = None)
  /\ (forall k, Dict.mem k response = true ->
                k = "images" \/ k = "text_files" \/ k = "refresh_worker").

(** The node a workflow holds under [node]. *)
Definition node_of (workflow : json) (node : string) : option json :=
  match workflow with
  | JDict nodes => Dict.get node nodes
  | _ => None
  end.

(** The node ids of a workflow, in order. *)
Definition node_ids (workflow : json) : list string :=
  match workflow with
  | JDict nodes => Dict.keys nodes
  | _ => []
  end.

(** The body the handler attaches to an HTTP error: the parsed JSON when
    the answer parses, the text of its content otherwise. *)
Definition http_error_output (queue_response : http_response) : json :=
  match json_body queue_response with
  | Some body => body
  | None => JStr (content_str queue_response)
  end.

(** [value'] is [value] with its [slot] input renamed after the token [u]:
    the token, an underscore, the former value. *)
Definition renamed (W : world) (u slot : string) (value value' : json) : Prop :=
  exists inputs original,
    Py.getitem value "inputs" = Val inputs /\
    Py.getitem inputs slot = Val original /\
    set_node_input value slot (JStr (u ++ "_" ++ py_str W original))
    = Val value'.

(** [value'] is [value] with the token [u] injected by one of the three
    conventions. *)
Definition injected_with (W : world) (u : string) (value value' : json) : Prop :=
  set_node_input value "filename_prefix" (JStr u) = Val value'
  \/ renamed W u "file" value value'
  \/ renamed W u "filename" value value'.

(** Node by node, [items'] is [items] where every changed node holds the
    next token of [tokens]. *)
Inductive injection (W : world)
  : list (string * json) -> list (string * json) -> list string -> Prop :=
| injection_nil : injection W [] [] []
| injection_keep (key : string) (value : json) rest rest' tokens :
    injection W rest rest' tokens ->
    injection W ((key, value) :: rest) ((key, value) :: rest') tokens
| injection_draw (key u : string) (value value' : json) rest rest' tokens :
    injected_with W u value value' ->
    injection W rest rest' tokens ->
    injection W ((key, value) :: rest) ((key, value') :: rest') (u :: tokens).

Definition bump_uuid (s : state) : state :=
  {| fs := fs s; uuid_next := S (uuid_next s);
     history := history s; trace := trace s |}.

(** The input slot [slot] of a node. *)
Definition input_of (value : json) (slot : string) : option json :=
  match value with
  | JDict node =>
      match Dict.get "inputs" node with
      | Some (JDict inputs) => Dict.get slot inputs
      | _ => None
      end
  | _ => None
  end.

(** Where the handler looks for a reported image. *)
Definition output_path (W : world) (filename : json) : string :=
  VOLUME_MOUNT_PATH ++ "/ComfyUI/output/" ++ py_str W filename.

Definition temp_path (W : world) (filename : json) : string :=
  VOLUME_MOUNT_PATH ++ "/ComfyUI/temp/" ++ py_str W filename.

Definition tmp_path (W : world) (filename : json) : string :=
  "/tmp/" ++ py_str W filename.

(** An entry of the text-file list under a name the filters let through. *)
Definition reported_name (unique_prefix : json) (e : json) : Prop :=
  exists filename content,
    e = text_entry filename content /\
    is_text_file filename = true /\
    skipped_by_prefix unique_prefix filename = Val false.

(** What a piece of the scan does from [s]: it ends normally in [s'] with
    [extra] appended, touches only the files [touched], only ever removes,
    and leaves the token counter and the history script alone. *)
Definition scan_effect (unique_prefix : json) (touched : string -> Prop)
           (text_files : list json) (s : state)
           (r : outcome (list json) * state) : Prop :=
  exists extra,
    fst r = Ok (text_files ++ extra)%list
    /\ Forall (reported_name unique_prefix) extra
    /\ (forall q, ~ touched q ->
                  Fs.lookup q (fs (snd r)) = Fs.lookup q (fs s))
    /\ (forall q, Fs.lookup q (fs (snd r)) = None \/
                  Fs.lookup q (fs (snd r)) = Fs.lookup q (fs s))
    /\ uuid_next (snd r) = uuid_next s
    /\ history (snd r) = history s.

(** What the scan returns for a file, by how it can be read: the text
    when it decodes, the permissively decoded bytes when only the binary
    read works, nothing when neither does. *)
Definition harvested_entries (filename : string) (f : file) : list json :=
  match text_utf8 f, bytes_replace f with
  | Some content, _ => [text_entry filename content]
  | None, Some content => [text_entry filename content]
  | None, None => []
  end.

(** An answer of the history endpoint the poll loop tries again after:
    its body parses, and the status is not 200 or the body is empty. *)
Definition retried_answer (a : option http_response) : Prop :=
  exists r j, a = Some r /\ json_body r = Some j /\
    (status_code r <> 200 \/ Py.len j = Val 0%nat).

(** An answer on which the poll loop raises [e]: the request fails, the
    body is not JSON, or the status is 200 and the body has no length. *)
Definition failing_answer (a : option http_response) (e : exn) : Prop :=
  (a = None /\ e = RequestException)
  \/ (exists r, a = Some r /\ json_body r = None /\ e = JSONDecodeError)
  \/ (exists r j, a = Some r /\ json_body r = Some j /\ status_code r = 200 /\
                  Py.len j = Exc e).

(** The images a node's output lists. *)
Definition listed_images (value : json) : list json :=
  match Py.getitem value "images" with
  | Val (JList images) => images
  | _ => []
  end.

Definition is_dict (v : json) : Prop :=
  match v with JDict _ => True | _ => False end.


(** * Properties *)

(** ** Dictionaries *)

Lemma dict_get_set_same (k : string) (v : json) (d : Dict.t) :
  Dict.get k (Dict.set k v d) = Some v.
Proof.
  induction d as [|[k' v'] d IH]; simpl.
  - now rewrite String.eqb_refl.
  - destruct (String.eqb k k') eqn:E; simpl.
    + now rewrite String.eqb_refl.
    + now rewrite E.
Qed.

Lemma dict_get_set_other (k k0 : string) (v : json) (d : Dict.t) :
  k0 <> k -> Dict.get k0 (Dict.set k v d) = Dict.get k0 d.
Proof.
  intros Hne. induction d as [|[k' v'] d IH]; simpl.
  - destruct (String.eqb_spec k0 k); [contradiction | reflexivity].
  - destruct (String.eqb_spec k k') as [->|Hk]; simpl.
    + destruct (String.eqb_spec k0 k'); [contradiction | reflexivity].
    + now rewrite IH.
Qed.

(** ** Parameter substitution *)

Lemma set_input_inv (workflow : json) (node slot : string) (v workflow' : json) :
  set_input workflow node slot v = Val workflow' ->
  exists nodes n inputs,
    workflow = JDict nodes /\ Dict.get node nodes = Some (JDict n) /\
    Dict.get "inputs" n = Some (JDict inputs) /\
    workflow' =
      JDict (Dict.set node
               (JDict (Dict.set "inputs" (JDict (Dict.set slot v inputs)) n))
               nodes).
Proof.
  unfold set_input, bindr, Py.getitem, Py.setitem.
  destruct workflow as [| | | | | |nodes]; try discriminate.
  destruct (Dict.get node nodes) as [n|] eqn:En; try discriminate.
  destruct n as [| | | | | |n]; try discriminate.
  destruct (Dict.get "inputs" n) as [i|] eqn:Ei; try discriminate.
  destruct i as [| | | | | |inputs]; try discriminate.
  intros H; injection H as <-. now exists nodes, n, inputs.
Qed.

Lemma set_input_same (workflow : json) (node slot : string) (v workflow' : json) :
  set_input workflow node slot v = Val workflow' ->
  slot_value workflow' node slot = Some v.
Proof.
  intros H. destruct (set_input_inv _ _ _ _ _ H) as (nodes & n & inputs & -> & _ & _ & ->).
  unfold slot_value. now rewrite !dict_get_set_same.
Qed.

Lemma set_input_other (workflow : json) (node slot : string) (v workflow' : json)
      (node0 slot0 : string) :
  set_input workflow node slot v = Val workflow' ->
  (node0, slot0) <> (node, slot) ->
  slot_value workflow' node0 slot0 = slot_value workflow node0 slot0.
Proof.
  intros H Hne.
  destruct (set_input_inv _ _ _ _ _ H) as (nodes & n & inputs & -> & En & Ei & ->).
  unfold slot_value.
  destruct (String.eqb_spec node0 node) as [->|Hn].
  - rewrite dict_get_set_same, En, dict_get_set_same, Ei.
    apply dict_get_set_other. congruence.
  - now rewrite dict_get_set_other.
Qed.

(** A table is applied in full or not at all; when it is, every slot it
    names holds the job parameter of the last row that names it. *)
Lemma assign_all_sets (payload : json) (table : list (string * string * string)) :
  NoDup (map fst table) ->
  forall workflow workflow',
    assign_all payload workflow table = Val workflow' ->
    forall node slot param,
      In (node, slot, param) table ->
      exists v, param_value payload param = Some v /\
                slot_value workflow' node slot = Some v.
Proof.
  induction table as [|[[n sl] p] table IH]; intros Hnd workflow workflow' H node slot param Hin.
  - contradiction.
  - simpl in Hnd. inversion Hnd as [|? ? Hnotin Hnd']; subst.
    simpl in H. unfold bindr at 1 in H.
    destruct (Py.getitem payload p) as [v|] eqn:Ev; [|discriminate].
    simpl in H. destruct (set_input workflow n sl v) as [w1|] eqn:Es; [|discriminate].
    simpl in H. destruct Hin as [Heq|Hin].
    + injection Heq as -> -> ->.
      exists v. split.
      * unfold Py.getitem in Ev. destruct payload; try discriminate.
        simpl. destruct (Dict.get param d); congruence.
      * clear IH. revert w1 H Es.
        assert (Hkeep : forall w w', assign_all payload w table = Val w' ->
                  slot_value w' node slot = slot_value w node slot).
        { clear - Hnotin. induction table as [|[[n2 sl2] p2] table IH]; intros w w' H.
          - simpl in H. now injection H as <-.
          - simpl in H. unfold bindr at 1 in H.
            destruct (Py.getitem payload p2) as [v2|]; [|discriminate].
            simpl in H. destruct (set_input w n2 sl2 v2) as [w2|] eqn:Es2; [|discriminate].
            simpl in H. rewrite (IH (fun Hc => Hnotin (or_intror Hc)) _ _ H).
            apply (set_input_other _ _ _ _ _ _ _ Es2).
            intros Heq. apply Hnotin. left. simpl. now rewrite Heq. }
        intros w1 H Es. rewrite (Hkeep _ _ H). eapply set_input_same; eauto.
    + eapply IH; eauto.
Qed.

Ltac nodup_closed :=
  repeat (constructor; [simpl; intuition discriminate|]); constructor.

Lemma txt2img_table_slots_distinct : NoDup (map fst txt2img_table).
Proof. unfold txt2img_table; simpl. nodup_closed. Qed.

Lemma img2img_table_slots_distinct : NoDup (map fst img2img_table).
Proof. unfold img2img_table; simpl. nodup_closed. Qed.

(** [get_txt2img_payload] sets every slot of its table from the job
    parameter the table names. *)
Lemma get_txt2img_payload_sets_every_slot (workflow payload workflow' : json) :
  get_txt2img_payload workflow payload = Val workflow' ->
  forall node slot param,
    In (node, slot, param) txt2img_table ->
    exists v, param_value payload param = Some v /\
              slot_value workflow' node slot = Some v.
Proof.
  intros H. eapply assign_all_sets; eauto using txt2img_table_slots_distinct.
Qed.

(** So would [get_img2img_payload], were it called. *)
Lemma get_img2img_payload_sets_every_slot (workflow payload workflow' : json) :
  get_img2img_payload workflow payload = Val workflow' ->
  forall node slot param,
    In (node, slot, param) img2img_table ->
    exists v, param_value payload param = Some v /\
              slot_value workflow' node slot = Some v.
Proof.
  intros H. eapply assign_all_sets; eauto using img2img_table_slots_distinct.
Qed.

(** [get_workflow_payload] substitutes parameters for the name [txt2img]
    only: under any other name the template comes back as it was loaded. *)
Lemma get_workflow_payload_other_name (W : world) (workflow_name payload workflow : json)
      (s : state) :
  Py.eq_str workflow_name "txt2img" = false ->
  load_json W (workflow_path W workflow_name) = Some workflow ->
  get_workflow_payload W workflow_name payload s
  = (Ok workflow, add_events s [EvOpen (workflow_path W workflow_name)]).
Proof.
  intros Hname Hload. unfold get_workflow_payload, bind, emit.
  rewrite Hload, Hname. reflexivity.
Qed.

Lemma get_workflow_payload_txt2img (W : world) (payload workflow workflow' : json)
      (s : state) :
  load_json W "/workflows/txt2img.json" = Some workflow ->
  get_txt2img_payload workflow payload = Val workflow' ->
  get_workflow_payload W (JStr "txt2img") payload s
  = (Ok workflow', add_events s [EvOpen "/workflows/txt2img.json"]).
Proof.
  intros Hload Hsub. unfold get_workflow_payload, bind, emit, workflow_path.
  simpl. rewrite Hload, Hsub. reflexivity.
Qed.

(** C1 (the code departs from the claim).  The claim: for every workflow
    name other than "custom", img2img included, building the payload leaves
    no slot of that workflow's parameter table unset.  On the img2img
    workflow [get_workflow_payload] returns the template as loaded: the seed
    slot of node 13 still holds the template's 0 while the job asks for 42,
    although [get_img2img_payload], which is never called, would set it;
    the handler posts the payload with the template's seed. *)
Theorem img2img_parameters_not_substituted :
  let s := Scenario.start [] [] in
  get_workflow_payload Scenario.worker (JStr "img2img") Scenario.params s
  = (Ok Scenario.img2img_template,
     add_events s [EvOpen "/workflows/img2img.json"])
  /\ In ("13", "seed", "seed") img2img_table
  /\ param_value Scenario.params "seed" = Some (JInt 42)
  /\ slot_value Scenario.img2img_template "13" "seed" = Some (JInt 0)
  /\ (exists w, get_img2img_payload Scenario.img2img_template Scenario.params = Val w
                /\ slot_value w "13" "seed" = Some (JInt 42))
  /\ (exists submitted,
        filter is_post
          (trace (snd (handler Scenario.worker
                         (Scenario.job "img2img" Scenario.params)
                         (Scenario.start [] Scenario.done_script))))
        = [EvPost "prompt" (JDict [("prompt", submitted)])]
        /\ slot_value submitted "13" "seed" = Some (JInt 0)).
Proof.
  cbv zeta. split; [reflexivity|]. split; [now left|].
  split; [reflexivity|]. split; [reflexivity|]. split.
  - eexists. split; reflexivity.
  - eexists. split; [vm_compute; reflexivity | reflexivity].
Qed.

(** ** The monad *)

Lemma bind_ok {A B : Type} (m : M A) (k : A -> M B) (s s' : state) (a : A) :
  m s = (Ok a, s') -> bind m k s = k a s'.
Proof. intros H. unfold bind. now rewrite H. Qed.

Lemma bind_raise {A B : Type} (m : M A) (k : A -> M B) (s s' : state) (e : exn) :
  m s = (Raise e, s') -> bind m k s = (Raise e, s').
Proof. intros H. unfold bind. now rewrite H. Qed.

Section Emits.

Variable P : event -> Prop.

Lemma emits_ret {A : Type} (a : A) : emits P (ret a).
Proof. intros s. exists []. simpl. now rewrite app_nil_r. Qed.

Lemma emits_raise {A : Type} (e : exn) : emits P (@raise A e).
Proof. intros s. exists []. simpl. now rewrite app_nil_r. Qed.

Lemma emits_return {A : Type} (r : json) : emits P (@return_ A r).
Proof. intros s. exists []. simpl. now rewrite app_nil_r. Qed.

Lemma emits_hang {A : Type} : emits P (fun s => (@Hang A, s)).
Proof. intros s. exists []. simpl. now rewrite app_nil_r. Qed.

Lemma emits_lift {A : Type} (r : result A) : emits P (lift r).
Proof. destruct r; [apply emits_ret | apply emits_raise]. Qed.

Lemma emits_bind {A B : Type} (m : M A) (k : A -> M B) :
  emits P m -> (forall a, emits P (k a)) -> emits P (bind m k).
Proof.
  intros Hm Hk s. destruct (Hm s) as (evs & Ht & Hf). unfold bind.
  destruct (m s) as [[a| | |] s1]; simpl in *; try (now exists evs).
  destruct (Hk a s1) as (evs' & Ht' & Hf').
  exists (evs ++ evs')%list. split.
  - now rewrite Ht', Ht, app_assoc.
  - now apply Forall_app.
Qed.

Lemma emits_try {A : Type} (m : M A) (h : exn -> M A) :
  emits P m -> (forall e, emits P (h e)) -> emits P (try_except m h).
Proof.
  intros Hm Hh s. destruct (Hm s) as (evs & Ht & Hf). unfold try_except.
  destruct (m s) as [[a| |e|] s1]; simpl in *; try (now exists evs).
  destruct (Hh e s1) as (evs' & Ht' & Hf').
  exists (evs ++ evs')%list. split.
  - now rewrite Ht', Ht, app_assoc.
  - now apply Forall_app.
Qed.

Lemma emits_call (m : M json) : emits P m -> emits P (call m).
Proof.
  intros Hm s. destruct (Hm s) as (evs & Ht & Hf). unfold call.
  destruct (m s) as [[a| |e|] s1]; simpl in *; now exists evs.
Qed.

Lemma emits_emit (e : event) : P e -> emits P (emit e).
Proof. intros He s. exists [e]. simpl. split; [reflexivity|]. now constructor. Qed.

Lemma emits_get_fs : emits P get_fs.
Proof. intros s. exists []. simpl. now rewrite app_nil_r. Qed.

Lemma emits_put_fs (fs' : filesystem) : emits P (put_fs fs').
Proof. intros s. exists []. simpl. now rewrite app_nil_r. Qed.

Lemma emits_fresh_uuid (W : world) : emits P (fresh_uuid W).
Proof. intros s. exists []. simpl. now rewrite app_nil_r. Qed.

Lemma emits_take_history (rest : list (option http_response)) :
  emits P (take_history rest).
Proof. intros s. exists []. simpl. now rewrite app_nil_r. Qed.

Lemma emits_os_remove (path : string) : emits P (os_remove path).
Proof.
  unfold os_remove. apply emits_bind; [apply emits_get_fs|intros].
  apply emits_bind; [apply emits_lift|intros]. apply emits_put_fs.
Qed.

Lemma emits_os_path_exists (path : string) : emits P (os_path_exists path).
Proof.
  unfold os_path_exists. apply emits_bind; [apply emits_get_fs|intros].
  apply emits_ret.
Qed.

End Emits.

Lemma emits_weaken {A : Type} (P Q : event -> Prop) (m : M A) :
  (forall e, P e -> Q e) -> emits P m -> emits Q m.
Proof.
  intros HPQ Hm s. destruct (Hm s) as (evs & Ht & Hf). exists evs.
  split; [assumption|]. eapply Forall_impl; eauto.
Qed.

Ltac emits_side :=
  try exact I;
  try reflexivity;
  try (split; reflexivity);
  try match goal with
      | H : forall endpoint body, _ (EvPost endpoint body) |- _ => apply H
      end;
  try match goal with
      | H : forall e, plain_log e -> _ |- _ => apply H; exact I
      end;
  try match goal with
      | H : forall path, _ (EvOpen path) |- _ => apply H
      end.

(** One step of a proof that a piece of the handler emits only events of
    one kind: peel a monadic combinator, or split on the term a branch
    examines. *)
Ltac emits_step :=
  match goal with
  | |- emits _ (ret _) => apply emits_ret
  | |- emits _ (raise _) => apply emits_raise
  | |- emits _ (return_ _) => apply emits_return
  | |- emits _ (lift _) => apply emits_lift
  | |- emits _ get_fs => apply emits_get_fs
  | |- emits _ (put_fs _) => apply emits_put_fs
  | |- emits _ (fresh_uuid _) => apply emits_fresh_uuid
  | |- emits _ (take_history _) => apply emits_take_history
  | |- emits _ (os_remove _) => apply emits_os_remove
  | |- emits _ (os_path_exists _) => apply emits_os_path_exists
  | |- emits _ (fun s => (Hang, s)) => apply emits_hang
  | |- emits _ (bind _ _) => apply emits_bind; [|intros]
  | |- emits _ (try_except _ _) => apply emits_try; [|intros]
  | |- emits _ (call _) => apply emits_call
  | |- emits _ (log _ _) => apply emits_emit; emits_side
  | |- emits _ (emit _) => apply emits_emit; emits_side
  | |- emits _ (if ?b then _ else _) => destruct b
  | |- emits _ (match ?x with _ => _ end) => destruct x
  | |- emits _ (let _ := _ in _) => cbv zeta
  end.

(** ** What each stage adds to the trace *)

Section EmitsPlain.

Variable W : world.
Variable P : event -> Prop.
Hypothesis P_log : forall e, plain_log e -> P e.

Lemma emits_remove_temp (path : string) : emits P (remove_temp path).
Proof. unfold remove_temp. repeat emits_step. Qed.

Lemma emits_process_output_file (images : list json) (output_file : json) :
  emits P (process_output_file W images output_file).
Proof.
  unfold process_output_file.
  repeat first [apply emits_remove_temp | emits_step].
Qed.

Lemma emits_process_output_files (output_files images : list json) :
  emits P (process_output_files W images output_files).
Proof.
  revert images. induction output_files as [|f rest IH]; intros images; simpl.
  - emits_step.
  - emits_step; [apply emits_process_output_file | apply IH].
Qed.

Lemma emits_read_binary (file_path filename : string) (text_files : list json) :
  emits P (read_binary file_path filename text_files).
Proof. unfold read_binary. repeat emits_step. Qed.

Lemma emits_read_text_file (file_path filename : string) (text_files : list json) :
  emits P (read_text_file file_path filename text_files).
Proof.
  unfold read_text_file. repeat first [apply emits_read_binary | emits_step].
Qed.

Lemma emits_scan_names (unique_prefix : json) (scan_dir : string)
      (names : list string) (text_files : list json) :
  emits P (scan_names unique_prefix scan_dir names text_files).
Proof.
  revert text_files. induction names as [|n rest IH]; intros text_files; simpl.
  - emits_step.
  - repeat first [apply IH | apply emits_read_text_file | emits_step].
Qed.

Lemma emits_scan_dir (unique_prefix : json) (scan_dir : string)
      (text_files : list json) :
  emits P (scan_dir_for_text_files unique_prefix scan_dir text_files).
Proof.
  unfold scan_dir_for_text_files.
  repeat first [apply emits_scan_names | emits_step].
Qed.

Lemma emits_scan_all (unique_prefix : json) (dirs : list string)
      (text_files : list json) :
  emits P (scan_all unique_prefix dirs text_files).
Proof.
  revert text_files. induction dirs as [|d rest IH]; intros text_files; simpl.
  - emits_step.
  - emits_step; [apply emits_scan_dir | apply IH].
Qed.

Lemma emits_scan_for_text_files (unique_prefix : json) :
  emits P (scan_for_text_files unique_prefix).
Proof. apply emits_scan_all. Qed.

Lemma emits_success_response (images text_files : list json) :
  emits P (success_response W images text_files).
Proof. unfold success_response. repeat emits_step. Qed.

Lemma emits_check_messages (prompt_id resp_json : json) (messages : list json) :
  emits P (check_messages W prompt_id resp_json messages).
Proof.
  induction messages as [|m rest IH]; simpl.
  - emits_step.
  - repeat first [apply IH | emits_step].
Qed.

Lemma emits_finish (payload prompt_id resp_json : json) :
  emits P (finish W payload prompt_id resp_json).
Proof.
  unfold finish.
  repeat first [ apply emits_check_messages | apply emits_success_response
               | apply emits_scan_for_text_files
               | apply emits_process_output_files | emits_step ].
Qed.

End EmitsPlain.

Lemma emits_poll_from (W : world) (prompt_id : json)
      (script : list (option http_response)) (retries : nat) :
  emits poll_event (poll_from W prompt_id script retries).
Proof.
  revert retries. induction script as [|a rest IH]; intros retries; simpl.
  - repeat emits_step.
  - repeat first [apply IH | emits_step].
Qed.

Lemma emits_poll_history (W : world) (prompt_id : json) :
  emits poll_event (poll_history W prompt_id).
Proof. intros s. unfold poll_history. apply emits_poll_from. Qed.

(** ** Strings *)

Lemma append_assoc (a b c : string) : (a ++ b) ++ c = a ++ b ++ c.
Proof. induction a as [|x a IH]; simpl; [reflexivity | now rewrite IH]. Qed.

Lemma append_nil_r (a : string) : a ++ "" = a.
Proof. induction a as [|x a IH]; simpl; [reflexivity | now rewrite IH]. Qed.

Lemma occurs_in_refl (s : string) : Str.occurs_in s s.
Proof. exists "", "". simpl. now rewrite append_nil_r. Qed.

Lemma occurs_in_app_l (sub a s : string) :
  Str.occurs_in sub s -> Str.occurs_in sub (a ++ s).
Proof.
  intros (pre & post & ->). exists (a ++ pre), post. now rewrite append_assoc.
Qed.

Lemma occurs_in_app_r (sub s b : string) :
  Str.occurs_in sub s -> Str.occurs_in sub (s ++ b).
Proof.
  intros (pre & post & ->). exists pre, (post ++ b).
  now rewrite !append_assoc.
Qed.

Lemma occurs_in_trans (a b c : string) :
  Str.occurs_in a b -> Str.occurs_in b c -> Str.occurs_in a c.
Proof.
  intros Hab (pre & post & ->).
  apply occurs_in_app_l, occurs_in_app_r, Hab.
Qed.

(** The message of an exception the handler raises itself is part of the
    traceback text. *)
Lemma format_exc_exception (W : world) (msg : string) :
  Str.occurs_in msg (format_exc W (PyException msg)).
Proof.
  unfold format_exc, exn_line. apply occurs_in_app_l, occurs_in_app_r.
  destruct (String.eqb_spec msg "") as [->|_].
  - exists "Exception", "". reflexivity.
  - apply occurs_in_app_l, occurs_in_refl.
Qed.

Lemma format_exc_runtime_error (W : world) (msg : string) :
  Str.occurs_in msg (format_exc W (RuntimeError msg)).
Proof.
  unfold format_exc, exn_line. apply occurs_in_app_l, occurs_in_app_r.
  destruct (String.eqb_spec msg "") as [->|_].
  - exists "RuntimeError", "". reflexivity.
  - apply occurs_in_app_l, occurs_in_refl.
Qed.

(** ** The resource guard *)

Lemma Qltb_true (a b : Q) : Qltb a b = true <-> (a < b)%Q.
Proof.
  unfold Qltb. rewrite negb_true_iff. split.
  - intros H. apply Qnot_le_lt. intros Hle.
    apply Qle_bool_iff in Hle. congruence.
  - intros H. destruct (Qle_bool b a) eqn:E; [|reflexivity].
    apply Qle_bool_iff in E. exfalso. eapply Qlt_not_le; eauto.
Qed.

Lemma Qltb_false (a b : Q) : Qltb a b = false <-> (b <= a)%Q.
Proof.
  unfold Qltb. rewrite negb_false_iff. apply Qle_bool_iff.
Qed.

Lemma resource_guard_passes (W : world) (s : state) :
  memory_not_blocking W -> disk_not_blocking W ->
  resource_guard W s = (Ok tt, s).
Proof.
  intros Hm Hd. unfold resource_guard, bind.
  assert (Hmem : (match memory_available_gb W with
                  | Some m => if Qltb m (1 # 2)
                              then raise (PyException (memory_message W m))
                              else ret tt
                  | None => ret tt
                  end) s = (Ok tt, s)).
  { destruct Hm as [->|(m & -> & Hle)]; [reflexivity|].
    apply Qltb_false in Hle. now rewrite Hle. }
  rewrite Hmem.
  destruct Hd as [->|(d & -> & Hle)]; [reflexivity|].
  unfold DISK_MIN_FREE_BYTES.
  destruct (Z.ltb_spec d (500 * 1024 * 1024)); [lia | reflexivity].
Qed.

Lemma resource_guard_rejects (W : world) (s : state) :
  low_memory W \/ low_disk W ->
  exists msg,
    resource_guard W s = (Raise (PyException msg), s) /\
    ((exists m, memory_available_gb W = Some m /\ (m < 1 # 2)%Q /\
                msg = memory_message W m) \/
     (exists d, disk_free_bytes W = Some d /\ d < 500 * 1024 * 1024 /\
                msg = disk_message W d)).
Proof.
  intros H. unfold resource_guard, bind.
  destruct (memory_available_gb W) as [m|] eqn:Em.
  - destruct (Qltb m (1 # 2)) eqn:Elt.
    + exists (memory_message W m). split; [reflexivity|].
      left. exists m. repeat split. now apply Qltb_true.
    + destruct H as [(m' & Hm' & Hlt)|(d & Hd & Hlt)].
      * rewrite Em in Hm'. injection Hm' as <-. apply Qltb_true in Hlt. congruence.
      * rewrite Hd. unfold DISK_MIN_FREE_BYTES.
        destruct (Z.ltb_spec d (500 * 1024 * 1024)); [|lia].
        exists (disk_message W d). split; [reflexivity|].
        right. now exists d.
  - destruct H as [(m' & Hm' & _)|(d & Hd & Hlt)]; [congruence|].
    rewrite Hd. unfold DISK_MIN_FREE_BYTES.
    destruct (Z.ltb_spec d (500 * 1024 * 1024)); [|lia].
    exists (disk_message W d). split; [reflexivity|].
    right. now exists d.
Qed.

Lemma resource_guard_refuses (W : world) (s : state) :
  low_memory W \/ low_disk W ->
  exists msg,
    resource_guard W s = (Raise (PyException msg), s) /\
    ((exists m, memory_available_gb W = Some m /\ (m < 1 # 2)%Q /\
                msg = "Insufficient available container memory: "
                        ++ fmt_2f W m
                        ++ " GB available (minimum 0.5 GB required)") \/
     (memory_not_blocking W /\
      exists d, disk_free_bytes W = Some d /\ d < 500 * 1024 * 1024 /\
                msg = "Insufficient free container disk space: "
                        ++ fmt_2f W (inject_Z d / inject_Z (1024 ^ 3))%Q
                        ++ " GB available (minimum 0.5 GB required)")).
Proof.
  intros H. unfold resource_guard, bind.
  destruct (memory_available_gb W) as [m|] eqn:Em.
  - destruct (Qltb m (1 # 2)) eqn:Elt.
    + eexists. split; [reflexivity|].
      left. exists m. repeat split. now apply Qltb_true.
    + destruct H as [(m' & Hm' & Hlt)|(d & Hd & Hlt)].
      * rewrite Em in Hm'. injection Hm' as <-. apply Qltb_true in Hlt.
        congruence.
      * rewrite Hd. unfold DISK_MIN_FREE_BYTES.
        destruct (Z.ltb_spec d (500 * 1024 * 1024)); [|lia].
        eexists. split; [reflexivity|].
        right. split.
        -- right. exists m. split; [exact Em|]. now apply Qltb_false.
        -- now exists d.
  - destruct H as [(m' & Hm' & _)|(d & Hd & Hlt)]; [congruence|].
    rewrite Hd. unfold DISK_MIN_FREE_BYTES.
    destruct (Z.ltb_spec d (500 * 1024 * 1024)); [|lia].
    eexists. split; [reflexivity|].
    right. split; [left; exact Em | now exists d].
Qed.

(** What the handler does with an exception raised in its [try]. *)
Lemma handler_catches (W : world) (event : json) (job_id : string)
      (s s' : state) (e : exn) :
  Py.getitem event "id" = Val (JStr job_id) ->
  handler_try W event s = (Raise e, s') ->
  handler W event s
  = (Ok (error_response W e), add_events s' [EvLog ERROR (LogException e)]).
Proof.
  intros Hid Htry. unfold handler, call, bind at 1. rewrite Hid. simpl.
  unfold bind at 1. simpl. unfold try_except. rewrite Htry. reflexivity.
Qed.

(** A value the [try] returns or falls through with is the handler's. *)
Lemma handler_returns (W : world) (event : json) (job_id : string)
      (s s' : state) (r : json) :
  Py.getitem event "id" = Val (JStr job_id) ->
  handler_try W event s = (Return r, s') \/ handler_try W event s = (Ok r, s') ->
  handler W event s = (Ok r, s').
Proof.
  intros Hid Htry. unfold handler, call, bind at 1. rewrite Hid. simpl.
  unfold bind at 1. simpl. unfold try_except.
  destruct Htry as [-> | ->]; reflexivity.
Qed.

Lemma count_app (f : event -> bool) (a b : list event) :
  count f (a ++ b) = (count f a + count f b)%nat.
Proof. unfold count. now rewrite filter_app, length_app. Qed.

(** C5.  The resource guard: when the available memory is known and below
    0.5 GB, or the free disk space is known and below 500 MB, the handler
    returns [{error: text, refresh_worker: true}], where [text] contains
    the message of the check that failed, "Insufficient available
    container memory: ..." or "Insufficient free container disk space:
    ..." (memory is checked first), and nothing is posted to the
    generation service; a reading that is unknown or sufficient blocks
    nothing, and with both so the handler goes on to build the payload. *)
Theorem resource_guard_policy (W : world) (event : json) (job_id : string)
        (s : state) :
  Py.getitem event "id" = Val (JStr job_id) ->
  (low_memory W \/ low_disk W ->
   exists text msg,
     handler W event s
     = (Ok (JDict [("error", JStr text); ("refresh_worker", JBool true)]),
        add_events s [EvLog ERROR (LogException (PyException msg))])
     /\ Str.occurs_in msg text
     /\ ((exists m, memory_available_gb W = Some m /\ (m < 1 # 2)%Q /\
                    msg = "Insufficient available container memory: "
                            ++ fmt_2f W m
                            ++ " GB available (minimum 0.5 GB required)") \/
         (memory_not_blocking W /\
          exists d, disk_free_bytes W = Some d /\ d < 500 * 1024 * 1024 /\
                    msg = "Insufficient free container disk space: "
                            ++ fmt_2f W (inject_Z d / inject_Z (1024 ^ 3))%Q
                            ++ " GB available (minimum 0.5 GB required)"))
     /\ count is_post (trace (snd (handler W event s))) = count is_post (trace s))
  /\ (memory_not_blocking W -> disk_not_blocking W ->
      resource_guard W s = (Ok tt, s)
      /\ handler_try W event s
         = (payload <- prepare_payload W event ;;
            polled <- submit_and_poll W payload ;;
            finish W payload (fst polled) (snd polled)) s).
Proof.
  intros Hid. split.
  - intros Hlow. destruct (resource_guard_refuses W s Hlow) as (msg & Hg & Hmsg).
    assert (Hh : handler W event s
                 = (Ok (JDict [("error", JStr (format_exc W (PyException msg)));
                               ("refresh_worker", JBool true)]),
                    add_events s [EvLog ERROR (LogException (PyException msg))])).
    { change (JDict [("error", JStr (format_exc W (PyException msg)));
                     ("refresh_worker", JBool true)])
        with (error_response W (PyException msg)).
      eapply handler_catches; eauto.
      unfold handler_try. now apply bind_raise. }
    exists (format_exc W (PyException msg)), msg.
    split; [exact Hh|]. split; [apply format_exc_exception|].
    split; [exact Hmsg|].
    rewrite Hh. unfold add_events, count. simpl.
    rewrite filter_app, length_app. simpl. lia.
  - intros Hm Hd. pose proof (resource_guard_passes W s Hm Hd) as Hg.
    split; [exact Hg|]. unfold handler_try. now rewrite (bind_ok _ _ _ _ _ Hg).
Qed.

Lemma resource_guard_policy_witness :
  exists text,
    fst (handler Scenario.low_disk_worker (Scenario.job "txt2img" Scenario.params)
           (Scenario.start [] []))
    = Ok (JDict [("error", JStr text); ("refresh_worker", JBool true)])
    /\ Str.occurs_in
         "Insufficient free container disk space: 0.10 GB available (minimum 0.5 GB required)"
         text
    /\ count is_post
         (trace (snd (handler Scenario.low_disk_worker
                        (Scenario.job "txt2img" Scenario.params)
                        (Scenario.start [] [])))) = 0%nat.
Proof.
  destruct (proj1 (resource_guard_policy Scenario.low_disk_worker
                     (Scenario.job "txt2img" Scenario.params) "job-1"
                     (Scenario.start [] []) eq_refl))
    as (text & msg & Hh & Hin & Hmsg & Hpost).
  - right. exists (100 * 1024 * 1024). split; [reflexivity | lia].
  - exists text. rewrite Hh. split; [reflexivity|]. split; [|exact Hpost].
    destruct Hmsg as [(m & Hm & _)|(_ & d & Hd & _ & Hmsg)]; [discriminate Hm|].
    injection Hd as <-. rewrite Hmsg in Hin. exact Hin.
Defined.

(** The scenario of the specification: with free disk below 500 MB the
    error text names the disk. *)
Lemma low_disk_error_text (W : world) (d : Z) :
  Str.occurs_in "Insufficient free container disk space"
                (format_exc W (PyException (disk_message W d))).
Proof.
  eapply occurs_in_trans; [|apply format_exc_exception].
  unfold disk_message.
  exists "", (": " ++ fmt_2f W (inject_Z d / inject_Z (1024 ^ 3))
                ++ " GB available (minimum 0.5 GB required)").
  reflexivity.
Qed.

Lemma low_memory_error_text (W : world) (m : Q) :
  Str.occurs_in "Insufficient available container memory"
                (format_exc W (PyException (memory_message W m))).
Proof.
  eapply occurs_in_trans; [|apply format_exc_exception].
  unfold memory_message.
  exists "", (": " ++ fmt_2f W m ++ " GB available (minimum 0.5 GB required)").
  reflexivity.
Qed.

(** ** The poll loop *)

Lemma status_lines_closed_form (n : nat) :
  List.length (filter should_log_status (seq 0 (S n))) = S (n / 15).
Proof.
  induction n as [|n IH].
  - reflexivity.
  - rewrite seq_S, filter_app, length_app, IH.
    cbn [Nat.add filter]. unfold should_log_status.
    change (Nat.eqb (S n) 0) with false. cbn [orb].
    pose proof (Nat.div_mod_eq n 15) as E1.
    pose proof (Nat.mod_upper_bound n 15 ltac:(lia)) as B1.
    pose proof (Nat.div_mod_eq (S n) 15) as E2.
    pose proof (Nat.mod_upper_bound (S n) 15 ltac:(lia)) as B2.
    destruct (Nat.eqb_spec (S n mod 15) 0) as [E|E]; cbn [List.length]; lia.
Qed.

Lemma poll_from_stops (W : world) (prompt_id : json) (r : http_response)
      (j : json) (rest : list (option http_response)) (retries : nat) (s : state) :
  terminal_answer r j ->
  poll_from W prompt_id (Some r :: rest) retries s
  = (Ok j, set_history s rest
             (status_line prompt_id retries
                ++ [EvGet (status_endpoint W prompt_id)])).
Proof.
  intros (Hcode & Hbody & n & Hlen). simpl.
  unfold status_line, bind, log, emit, take_history, response_json, set_history.
  destruct (should_log_status retries); simpl;
    rewrite Hbody; simpl; rewrite Hcode; simpl; rewrite Hlen; simpl;
    rewrite <- ?app_assoc; reflexivity.
Qed.

Lemma poll_from_goes_on (W : world) (prompt_id : json) (a : option http_response)
      (rest : list (option http_response)) (retries : nat) (s : state) :
  pending_answer a ->
  poll_from W prompt_id (a :: rest) retries s
  = poll_from W prompt_id rest (S retries)
      (set_history s rest
         (status_line prompt_id retries
            ++ [EvGet (status_endpoint W prompt_id); EvSleep])).
Proof.
  intros (r & j & -> & Hbody & Hlen).
  change (poll_from W prompt_id (Some r :: rest) retries)
    with ((if should_log_status retries
           then log INFO (LogGettingStatus prompt_id) else ret tt) ;;;
          emit (EvGet (status_endpoint W prompt_id)) ;;;
          take_history rest ;;;
          resp_json <- lift (response_json r) ;;
          stop <- (if status_code r =? 200
                   then n <- lift (Py.len resp_json) ;; ret (negb (Nat.eqb n 0))
                   else ret false) ;;
          if (stop : bool) then ret resp_json
          else emit EvSleep ;;; poll_from W prompt_id rest (S retries)).
  unfold status_line, bind, log, emit, take_history, response_json, set_history.
  destruct (should_log_status retries); simpl;
    rewrite Hbody; simpl; destruct (status_code r =? 200); simpl;
    rewrite ?Hlen; simpl; rewrite <- ?app_assoc; reflexivity.
Qed.

Lemma poll_from_terminates (W : world) (prompt_id : json)
      (pendings : list (option http_response)) (r : http_response) (j : json)
      (rest : list (option http_response)) :
  Forall pending_answer pendings -> terminal_answer r j ->
  forall retries s,
    poll_from W prompt_id (pendings ++ Some r :: rest) retries s
    = (Ok j, set_history s rest
               (poll_events W prompt_id retries (List.length pendings))).
Proof.
  intros Hp Ht. induction Hp as [|a pendings Ha Hp IH]; intros retries s.
  - apply poll_from_stops, Ht.
  - rewrite <- app_comm_cons, (poll_from_goes_on W prompt_id a _ retries s Ha).
    rewrite IH. unfold set_history. simpl.
    now rewrite <- !app_assoc.
Qed.

Lemma count_status_line (prompt_id : json) (retries : nat) :
  count is_status_log (status_line prompt_id retries)
  = List.length (filter should_log_status [retries]).
Proof.
  unfold status_line, count. simpl. now destruct (should_log_status retries).
Qed.

Lemma poll_events_status (W : world) (prompt_id : json) (n retries : nat) :
  count is_status_log (poll_events W prompt_id retries n)
  = List.length (filter should_log_status (seq retries (S n))).
Proof.
  revert retries. induction n as [|n IH]; intros retries.
  - cbn [poll_events seq]. rewrite count_app, count_status_line.
    replace (count is_status_log [EvGet (status_endpoint W prompt_id)])
      with 0%nat by reflexivity.
    lia.
  - cbn [poll_events]. rewrite !count_app, count_status_line, IH.
    replace (count is_status_log [EvGet (status_endpoint W prompt_id); EvSleep])
      with 0%nat by reflexivity.
    change (seq retries (S (S n))) with ([retries] ++ seq (S retries) (S n))%list.
    rewrite (filter_app _ [retries]), length_app. lia.
Qed.

Lemma poll_events_gets (W : world) (prompt_id : json) (n retries : nat) :
  count is_get (poll_events W prompt_id retries n) = S n.
Proof.
  revert retries. induction n as [|n IH]; intros retries.
  - cbn [poll_events]. rewrite count_app. unfold status_line.
    destruct (should_log_status retries); reflexivity.
  - cbn [poll_events]. rewrite !count_app, IH. unfold status_line.
    destruct (should_log_status retries); reflexivity.
Qed.

(** ** From the request to the polled history entry *)

Lemma handler_try_after_poll (W : world) (event : json) (s s' : state)
      (payload prompt_id resp_json : json) :
  polled W event s payload prompt_id resp_json s' ->
  handler_try W event s = finish W payload prompt_id resp_json s'.
Proof.
  intros (job_id & s1 & _ & Hg & Hp & Hs). unfold handler_try.
  rewrite (bind_ok _ _ _ _ _ Hg), (bind_ok _ _ _ _ _ Hp), (bind_ok _ _ _ _ _ Hs).
  reflexivity.
Qed.

Lemma handler_after_poll_raise (W : world) (event : json) (s s' s'' : state)
      (payload prompt_id resp_json : json) (e : exn) :
  polled W event s payload prompt_id resp_json s' ->
  finish W payload prompt_id resp_json s' = (Raise e, s'') ->
  handler W event s
  = (Ok (error_response W e), add_events s'' [EvLog ERROR (LogException e)]).
Proof.
  intros Hp Hf. pose proof Hp as (job_id & s1 & Hid & _).
  eapply handler_catches; eauto.
  now rewrite (handler_try_after_poll _ _ _ _ _ _ _ Hp).
Qed.

Lemma handler_after_poll_return (W : world) (event : json) (s s' s'' : state)
      (payload prompt_id resp_json r : json) :
  polled W event s payload prompt_id resp_json s' ->
  finish W payload prompt_id resp_json s' = (Return r, s'') \/
  finish W payload prompt_id resp_json s' = (Ok r, s'') ->
  handler W event s = (Ok r, s'').
Proof.
  intros Hp Hf. pose proof Hp as (job_id & s1 & Hid & _).
  eapply handler_returns; eauto.
  now rewrite (handler_try_after_poll _ _ _ _ _ _ _ Hp).
Qed.

Section EmitsBuild.

Variable W : world.
Variable P : event -> Prop.
Hypothesis P_log : forall e, plain_log e -> P e.
Hypothesis P_open : forall path, P (EvOpen path).

Lemma emits_get_workflow_payload (workflow_name payload : json) :
  emits P (get_workflow_payload W workflow_name payload).
Proof. unfold get_workflow_payload. repeat emits_step. Qed.

Lemma emits_prefix_node (value : json) : emits P (prefix_node W value).
Proof. unfold prefix_node. repeat emits_step. Qed.

Lemma emits_prefix_items (items : list (string * json)) :
  emits P (prefix_items W items).
Proof.
  induction items as [|[k v] rest IH]; simpl.
  - emits_step.
  - repeat first [apply IH | apply emits_prefix_node | emits_step].
Qed.

Lemma emits_create_unique_filename_prefix (payload : json) :
  emits P (create_unique_filename_prefix W payload).
Proof.
  unfold create_unique_filename_prefix.
  repeat first [apply emits_prefix_items | emits_step].
Qed.

Lemma emits_prepare_payload (event : json) :
  emits P (prepare_payload W event).
Proof.
  unfold prepare_payload, build_payload.
  repeat first [ apply emits_create_unique_filename_prefix
               | apply emits_get_workflow_payload | emits_step ].
Qed.

End EmitsBuild.

Lemma plain_log_outside_poll (e : event) : plain_log e -> outside_poll e.
Proof.
  destruct e as [lvl r| | | |]; simpl; try contradiction.
  destruct r; simpl; try contradiction; intros _; now split.
Qed.

Lemma count_outside_poll (evs : list event) :
  Forall outside_poll evs ->
  count is_status_log evs = 0%nat /\ count is_get evs = 0%nat.
Proof.
  unfold count. induction 1 as [|e evs [He1 He2] _ [IH1 IH2]]; simpl.
  - now split.
  - now rewrite He1, He2.
Qed.

(** Everything the handler does once the history entry is polled adds
    neither a status line nor a history request. *)
Lemma handler_tail_outside_poll (W : world) (payload prompt_id resp_json : json) :
  emits outside_poll
        (call (try_except (finish W payload prompt_id resp_json)
                 (fun e => log ERROR (LogException e) ;;;
                           return_ (error_response W e)))).
Proof.
  apply emits_call, emits_try.
  - apply emits_finish, plain_log_outside_poll.
  - intros e. repeat emits_step.
Qed.

Lemma handler_after_poll (W : world) (event : json) (s s' : state)
      (payload prompt_id resp_json : json) :
  polled W event s payload prompt_id resp_json s' ->
  handler W event s
  = call (try_except (finish W payload prompt_id resp_json)
            (fun e => log ERROR (LogException e) ;;;
                      return_ (error_response W e))) s'.
Proof.
  intros Hp. pose proof Hp as (job_id & s1 & Hid & _).
  unfold handler, call, bind at 1. rewrite Hid. simpl.
  unfold bind at 1. simpl. unfold try_except.
  now rewrite (handler_try_after_poll _ _ _ _ _ _ _ Hp).
Qed.

Lemma submit_and_poll_queued (W : world) (payload prompt_id queued : json)
      (queue_response : http_response) (s : state) :
  post W "prompt" (JDict [("prompt", payload)]) = Some queue_response ->
  status_code queue_response = 200 ->
  json_body queue_response = Some queued ->
  Py.getitem queued "prompt_id" = Val prompt_id ->
  submit_and_poll W payload s
  = (resp_json <- poll_history W prompt_id ;; ret (prompt_id, resp_json))
      (add_events s [EvLog DEBUG LogQueuingPrompt;
                     EvPost "prompt" (JDict [("prompt", payload)]);
                     EvLog INFO (LogPromptQueued prompt_id)]).
Proof.
  intros Hpost Hcode Hbody Hid.
  unfold submit_and_poll, handle_queue_response, send_post_request,
    bind at 1 2 3, log, emit.
  cbn [fst snd]. unfold bind at 1. cbn. rewrite Hpost. cbn. rewrite Hcode. cbn.
  unfold bind at 1, response_json. rewrite Hbody. cbn.
  unfold bind at 1. rewrite Hid. cbn. unfold bind at 1. cbn.
  unfold add_events. cbn. rewrite <- !app_assoc. reflexivity.
Qed.

(** C9.  Polling over a scripted history: when the service answers the
    first N history requests with empty bodies and the next one with HTTP
    200 and a body that is not empty, the poll loop ends on that answer and
    hands its body on (N + 1 requests are made, the rest of the script is
    left unread), and the whole run of the handler logs the status line
    once for the first attempt plus floor(N/15) times after it. *)
Theorem polling_terminal_detection (W : world) (event : json) (job_id : string)
        (s s1 : state) (payload prompt_id queued body : json)
        (queue_response r : http_response)
        (pendings rest : list (option http_response)) :
  Py.getitem event "id" = Val (JStr job_id) ->
  resource_guard W s = (Ok tt, s) ->
  prepare_payload W event s = (Ok payload, s1) ->
  post W "prompt" (JDict [("prompt", payload)]) = Some queue_response ->
  status_code queue_response = 200 ->
  json_body queue_response = Some queued ->
  Py.getitem queued "prompt_id" = Val prompt_id ->
  history s1 = (pendings ++ Some r :: rest)%list ->
  Forall pending_answer pendings ->
  terminal_answer r body ->
  let n := List.length pendings in
  (exists s2, polled W event s payload prompt_id body s2 /\ history s2 = rest)
  /\ poll_history W prompt_id s1
     = (Ok body, set_history s1 rest (poll_events W prompt_id 0 n))
  /\ count is_status_log (trace (snd (handler W event s)))
     = (count is_status_log (trace s) + 1 + n / 15)%nat
  /\ count is_get (trace (snd (handler W event s)))
     = (count is_get (trace s) + (n + 1))%nat.
Proof.
  intros Hid Hg Hprep Hpost Hcode Hbody Hpid Hhist Hpend Hterm n.
  set (s1' := add_events s1 [EvLog DEBUG LogQueuingPrompt;
                             EvPost "prompt" (JDict [("prompt", payload)]);
                             EvLog INFO (LogPromptQueued prompt_id)]).
  assert (Hpoll : forall s0, history s0 = (pendings ++ Some r :: rest)%list ->
            poll_history W prompt_id s0
            = (Ok body, set_history s0 rest (poll_events W prompt_id 0 n))).
  { intros s0 H0. unfold poll_history. rewrite H0.
    now apply poll_from_terminates. }
  assert (Hsub : submit_and_poll W payload s1
                 = (Ok (prompt_id, body),
                    set_history s1' rest (poll_events W prompt_id 0 n))).
  { rewrite (submit_and_poll_queued W payload prompt_id queued queue_response s1
               Hpost Hcode Hbody Hpid).
    fold s1'. unfold bind. now rewrite (Hpoll s1' Hhist). }
  assert (Hpolled : polled W event s payload prompt_id body
                      (set_history s1' rest (poll_events W prompt_id 0 n))).
  { exists job_id, s1. auto. }
  split; [eexists; split; [exact Hpolled | reflexivity]|].
  split; [now apply Hpoll|].
  rewrite (handler_after_poll _ _ _ _ _ _ _ Hpolled).
  destruct (handler_tail_outside_poll W payload prompt_id body
              (set_history s1' rest (poll_events W prompt_id 0 n)))
    as (evs2 & -> & Hevs2).
  destruct (emits_prepare_payload W outside_poll plain_log_outside_poll
              (fun _ => conj eq_refl eq_refl) event s) as (evs1 & Ht1 & Hevs1).
  rewrite Hprep in Ht1. simpl in Ht1.
  destruct (count_outside_poll _ Hevs1) as [C1 C1'].
  destruct (count_outside_poll _ Hevs2) as [C2 C2'].
  unfold set_history, s1', add_events. cbn [trace]. rewrite Ht1.
  rewrite !count_app, C1, C1', C2, C2', poll_events_status, poll_events_gets,
    status_lines_closed_form.
  replace (count is_status_log
             [EvLog DEBUG LogQueuingPrompt;
              EvPost "prompt" (JDict [("prompt", payload)]);
              EvLog INFO (LogPromptQueued prompt_id)]) with 0%nat by reflexivity.
  replace (count is_get
             [EvLog DEBUG LogQueuingPrompt;
              EvPost "prompt" (JDict [("prompt", payload)]);
              EvLog INFO (LogPromptQueued prompt_id)]) with 0%nat by reflexivity.
  fold n. split; lia.
Qed.

Lemma scenario_pending : pending_answer (Some Scenario.pending).
Proof. exists Scenario.pending, (JDict []). repeat split. Qed.

Lemma polling_terminal_detection_witness :
  count is_status_log
    (trace (snd (handler Scenario.worker (Scenario.job "txt2img" Scenario.params)
                   (Scenario.start [] Scenario.slow_script)))) = 2%nat
  /\ count is_get
       (trace (snd (handler Scenario.worker (Scenario.job "txt2img" Scenario.params)
                      (Scenario.start [] Scenario.slow_script)))) = 17%nat.
Proof.
  refine (proj2 (proj2
    (polling_terminal_detection Scenario.worker
       (Scenario.job "txt2img" Scenario.params) "job-1"
       (Scenario.start [] Scenario.slow_script) _ _ (JStr "p-1") _ _
       Scenario.queued (Scenario.history_entry "success" true [] [])
       (List.repeat (Some Scenario.pending) 16) []
       eq_refl eq_refl _ eq_refl eq_refl eq_refl eq_refl _ _ _))).
  - vm_compute. reflexivity.
  - reflexivity.
  - apply Forall_forall. intros a Ha. apply repeat_spec in Ha. subst a.
    exact scenario_pending.
  - repeat split. exists 0%nat. reflexivity.
Defined.

(** ** Building the payload *)

Lemma bind_assoc {A B C : Type} (m : M A) (f : A -> M B) (g : B -> M C) (s : state) :
  bind (bind m f) g s = bind m (fun a => bind (f a) g) s.
Proof. unfold bind. destruct (m s) as [[a| | |] s1]; reflexivity. Qed.

Lemma prepare_payload_validated (W : world) (event workflow_name payload : json)
      (s : state) :
  validated_as W event workflow_name payload ->
  prepare_payload W event s = build_payload W workflow_name payload s.
Proof.
  intros (input & validated & Hin & Herr & Hv & Hw & Hp).
  unfold prepare_payload. unfold bind at 1. rewrite Hin. cbn.
  unfold bind at 1. rewrite Herr. cbn.
  unfold bind at 1. rewrite Hv. cbn.
  unfold bind at 1. rewrite Hw. cbn.
  unfold bind at 1. rewrite Hp. cbn. reflexivity.
Qed.

(** Split on the innermost term a hypothesis examines. *)
Ltac destruct_inner H :=
  match type of H with
  | context [match ?x with _ => _ end] =>
      lazymatch x with
      | context [match _ with _ => _ end] => fail
      | _ => destruct x eqn:?
      end
  end.

Ltac invert_run H :=
  unfold bind, lift, ret, raise, fresh_uuid in H;
  repeat (destruct_inner H; cbn in H; try discriminate H).

Lemma prefix_node_injected (W : world) (value value' : json) (s s' : state) :
  prefix_node W value s = (Ok value', s') -> node_injected value value'.
Proof.
  intros H. unfold prefix_node in H.
  unfold bind at 1 in H. unfold lift at 1 in H.
  destruct (Py.get value "class_type") as [class_type|] eqn:Ect;
    [|discriminate H].
  cbn in H.
  destruct (Py.eq_str class_type "SaveImage") eqn:Eimg.
  - invert_run H. injection H as <- _. right. split.
    + exists class_type. auto.
    + exists "filename_prefix". eexists. split; [now left | eassumption].
  - destruct (existsb (Py.eq_str class_type) text_output_types) eqn:Etxt.
    + assert (Hrec : recognized_output value) by (exists class_type; auto).
      pose proof Etxt as Etxt'. cbn in Etxt'. rewrite Etxt' in H.
      invert_run H; injection H as <- _;
        solve [ now left
              | right; split; [exact Hrec|];
                eexists; eexists; split; [|eassumption];
                unfold prefix_slot; auto ].
    + pose proof Etxt as Etxt'. cbn in Etxt'. rewrite Etxt' in H.
      unfold ret in H. injection H as <- _. now left.
Qed.

Lemma prefix_items_injected (W : world) (items : list (string * json)) :
  forall items' s s',
    prefix_items W items s = (Ok items', s') ->
    Forall2 (fun kv kv' => fst kv = fst kv' /\ node_injected (snd kv) (snd kv'))
            items items'.
Proof.
  induction items as [|[key value] rest IH]; intros items' s s' H.
  - injection H as <- _. constructor.
  - cbn [prefix_items] in H. unfold bind at 1 in H.
    destruct (prefix_node W value s) as [[value'| | |] s1] eqn:Enode;
      try discriminate H.
    unfold bind at 1 in H.
    destruct (prefix_items W rest s1) as [[rest'| | |] s2] eqn:Erest;
      try discriminate H.
    injection H as <- _. constructor.
    + split; [reflexivity|]. eapply prefix_node_injected; eauto.
    + eapply IH; eauto.
Qed.

(** What [create_unique_filename_prefix] changes: the keys and their order
    stay, a node that is not a recognised output node stays as it is, and a
    recognised one changes in one filename slot of its inputs at most. *)
Lemma create_unique_filename_prefix_injected (W : world) (payload payload' : json)
      (s s' : state) :
  create_unique_filename_prefix W payload s = (Ok payload', s') ->
  exists items items',
    payload = JDict items /\ payload' = JDict items' /\
    Forall2 (fun kv kv' => fst kv = fst kv' /\ node_injected (snd kv) (snd kv'))
            items items'.
Proof.
  intros H. unfold create_unique_filename_prefix in H.
  destruct payload as [| | | | | |items]; try discriminate H.
  unfold bind at 1 in H. cbn in H. unfold bind at 1 in H.
  destruct (prefix_items W items s) as [[items'| | |] s1] eqn:E;
    try discriminate H.
  injection H as <- _. exists items, items'. repeat split.
  eapply prefix_items_injected; eauto.
Qed.

(** ** Events of a whole run *)

Lemma plain_log_after_submit (e : event) : plain_log e -> after_submit e.
Proof.
  destruct e as [lvl r| | | |]; simpl; try contradiction. intros _. now split.
Qed.

Lemma poll_event_after_submit (e : event) : poll_event e -> after_submit e.
Proof.
  destruct e as [lvl r| | | |]; simpl; try contradiction; intros _; now split.
Qed.

Lemma emits_handle_queue_response (W : world) (queue_response : http_response) :
  emits after_submit (handle_queue_response W queue_response).
Proof.
  unfold handle_queue_response.
  repeat first
    [ apply (emits_weaken poll_event after_submit _ poll_event_after_submit),
        emits_poll_history
    | emits_step ].
Qed.

(** After the queue request nothing is posted and no template is opened. *)
Lemma submit_and_poll_events (W : world) (payload : json) (s : state) :
  exists evs,
    trace (snd (submit_and_poll W payload s))
    = (trace s ++ [EvLog DEBUG LogQueuingPrompt;
                   EvPost "prompt" (JDict [("prompt", payload)])] ++ evs)%list
    /\ Forall after_submit evs.
Proof.
  unfold submit_and_poll, send_post_request.
  unfold bind at 1, log at 1, emit at 1. rewrite bind_assoc.
  unfold bind at 1, emit at 1.
  set (s2 := {| fs := _; uuid_next := _; history := _; trace := _ |}).
  assert (He : emits after_submit
                 (bind (match post W "prompt" (JDict [("prompt", payload)]) with
                        | Some r => ret r
                        | None => raise RequestException
                        end)
                       (fun queue_response =>
                          handle_queue_response W queue_response))).
  { repeat first [apply emits_handle_queue_response | emits_step]. }
  destruct (He s2) as (evs & Ht & Hf). exists evs. split; [|exact Hf].
  rewrite Ht. unfold s2. cbn [trace]. now rewrite <- !app_assoc.
Qed.

Section EmitsRun.

Variable W : world.
Variable P : event -> Prop.
Hypothesis P_log : forall e, plain_log e -> P e.
Hypothesis P_post : forall endpoint body, P (EvPost endpoint body).
Hypothesis P_poll : forall e, poll_event e -> P e.

Lemma emits_submit_and_poll (payload : json) :
  emits P (submit_and_poll W payload).
Proof.
  unfold submit_and_poll, send_post_request, handle_queue_response.
  repeat first
    [ apply (emits_weaken poll_event P _ P_poll), emits_poll_history
    | emits_step ].
Qed.

End EmitsRun.

(** The handler's [except] clause. *)
Lemma emits_catch (W : world) (P : event -> Prop) (e : exn) :
  (forall e, plain_log e -> P e) ->
  emits P (log ERROR (LogException e) ;;; @return_ json (error_response W e)).
Proof. intros P_log. repeat emits_step. Qed.

Lemma emits_handler_tail (W : world) (P : event -> Prop)
      (payload prompt_id resp_json : json) :
  (forall e, plain_log e -> P e) ->
  emits P (call (try_except (finish W payload prompt_id resp_json)
                   (fun e => log ERROR (LogException e) ;;;
                             return_ (error_response W e)))).
Proof.
  intros P_log. apply emits_call, emits_try.
  - now apply emits_finish.
  - intros e. now apply emits_catch.
Qed.

(** Whatever [m] does first, what the handler does after it is log lines. *)
Lemma tail_events (W : world) (m : M (json * json)) (payload : json) (s : state) :
  exists evs,
    trace (snd (call (try_except
                        (polled <- m ;;
                         finish W payload (fst polled) (snd polled))
                        (fun e => log ERROR (LogException e) ;;;
                                  return_ (error_response W e))) s))
    = (trace (snd (m s)) ++ evs)%list
    /\ Forall plain_log evs.
Proof.
  unfold call, try_except, bind at 1.
  destruct (m s) as [[polled|r|e|] s2] eqn:E; cbn [snd].
  - destruct (emits_handler_tail W plain_log payload (fst polled) (snd polled)
                (fun e H => H) s2) as (evs & Ht & Hf).
    exists evs. split; [exact Ht | exact Hf].
  - exists []. cbn. now rewrite app_nil_r.
  - destruct (emits_catch W plain_log e (fun e H => H) s2) as (evs & Ht & Hf).
    exists evs. split; [|exact Hf].
    unfold bind, log, emit, return_ in *. cbn in *. exact Ht.
  - exists []. cbn. now rewrite app_nil_r.
Qed.

Lemma filter_none (f : event -> bool) (evs : list event) :
  Forall (fun e => f e = false) evs -> filter f evs = [].
Proof.
  induction 1 as [|e evs He _ IH]; simpl; [reflexivity|]. now rewrite He.
Qed.

Lemma nothing_emitted {A : Type} (m : M A) (s : state) :
  emits (fun _ => False) m -> trace (snd (m s)) = trace s.
Proof.
  intros H. destruct (H s) as (evs & -> & Hf).
  destruct Hf; [now rewrite app_nil_r | contradiction].
Qed.

Lemma handler_run (W : world) (event : json) (job_id : string) (s : state) :
  Py.getitem event "id" = Val (JStr job_id) ->
  handler W event s
  = call (try_except (handler_try W event)
            (fun e => log ERROR (LogException e) ;;;
                      return_ (error_response W e))) s.
Proof.
  intros Hid. unfold handler, call, bind at 1. rewrite Hid. reflexivity.
Qed.

Lemma after_submit_no_post (evs : list event) :
  Forall after_submit evs -> filter is_post evs = [].
Proof.
  intros H. apply filter_none. eapply Forall_impl; [|exact H].
  now intros e [_ Hp].
Qed.

Lemma plain_log_no_post (evs : list event) :
  Forall plain_log evs -> filter is_post evs = [].
Proof.
  intros H. apply filter_none. eapply Forall_impl; [|exact H].
  intros e He. now destruct (plain_log_after_submit e He).
Qed.

Lemma not_open_count (evs : list event) :
  Forall not_open evs -> count is_open evs = 0%nat.
Proof. intros H. unfold count. now rewrite filter_none. Qed.

(** C8.  Custom workflow bypass: for a job the validator accepts with the
    workflow name "custom", the caller's payload goes to the prefix
    injection as it is, no workflow template is opened during the whole
    run, and what is posted to the generation service is exactly one
    request, carrying the payload as the injection leaves it: same keys in
    the same order, every node either untouched or a recognised output node
    with one filename slot of its inputs assigned. *)
Theorem custom_workflow_bypass (W : world) (event payload : json)
        (job_id : string) (s : state) :
  Py.getitem event "id" = Val (JStr job_id) ->
  resource_guard W s = (Ok tt, s) ->
  validated_as W event (JStr "custom") payload ->
  let s0 := add_events s [EvLog INFO (LogWorkflow (JStr "custom"))] in
  prepare_payload W event s = create_unique_filename_prefix W payload s0
  /\ count is_open (trace (snd (handler W event s))) = count is_open (trace s)
  /\ forall payload' s1,
       create_unique_filename_prefix W payload s0 = (Ok payload', s1) ->
       (exists items items',
          payload = JDict items /\ payload' = JDict items' /\
          Forall2 (fun kv kv' =>
                     fst kv = fst kv' /\ node_injected (snd kv) (snd kv'))
                  items items')
       /\ filter is_post (trace (snd (handler W event s)))
          = (filter is_post (trace s)
               ++ [EvPost "prompt" (JDict [("prompt", payload')])])%list.
Proof.
  intros Hid Hg Hv s0.
  assert (Hprep : prepare_payload W event s
                  = create_unique_filename_prefix W payload s0).
  { rewrite (prepare_payload_validated W event (JStr "custom") payload s Hv).
    reflexivity. }
  assert (Htry : handler_try W event s
                 = (payload' <- create_unique_filename_prefix W payload ;;
                    polled <- submit_and_poll W payload' ;;
                    finish W payload' (fst polled) (snd polled)) s0).
  { unfold handler_try. rewrite (bind_ok _ _ _ _ _ Hg).
    unfold bind at 1. rewrite Hprep. reflexivity. }
  split; [exact Hprep|]. split.
  - rewrite (handler_run W event job_id s Hid).
    unfold call, try_except. rewrite Htry.
    change (count is_open
              (trace (snd (call (try_except
                 (payload' <- create_unique_filename_prefix W payload ;;
                  polled <- submit_and_poll W payload' ;;
                  finish W payload' (fst polled) (snd polled))
                 (fun e => log ERROR (LogException e) ;;;
                           return_ (error_response W e))) s0)))
            = count is_open (trace s)).
    assert (He : emits not_open
                   (call (try_except
                      (payload' <- create_unique_filename_prefix W payload ;;
                       polled <- submit_and_poll W payload' ;;
                       finish W payload' (fst polled) (snd polled))
                      (fun e => log ERROR (LogException e) ;;;
                                return_ (error_response W e))))).
    { assert (Hlog : forall e, plain_log e -> not_open e).
      { intros e He. now destruct (plain_log_after_submit e He). }
      assert (Hpoll : forall e, poll_event e -> not_open e).
      { intros e He. now destruct (poll_event_after_submit e He). }
      apply emits_call, emits_try; [|intros e; now apply emits_catch].
      apply emits_bind; [apply emits_create_unique_filename_prefix|intros p].
      apply emits_bind; [|intros polled; now apply emits_finish].
      apply emits_submit_and_poll; auto. intros; reflexivity. }
    destruct (He s0) as (evs & -> & Hf).
    unfold s0, add_events. cbn [trace].
    rewrite !count_app, (not_open_count _ Hf).
    replace (count is_open [EvLog INFO (LogWorkflow (JStr "custom"))])
      with 0%nat by reflexivity.
    lia.
  - intros payload' s1 Hinj.
    split; [eapply create_unique_filename_prefix_injected; eauto|].
    pose proof (nothing_emitted (create_unique_filename_prefix W payload) s0
                  (emits_create_unique_filename_prefix W _ payload)) as Ht1.
    rewrite Hinj in Ht1. cbn [snd] in Ht1.
    rewrite (handler_run W event job_id s Hid).
    unfold call, try_except. rewrite Htry, (bind_ok _ _ _ _ _ Hinj).
    destruct (tail_events W (submit_and_poll W payload') payload' s1)
      as (evs' & Ht' & Hf').
    unfold call, try_except in Ht'. rewrite Ht'.
    destruct (submit_and_poll_events W payload' s1) as (evs & -> & Hf).
    rewrite Ht1. unfold s0, add_events. cbn [trace].
    rewrite !filter_app, (after_submit_no_post _ Hf), (plain_log_no_post _ Hf').
    cbn. now rewrite !app_nil_r.
Qed.

Lemma scenario_validated (workflow : string) (payload : json) :
  validated_as Scenario.worker (Scenario.job workflow payload)
               (JStr workflow) payload.
Proof. do 2 eexists. repeat split. Qed.

Lemma custom_workflow_bypass_witness :
  count is_open
    (trace (snd (handler Scenario.worker
                   (Scenario.job "custom" Scenario.custom_payload)
                   (Scenario.start [] Scenario.done_script)))) = 0%nat
  /\ exists payload',
       filter is_post
         (trace (snd (handler Scenario.worker
                        (Scenario.job "custom" Scenario.custom_payload)
                        (Scenario.start [] Scenario.done_script))))
       = [EvPost "prompt" (JDict [("prompt", payload')])]
       /\ slot_value payload' "6" "text" = Some (JStr "a red fox")
       /\ slot_value payload' "9" "filename_prefix"
          = Some (JStr (Scenario.uuids 0))
       /\ slot_value payload' "10" "file"
          = Some (JStr (Scenario.uuids 1 ++ "_caption.txt")).
Proof.
  destruct (custom_workflow_bypass Scenario.worker
              (Scenario.job "custom" Scenario.custom_payload)
              Scenario.custom_payload "job-1"
              (Scenario.start [] Scenario.done_script)
              eq_refl eq_refl
              (scenario_validated "custom" Scenario.custom_payload))
    as (_ & Hopen & Hpost).
  split; [exact Hopen|].
  eexists. split; [refine (proj2 (Hpost _ _ _)); vm_compute; reflexivity|].
  repeat split.
Defined.

Lemma bind_ext {A B : Type} (m1 m2 : M A) (k : A -> M B) (s : state) :
  m1 s = m2 s -> bind m1 k s = bind m2 k s.
Proof. intros H. unfold bind. now rewrite H. Qed.

(** C10.  The workflow name "default" is an alias of "txt2img": two jobs
    the validator accepts with the same payload, one under "default" and
    one under "txt2img", make the handler behave identically (same
    response, same final state, same trace); the payload is built as for
    "txt2img", that is from the txt2img template with the txt2img
    parameter table applied. *)
Theorem default_workflow_is_txt2img (W : world) (event1 event2 payload : json)
        (id1 id2 : string) (s : state) :
  Py.getitem event1 "id" = Val (JStr id1) ->
  Py.getitem event2 "id" = Val (JStr id2) ->
  validated_as W event1 (JStr "default") payload ->
  validated_as W event2 (JStr "txt2img") payload ->
  handler W event1 s = handler W event2 s
  /\ prepare_payload W event1 s = build_payload W (JStr "txt2img") payload s
  /\ forall workflow workflow',
       load_json W "/workflows/txt2img.json" = Some workflow ->
       get_txt2img_payload workflow payload = Val workflow' ->
       prepare_payload W event1 s
       = create_unique_filename_prefix W workflow'
           (add_events s [EvLog INFO (LogWorkflow (JStr "txt2img"));
                          EvOpen "/workflows/txt2img.json"]).
Proof.
  intros H1 H2 Hv1 Hv2.
  assert (Hprep : forall s0, prepare_payload W event1 s0
                             = prepare_payload W event2 s0).
  { intros s0.
    rewrite (prepare_payload_validated W event1 _ payload s0 Hv1),
            (prepare_payload_validated W event2 _ payload s0 Hv2).
    reflexivity. }
  split; [|split].
  - rewrite (handler_run W event1 id1 s H1), (handler_run W event2 id2 s H2).
    unfold call, try_except.
    assert (Htry : handler_try W event1 s = handler_try W event2 s).
    { unfold handler_try, bind at 1. unfold bind at 3.
      destruct (resource_guard W s) as [[[]| | |] s0]; try reflexivity.
      apply bind_ext, Hprep. }
    now rewrite Htry.
  - rewrite (prepare_payload_validated W event1 _ payload s Hv1). reflexivity.
  - intros workflow workflow' Hload Hsub.
    rewrite (prepare_payload_validated W event1 _ payload s Hv1).
    unfold build_payload. cbn [Py.eq_str String.eqb Ascii.eqb Bool.eqb negb].
    unfold bind at 1, log at 1, emit at 1. unfold bind at 1, try_except.
    rewrite (get_workflow_payload_txt2img W payload workflow workflow' _
               Hload Hsub).
    unfold add_events. cbn [fs uuid_next history trace].
    now rewrite <- app_assoc.
Qed.

Lemma default_workflow_is_txt2img_witness :
  handler Scenario.worker (Scenario.job "default" Scenario.params)
          (Scenario.start [] Scenario.done_script)
  = handler Scenario.worker (Scenario.job "txt2img" Scenario.params)
            (Scenario.start [] Scenario.done_script)
  /\ exists workflow',
       prepare_payload Scenario.worker (Scenario.job "default" Scenario.params)
                       (Scenario.start [] Scenario.done_script)
       = create_unique_filename_prefix Scenario.worker workflow'
           (add_events (Scenario.start [] Scenario.done_script)
                       [EvLog INFO (LogWorkflow (JStr "txt2img"));
                        EvOpen "/workflows/txt2img.json"])
       /\ slot_value workflow' "3" "seed" = Some (JInt 42)
       /\ slot_value workflow' "6" "text" = Some (JStr "a red fox").
Proof.
  destruct (default_workflow_is_txt2img Scenario.worker
              (Scenario.job "default" Scenario.params)
              (Scenario.job "txt2img" Scenario.params)
              Scenario.params "job-1" "job-1"
              (Scenario.start [] Scenario.done_script)
              eq_refl eq_refl
              (scenario_validated "default" Scenario.params)
              (scenario_validated "txt2img" Scenario.params))
    as (Hsame & _ & Hbuild).
  split; [exact Hsame|].
  eexists. split; [apply (Hbuild Scenario.txt2img_template); reflexivity|].
  split; reflexivity.
Defined.

(** ** Failed jobs *)

Lemma finish_failed (W : world) (payload prompt_id resp_json : json)
      (messages : list json) (s : state) :
  job_failed resp_json prompt_id messages ->
  finish W payload prompt_id resp_json s
  = (check_messages W prompt_id resp_json messages ;;; ret JNull) s.
Proof.
  intros (entry & status & ms & He & Hs & Hok & Hm & Hi).
  unfold finish. unfold bind at 1. rewrite He. cbn [lift ret].
  unfold bind at 1. rewrite Hs. cbn [lift ret].
  unfold bind at 1. rewrite Hok. cbn [lift ret].
  unfold bind at 1. rewrite Hm. cbn [lift ret].
  unfold bind at 1. rewrite Hi. cbn [lift ret]. reflexivity.
Qed.

Lemma check_messages_skips (W : world) (prompt_id resp_json : json)
      (before rest : list json) (s : state) :
  Forall other_message before ->
  check_messages W prompt_id resp_json (before ++ rest) s
  = check_messages W prompt_id resp_json rest s.
Proof.
  induction 1 as [|m before (key & value & Hu & Hk) _ IH]; [reflexivity|].
  cbn [app check_messages]. unfold bind at 1. rewrite Hu. cbn [lift ret fst snd].
  rewrite Hk. exact IH.
Qed.

Lemma check_messages_execution_error (W : world) (prompt_id resp_json : json)
      (message node_type exception_message : json) (rest : list json) (s : state) :
  execution_error message node_type exception_message ->
  check_messages W prompt_id resp_json (message :: rest) s
  = (Raise (RuntimeError (py_str W node_type ++ ": "
                            ++ py_str W exception_message)), s).
Proof.
  intros (value & Hu & Hn & Hm).
  cbn [check_messages]. unfold bind at 1. rewrite Hu. cbn [lift ret fst snd].
  cbn [Py.eq_str]. rewrite String.eqb_refl.
  unfold bind, lift, ret, raise, Py.contains, Py.getitem, Dict.mem.
  rewrite Hn, Hm. reflexivity.
Qed.

Lemma check_messages_bare_error (W : world) (prompt_id resp_json : json)
      (message : json) (rest : list json) (s : state) :
  bare_execution_error message ->
  check_messages W prompt_id resp_json (message :: rest) s
  = (Raise (RuntimeError (job_failed_message W prompt_id)),
     add_events s [EvLog ERROR (LogJobFailed prompt_id);
                   EvLog INFO (LogResponseJson resp_json)]).
Proof.
  intros (value & Hu & Hc).
  cbn [check_messages]. unfold bind at 1. rewrite Hu. cbn [lift ret fst snd].
  cbn [Py.eq_str]. rewrite String.eqb_refl.
  unfold bind at 1.
  destruct Hc as [Hn | [Hn Hm]]; rewrite Hn; cbn [lift ret];
    unfold bind at 1; rewrite ?Hm; cbn [lift ret];
    unfold bind, log, emit, raise, add_events; cbn;
    now rewrite <- app_assoc.
Qed.

(** C6.  Execution errors: when the polled entry reports a job that did
    not succeed and the first [execution_error] among its messages carries
    a node type and an exception message, the handler's response is the
    error object with [refresh_worker] true, and its error text contains
    both the node type and the exception message. *)
Theorem execution_error_reported (W : world) (event : json) (s s' : state)
        (payload prompt_id resp_json : json) (before after : list json)
        (message node_type exception_message : json) :
  polled W event s payload prompt_id resp_json s' ->
  job_failed resp_json prompt_id (before ++ message :: after) ->
  Forall other_message before ->
  execution_error message node_type exception_message ->
  exists text,
    handler W event s
    = (Ok (JDict [("error", JStr text); ("refresh_worker", JBool true)]),
       add_events s'
         [EvLog ERROR
            (LogException
               (RuntimeError (py_str W node_type ++ ": "
                                ++ py_str W exception_message)))])
    /\ Str.occurs_in (py_str W node_type) text
    /\ Str.occurs_in (py_str W exception_message) text.
Proof.
  intros Hp Hf Hb He.
  exists (format_exc W (RuntimeError (py_str W node_type ++ ": "
                                        ++ py_str W exception_message))).
  split; [|split].
  - apply (handler_after_poll_raise W event s s' s' payload prompt_id resp_json
             _ Hp).
    rewrite (finish_failed W payload prompt_id resp_json _ s' Hf).
    apply bind_raise.
    rewrite (check_messages_skips W prompt_id resp_json before _ s' Hb).
    now apply check_messages_execution_error.
  - eapply occurs_in_trans; [|apply format_exc_runtime_error].
    apply occurs_in_app_r, occurs_in_refl.
  - eapply occurs_in_trans; [|apply format_exc_runtime_error].
    apply occurs_in_app_l, occurs_in_app_l, occurs_in_refl.
Qed.

(** An [execution_error] without the two fields is reported with the
    generic message. *)
Lemma bare_execution_error_reported (W : world) (event : json) (s s' : state)
      (payload prompt_id resp_json : json) (before after : list json)
      (message : json) :
  polled W event s payload prompt_id resp_json s' ->
  job_failed resp_json prompt_id (before ++ message :: after) ->
  Forall other_message before ->
  bare_execution_error message ->
  fst (handler W event s)
  = Ok (error_response W (RuntimeError (job_failed_message W prompt_id)))
  /\ Str.occurs_in "Job did not process successfully"
                   (format_exc W (RuntimeError (job_failed_message W prompt_id))).
Proof.
  intros Hp Hf Hb He. split.
  - erewrite handler_after_poll_raise; [reflexivity | exact Hp |].
    rewrite (finish_failed W payload prompt_id resp_json _ s' Hf).
    apply bind_raise.
    rewrite (check_messages_skips W prompt_id resp_json before _ s' Hb).
    now apply check_messages_bare_error.
  - eapply occurs_in_trans; [|apply format_exc_runtime_error].
    exists "", (" for prompt_id: " ++ py_str W prompt_id). reflexivity.
Qed.

(** A failed job none of whose messages is an [execution_error] raises
    nothing: the handler falls off its end and returns [None]. *)
Lemma unreported_failure_returns_none (W : world) (event : json) (s s' : state)
      (payload prompt_id resp_json : json) (messages : list json) :
  polled W event s payload prompt_id resp_json s' ->
  job_failed resp_json prompt_id messages ->
  Forall other_message messages ->
  handler W event s = (Ok JNull, s').
Proof.
  intros Hp Hf Hb.
  apply (handler_after_poll_return W event s s' s' payload prompt_id resp_json
           _ Hp).
  right. rewrite (finish_failed W payload prompt_id resp_json _ s' Hf).
  assert (Hc : check_messages W prompt_id resp_json messages s' = (Ok tt, s')).
  { rewrite <- (app_nil_r messages).
    now rewrite (check_messages_skips W prompt_id resp_json messages [] s' Hb). }
  now rewrite (bind_ok _ _ _ _ _ Hc).
Qed.

Lemma execution_error_reported_witness :
  exists text,
    fst (handler Scenario.worker (Scenario.job "txt2img" Scenario.params)
           (Scenario.start []
              (Scenario.failing_script
                 [Scenario.execution_start; Scenario.cuda_oom])))
    = Ok (JDict [("error", JStr text); ("refresh_worker", JBool true)])
    /\ Str.occurs_in "KSampler" text
    /\ Str.occurs_in "CUDA OOM" text.
Proof.
  assert (Hrun : exists payload resp_json s',
            polled Scenario.worker (Scenario.job "txt2img" Scenario.params)
                   (Scenario.start []
                      (Scenario.failing_script
                         [Scenario.execution_start; Scenario.cuda_oom]))
                   payload (JStr "p-1") resp_json s'
            /\ job_failed resp_json (JStr "p-1")
                          ([Scenario.execution_start]
                             ++ Scenario.cuda_oom :: [])).
  { do 3 eexists. split.
    - exists "job-1". eexists. repeat split; vm_compute; reflexivity.
    - do 3 eexists. repeat split. }
  destruct Hrun as (payload & resp_json & s' & Hp & Hf).
  destruct (execution_error_reported Scenario.worker
              (Scenario.job "txt2img" Scenario.params)
              (Scenario.start []
                 (Scenario.failing_script
                    [Scenario.execution_start; Scenario.cuda_oom]))
              s' payload (JStr "p-1") resp_json
              [Scenario.execution_start] [] Scenario.cuda_oom
              (JStr "KSampler") (JStr "CUDA OOM") Hp Hf)
    as (text & Hh & Hnode & Hmsg).
  - constructor; [|constructor]. do 2 eexists. split; reflexivity.
  - eexists. repeat split.
  - exists text. rewrite Hh. repeat split; assumption.
Defined.

Lemma prefix_app (sub post : string) : String.prefix sub (sub ++ post) = true.
Proof.
  induction sub as [|c sub IH]; simpl; [now destruct post|].
  destruct (ascii_dec c c); [exact IH | contradiction].
Qed.

Lemma occurs_in_contains (sub s : string) :
  Str.occurs_in sub s -> Str.contains sub s = true.
Proof.
  intros (pre & post & ->). induction pre as [|c pre IH].
  - cbn [append]. destruct (sub ++ post) eqn:E; cbn [Str.contains];
      rewrite <- E, prefix_app; reflexivity.
  - cbn [append Str.contains]. rewrite IH.
    now destruct (String.prefix sub (String c (pre ++ sub ++ post))).
Qed.

(** C6, as the claim words it, fails: an execution error that carries a
    node type and an exception message is not reported when another
    [execution_error] message stands before it.  With a first
    [execution_error] that has no node type, the loop raises the generic
    error there, and "KSampler" of the second one is not in the error
    text. *)
Lemma later_execution_error_not_reported :
  exists text,
    fst (handler Scenario.worker (Scenario.job "txt2img" Scenario.params)
           (Scenario.start []
              (Scenario.failing_script [Cases.bare_error; Scenario.cuda_oom])))
    = Ok (JDict [("error", JStr text); ("refresh_worker", JBool true)])
    /\ execution_error Scenario.cuda_oom (JStr "KSampler") (JStr "CUDA OOM")
    /\ ~ Str.occurs_in "KSampler" text.
Proof.
  eexists. split; [vm_compute; reflexivity|]. split.
  - eexists. repeat split.
  - intros H. apply occurs_in_contains in H. vm_compute in H. discriminate H.
Qed.

(** C2 (the code departs from the claim).  The claim: a job that ends
    without success and without an [execution_error] message carrying both
    fields, the empty message list included, gets the generic "job did not
    process successfully" error response.  With an empty message list, or
    with messages none of which is an [execution_error] (a job that was
    interrupted), the loop over the messages raises nothing and the handler
    returns [None]: no error object at all. *)
Theorem failed_job_without_error_message_returns_none :
  fst (handler Scenario.worker (Scenario.job "txt2img" Scenario.params)
         (Scenario.start [] (Scenario.failing_script [])))
  = Ok JNull
  /\ fst (handler Scenario.worker (Scenario.job "txt2img" Scenario.params)
            (Scenario.start []
               (Scenario.failing_script
                  [Scenario.execution_start; Scenario.execution_interrupted])))
     = Ok JNull.
Proof. split; vm_compute; reflexivity. Qed.

(** ** Successful jobs *)

Lemma finish_succeeded (W : world) (payload prompt_id resp_json outputs : json)
      (images text_files : list json) (s s' : state) :
  job_succeeded resp_json prompt_id outputs ->
  harvested W payload outputs
            (add_events s [EvLog INFO (LogFilesGenerated prompt_id)])
            images text_files s' ->
  finish W payload prompt_id resp_json s
  = success_response W images text_files s'.
Proof.
  intros (entry & status & He & Hs & Hok & Ho)
         (output_files & unique_prefix & s1 & Hfiles & Himg & Hpre & Hscan).
  unfold finish. unfold bind at 1. rewrite He. cbn [lift ret].
  unfold bind at 1. rewrite Hs. cbn [lift ret].
  unfold bind at 1. rewrite Hok. cbn [lift ret].
  unfold bind at 1. rewrite Ho. cbn [lift ret].
  unfold bind at 1, log at 1, emit at 1.
  unfold bind at 1. rewrite Hfiles. cbn [lift ret].
  unfold add_events in Himg. rewrite (bind_ok _ _ _ _ _ Himg).
  unfold bind at 1. rewrite Hpre. cbn [lift ret].
  now rewrite (bind_ok _ _ _ _ _ Hscan).
Qed.

Lemma mem_keys (k : string) (ks : list string) (response : Dict.t) :
  Dict.keys response = ks -> Dict.mem k response = true -> In k ks.
Proof.
  intros <-. unfold Dict.mem, Dict.keys.
  induction response as [|[k' v] d IH]; simpl; [discriminate|].
  destruct (String.eqb_spec k k') as [->|_]; [now left|].
  intros H. right. now apply IH.
Qed.

Lemma success_response_shape (W : world) (images text_files : list json)
      (s : state) :
  exists response s',
    success_response W images text_files s = (Return (JDict response), s')
    /\ success_shape W images text_files response.
Proof.
  unfold success_response, success_shape, low_memory_after.
  destruct (memory_available_after W) as [m|] eqn:Em.
  - destruct (Qltb m 1) eqn:Elt.
    + apply Qltb_true in Elt.
      destruct text_files as [|t ts]; eexists; eexists;
        (split; [reflexivity|]); cbn;
        (repeat split; try congruence; try (intros H; exfalso; apply H; eauto));
        intros k Hk;
        [ apply (mem_keys k ["images"; "refresh_worker"]) in Hk
        | apply (mem_keys k ["images"; "text_files"; "refresh_worker"]) in Hk ];
        try reflexivity; simpl in Hk; intuition.
    + apply Qltb_false in Elt.
      assert (Hnot : ~ exists m0, Some m = Some m0 /\ (m0 < 1)%Q).
      { intros (m0 & Hm0 & Hlt). injection Hm0 as <-.
        eapply Qlt_not_le; eauto. }
      destruct text_files as [|t ts]; eexists; eexists;
        (split; [reflexivity|]); cbn;
        (repeat split; try congruence; try (intros H; exfalso; apply Hnot; exact H));
        intros k Hk;
        [ apply (mem_keys k ["images"]) in Hk
        | apply (mem_keys k ["images"; "text_files"]) in Hk ];
        try reflexivity; simpl in Hk; intuition.
  - assert (Hnot : ~ exists m0, @None Q = Some m0 /\ (m0 < 1)%Q).
    { intros (m0 & Hm0 & _). discriminate. }
    destruct text_files as [|t ts]; eexists; eexists;
      (split; [reflexivity|]); cbn;
      (repeat split; try congruence; try (intros H; exfalso; apply Hnot; exact H));
      intros k Hk;
      [ apply (mem_keys k ["images"]) in Hk
      | apply (mem_keys k ["images"; "text_files"]) in Hk ];
      try reflexivity; simpl in Hk; intuition.
Qed.

(** C7.  Success response: when the polled entry reports success and the
    harvest yields [images] and [text_files], the handler returns a
    dictionary that always has the key [images] (bound to the image list,
    empty or not), has the key [text_files] if and only if the text-file
    list is not empty, has the key [refresh_worker], bound to true, if and
    only if the memory available after the job is known and below 1.0 GB,
    and has no other key; a key that is not called for is absent, not bound
    to a null or an empty value. *)
Theorem success_response_keys (W : world) (event : json) (s s' s'' : state)
        (payload prompt_id resp_json outputs : json)
        (images text_files : list json) :
  polled W event s payload prompt_id resp_json s' ->
  job_succeeded resp_json prompt_id outputs ->
  harvested W payload outputs
            (add_events s' [EvLog INFO (LogFilesGenerated prompt_id)])
            images text_files s'' ->
  exists response final,
    handler W event s = (Ok (JDict response), final)
    /\ success_shape W images text_files response.
Proof.
  intros Hp Hs Hh.
  destruct (success_response_shape W images text_files s'')
    as (response & final & Hr & Hshape).
  exists response, final. split; [|exact Hshape].
  apply (handler_after_poll_return W event s s' final payload prompt_id
           resp_json _ Hp).
  left. now rewrite (finish_succeeded W payload prompt_id resp_json outputs
                       images text_files s' s'' Hs Hh).
Qed.

Lemma success_response_keys_witness :
  exists response final,
    handler Scenario.tight_worker (Scenario.job "custom" Scenario.text_payload)
            (Scenario.start
               [("/runpod-volume/ComfyUI/output/"
                   ++ Scenario.uuids 0 ++ "_caption.txt",
                 Scenario.plain_file "a red fox")]
               Scenario.done_script)
    = (Ok (JDict response), final)
    /\ Dict.get "images" response = Some (JList [])
    /\ Dict.get "text_files" response
       = Some (JList [text_entry (Scenario.uuids 0 ++ "_caption.txt") "a red fox"])
    /\ Dict.get "refresh_worker" response = Some (JBool true)
    /\ Dict.get "error" response = None.
Proof.
  assert (Hrun : exists payload resp_json outputs s' s'',
            polled Scenario.tight_worker
                   (Scenario.job "custom" Scenario.text_payload)
                   (Scenario.start
                      [("/runpod-volume/ComfyUI/output/"
                          ++ Scenario.uuids 0 ++ "_caption.txt",
                        Scenario.plain_file "a red fox")]
                      Scenario.done_script)
                   payload (JStr "p-1") resp_json s'
            /\ job_succeeded resp_json (JStr "p-1") outputs
            /\ harvested Scenario.tight_worker payload outputs
                 (add_events s' [EvLog INFO (LogFilesGenerated (JStr "p-1"))])
                 []
                 [text_entry (Scenario.uuids 0 ++ "_caption.txt") "a red fox"]
                 s'').
  { do 5 eexists. split; [|split].
    - exists "job-1". eexists. repeat split; vm_compute; reflexivity.
    - do 2 eexists. repeat split.
    - do 3 eexists. repeat split; vm_compute; reflexivity. }
  destruct Hrun as (payload & resp_json & outputs & s' & s'' & Hp & Hs & Hh).
  destruct (success_response_keys Scenario.tight_worker
              (Scenario.job "custom" Scenario.text_payload) _ s' s''
              payload (JStr "p-1") resp_json outputs [] _ Hp Hs Hh)
    as (response & final & Hrun & Himg & Htxt & _ & Hrefresh & _ & Hkeys).
  exists response, final. split; [exact Hrun|]. split; [exact Himg|].
  split; [apply Htxt; discriminate|].
  split; [apply Hrefresh; exists (3 # 4); split; reflexivity|].
  destruct (Dict.get "error" response) as [v|] eqn:E; [|reflexivity].
  assert (Hmem : Dict.mem "error" response = true)
    by (unfold Dict.mem; now rewrite E).
  destruct (Hkeys _ Hmem) as [H|[H|H]]; discriminate H.
Defined.

(** ** Unique prefixes *)

Lemma contains_underscore_cons (c : ascii) (s : string) :
  Str.contains "_" (String c s)
  = if Ascii.eqb c "_"%char then true else Str.contains "_" s.
Proof.
  cbn [Str.contains String.prefix].
  destruct (ascii_dec "_"%char c) as [<-|Hne].
  - now destruct s.
  - destruct (Ascii.eqb_spec c "_"%char) as [->|_]; [contradiction|reflexivity].
Qed.

(** A token without underscore is read back from a name it was prepended
    to. *)
Lemma token_of_injected (u name : string) :
  Str.contains "_" u = false ->
  token_of (u ++ "_" ++ name) = Some (JStr u).
Proof.
  intros Hu. unfold token_of.
  assert (H : Str.contains "_" (u ++ "_" ++ name) = true
              /\ Str.before_underscore (u ++ "_" ++ name) = u).
  { induction u as [|c u IH].
    - split; [|reflexivity]. cbn [append]. now rewrite contains_underscore_cons.
    - rewrite contains_underscore_cons in Hu.
      destruct (Ascii.eqb c "_"%char) eqn:Ec; [discriminate|].
      destruct (IH Hu) as [IH1 IH2]. cbn [append] in *. split.
      + now rewrite contains_underscore_cons, Ec.
      + cbn [Str.before_underscore]. now rewrite Ec, IH2. }
  destruct H as [H1 H2]. rewrite H1, H2. reflexivity.
Qed.

(** When the first node of the payload is a text node whose [file] slot
    was injected, and it has no [filename_prefix] slot, the extraction
    yields the injected token. *)
Lemma unique_prefix_of_text_node_first (key u name : string)
      (node inputs : Dict.t) (rest : list (string * json)) :
  Dict.get "inputs" node = Some (JDict inputs) ->
  Dict.get "filename_prefix" inputs = None ->
  Dict.get "file" inputs = Some (JStr (u ++ "_" ++ name)) ->
  Str.contains "_" u = false ->
  unique_prefix_of ((key, JDict node) :: rest) = Val (JStr u).
Proof.
  intros Hi Hp Hf Hu. cbn [unique_prefix_of]. rewrite Hi.
  unfold bindr, Py.contains, Py.getitem, Dict.mem. rewrite Hp, Hf.
  now rewrite token_of_injected.
Qed.

(** C3 (the code departs from the claim).  The claim: after the prefix
    injection, the harvester's extraction recovers exactly the token
    injected into the job's text-output nodes, so the scan considers the
    files whose names start with it.  Every output node gets a token of
    its own and the extraction stops at the first node with a
    [filename_prefix] slot: in a workflow that saves an image and then a
    text file it returns the image node's token.  The text file the job
    wrote under the text node's token is then filtered out by the scan: it
    is not in the response and it stays on disk. *)
Theorem extraction_returns_the_image_token :
  let s := Scenario.start
             [(Scenario.custom_caption_path, Scenario.plain_file "a red fox")]
             Scenario.done_script in
  (exists payload' s',
     create_unique_filename_prefix Scenario.worker Scenario.custom_payload s
     = (Ok payload', s')
     /\ slot_value payload' "9" "filename_prefix"
        = Some (JStr (Scenario.uuids 0))
     /\ slot_value payload' "10" "file"
        = Some (JStr (Scenario.uuids 1 ++ "_caption.txt"))
     /\ extract_unique_prefix payload' = Val (JStr (Scenario.uuids 0)))
  /\ Scenario.uuids 0 <> Scenario.uuids 1
  /\ fst (handler Scenario.worker
            (Scenario.job "custom" Scenario.custom_payload) s)
     = Ok (JDict [("images", JList [])])
  /\ Fs.exists_ Scenario.custom_caption_path
       (fs (snd (handler Scenario.worker
                   (Scenario.job "custom" Scenario.custom_payload) s)))
     = true.
Proof.
  cbv zeta. split; [|split; [|split]].
  - do 2 eexists. split; [vm_compute; reflexivity|]. repeat split.
  - discriminate.
  - vm_compute. reflexivity.
  - vm_compute. reflexivity.
Qed.

(** ** Harvested files *)

Lemma lookup_delete (path : string) (fs0 : filesystem) :
  Fs.lookup path (Fs.delete path fs0) = None.
Proof.
  unfold Fs.delete. induction fs0 as [|[p e] fs0 IH]; simpl; [reflexivity|].
  destruct (String.eqb path p) eqn:E; simpl; [exact IH|].
  now rewrite E.
Qed.

(** A readable file that can be removed is reported once and is gone. *)
Lemma read_text_file_removable (file_path filename content : string)
      (f : file) (text_files : list json) (s : state) :
  Fs.lookup file_path (fs s) = Some (File f) ->
  text_utf8 f = Some content ->
  removable f = true ->
  exists s',
    read_text_file file_path filename text_files s
    = (Ok (text_files ++ [text_entry filename content])%list, s')
    /\ Fs.exists_ file_path (fs s') = false.
Proof.
  intros Hl Ht Hr. unfold read_text_file, read_binary.
  unfold bind at 1, get_fs at 1. unfold Fs.read_text. rewrite Hl, Ht.
  unfold bind at 1, log at 1, emit at 1. unfold try_except, os_remove.
  unfold bind, get_fs, lift, put_fs, ret, Fs.remove. cbn [fs].
  rewrite Hl, Hr. eexists. split; [reflexivity|].
  cbn [fs]. unfold Fs.exists_. now rewrite lookup_delete.
Qed.

(** A readable file that cannot be removed is reported twice, once by the
    text read and once by the binary fallback the failed removal leads to,
    and it is still there. *)
Lemma read_text_file_locked (file_path filename content content' : string)
      (f : file) (text_files : list json) (s : state) :
  Fs.lookup file_path (fs s) = Some (File f) ->
  text_utf8 f = Some content ->
  bytes_replace f = Some content' ->
  removable f = false ->
  exists s',
    read_text_file file_path filename text_files s
    = (Ok (text_files ++ [text_entry filename content;
                          text_entry filename content'])%list, s')
    /\ Fs.exists_ file_path (fs s') = true.
Proof.
  intros Hl Ht Hb Hr. unfold read_text_file, read_binary.
  unfold bind at 1, get_fs at 1. unfold Fs.read_text. rewrite Hl, Ht.
  unfold bind at 1, log at 1, emit at 1. unfold try_except, os_remove.
  unfold bind, get_fs, lift, put_fs, ret, raise, log, emit, Fs.remove,
    Fs.read_bytes.
  repeat (progress (cbn [fs]; rewrite ?Hl, ?Hr, ?Hb)).
  eexists. split; [now rewrite <- app_assoc|].
  cbn [fs]. unfold Fs.exists_. now rewrite Hl.
Qed.

(** C4 (the code departs from the claim).  The claim: every file in the
    harvester's output lists is gone from disk afterwards and no file
    contributes more than one entry, on every path, failures of the
    per-file removal included.  When [os.remove] fails on a text file that
    was read, the entry appended before the removal stays, the
    binary-mode fallback appends the file again, its own removal fails and
    is only logged: the response lists the file twice and the file is
    still on disk. *)
Theorem undeletable_text_file_reported_twice :
  let s := Scenario.start
             [(Scenario.caption_path, Scenario.locked_file "a red fox")]
             Scenario.done_script in
  let name := Scenario.uuids 0 ++ "_caption.txt" in
  fst (handler Scenario.worker (Scenario.job "custom" Scenario.text_payload) s)
  = Ok (JDict [("images", JList []);
               ("text_files",
                JList [text_entry name "a red fox"; text_entry name "a red fox"])])
  /\ Fs.exists_ Scenario.caption_path
       (fs (snd (handler Scenario.worker
                   (Scenario.job "custom" Scenario.text_payload) s)))
     = true.
Proof. cbv zeta. split; vm_compute; reflexivity. Qed.

(** ** A complete run *)

(** A txt2img job whose image the service reports in its outputs: the
    parameters are substituted, the image comes back encoded, and its file
    is gone from the output directory. *)
Example txt2img_run :
  let image_name := Scenario.uuids 0 ++ "_00001_.png" in
  let image_path := "/runpod-volume/ComfyUI/output/" ++ image_name in
  let s := Scenario.start
             [(image_path, Scenario.image "QUJD")]
             [Some Scenario.pending;
              Some (Scenario.history_entry "success" true []
                      [Scenario.output_image image_name])] in
  fst (handler Scenario.worker (Scenario.job "txt2img" Scenario.params) s)
  = Ok (JDict [("images", JList [JStr "QUJD"])])
  /\ Fs.exists_ image_path
       (fs (snd (handler Scenario.worker
                   (Scenario.job "txt2img" Scenario.params) s)))
     = false
  /\ count is_post
       (trace (snd (handler Scenario.worker
                      (Scenario.job "txt2img" Scenario.params) s)))
     = 1%nat.
Proof. cbv zeta. repeat split; vm_compute; reflexivity. Qed.

(** * Further properties of the code *)

(** ** The txt2img parameter table *)

Lemma dict_keys_set_member (k : string) (v v0 : json) (d : Dict.t) :
  Dict.get k d = Some v0 -> Dict.keys (Dict.set k v d) = Dict.keys d.
Proof.
  unfold Dict.keys. induction d as [|[k' v'] d IH]; simpl; [discriminate|].
  destruct (String.eqb_spec k k') as [->|Hk]; simpl; intros H.
  - reflexivity.
  - now rewrite IH.
Qed.

Lemma set_input_node_other (workflow : json) (node slot : string)
      (v workflow' : json) (node0 : string) :
  set_input workflow node slot v = Val workflow' ->
  node0 <> node ->
  node_of workflow' node0 = node_of workflow node0.
Proof.
  intros H Hne.
  destruct (set_input_inv _ _ _ _ _ H) as (nodes & n & inputs & -> & _ & _ & ->).
  unfold node_of. now apply dict_get_set_other.
Qed.

Lemma set_input_node_ids (workflow : json) (node slot : string)
      (v workflow' : json) :
  set_input workflow node slot v = Val workflow' ->
  node_ids workflow' = node_ids workflow.
Proof.
  intros H.
  destruct (set_input_inv _ _ _ _ _ H) as (nodes & n & inputs & -> & Hn & _ & ->).
  unfold node_ids. eapply dict_keys_set_member; eauto.
Qed.

(** What applying a table leaves alone. *)
Lemma assign_all_frame (payload : json) (table : list (string * string * string)) :
  forall workflow workflow',
    assign_all payload workflow table = Val workflow' ->
    (forall node slot,
        ~ In (node, slot) (map fst table) ->
        slot_value workflow' node slot = slot_value workflow node slot)
    /\ (forall node,
           ~ In node (map (fun m => fst (fst m)) table) ->
           node_of workflow' node = node_of workflow node)
    /\ node_ids workflow' = node_ids workflow.
Proof.
  induction table as [|[[n sl] p] table IH]; intros workflow workflow' H.
  - simpl in H. injection H as <-. repeat split; reflexivity.
  - simpl in H. unfold bindr at 1 in H.
    destruct (Py.getitem payload p) as [v|]; [|discriminate].
    simpl in H. destruct (set_input workflow n sl v) as [w1|] eqn:Es; [|discriminate].
    simpl in H. destruct (IH _ _ H) as (Hslot & Hnode & Hids).
    split; [|split].
    + intros node slot Hnot. rewrite Hslot.
      * apply (set_input_other _ _ _ _ _ _ _ Es).
        intros Heq. apply Hnot. left. simpl. now rewrite Heq.
      * intros Hin. apply Hnot. now right.
    + intros node Hnot. rewrite Hnode.
      * apply (set_input_node_other _ _ _ _ _ _ Es).
        intros ->. apply Hnot. now left.
      * intros Hin. apply Hnot. now right.
    + rewrite Hids. eapply set_input_node_ids; eauto.
Qed.

Lemma get_workflow_payload_txt2img_inv (W : world) (payload workflow' : json)
      (s s' : state) :
  get_workflow_payload W (JStr "txt2img") payload s = (Ok workflow', s') ->
  exists workflow,
    load_json W "/workflows/txt2img.json" = Some workflow /\
    get_txt2img_payload workflow payload = Val workflow'.
Proof.
  unfold get_workflow_payload, bind, emit, workflow_path. simpl.
  destruct (load_json W "/workflows/txt2img.json") as [workflow|];
    [|discriminate].
  destruct (get_txt2img_payload workflow payload) as [w|] eqn:E;
    [|discriminate].
  simpl. intros H. injection H as <- _. now exists workflow.
Qed.

(** X1.  Building the txt2img payload: when [get_workflow_payload] returns
    for the name "txt2img", every row of the txt2img table has been
    applied: the job carries the row's parameter and the row's input slot
    of the returned workflow holds that parameter's value. *)
Theorem txt2img_payload_substituted (W : world) (payload workflow' : json)
        (s s' : state) :
  get_workflow_payload W (JStr "txt2img") payload s = (Ok workflow', s') ->
  forall node slot param,
    In (node, slot, param) txt2img_table ->
    exists v, param_value payload param = Some v /\
              slot_value workflow' node slot = Some v.
Proof.
  intros H. destruct (get_workflow_payload_txt2img_inv W _ _ _ _ H)
    as (workflow & _ & Hsub).
  eapply assign_all_sets; eauto using txt2img_table_slots_distinct.
Qed.

Lemma txt2img_payload_substituted_witness :
  exists v, param_value Scenario.params "cfg_scale" = Some v /\
            v = JInt 7 /\
            exists workflow' s',
              get_workflow_payload Scenario.worker (JStr "txt2img")
                                   Scenario.params (Scenario.start [] [])
              = (Ok workflow', s')
              /\ slot_value workflow' "3" "cfg" = Some v.
Proof.
  destruct (txt2img_payload_substituted Scenario.worker Scenario.params _
              (Scenario.start [] []) _ eq_refl "3" "cfg" "cfg_scale")
    as (v & Hp & Hs).
  - simpl. auto.
  - exists v. split; [exact Hp|]. split.
    + simpl in Hp. now injection Hp as <-.
    + do 2 eexists. split; [reflexivity | exact Hs].
Defined.

(** X2.  What the txt2img substitution leaves alone: an input slot that is
    not in the table keeps the template's value (the scheduler and the
    denoise strength of the sampler are never taken from the job), a node
    other than 3, 4, 5, 6 and 7 is returned as it was loaded, and the
    workflow has the same node ids in the same order. *)
Theorem txt2img_substitution_frame (workflow payload workflow' : json) :
  get_txt2img_payload workflow payload = Val workflow' ->
  (forall node slot,
      ~ In (node, slot) (map fst txt2img_table) ->
      slot_value workflow' node slot = slot_value workflow node slot)
  /\ (forall node,
         ~ In node ["3"; "4"; "5"; "6"; "7"] ->
         node_of workflow' node = node_of workflow node)
  /\ node_ids workflow' = node_ids workflow.
Proof.
  intros H. destruct (assign_all_frame payload txt2img_table _ _ H)
    as (Hslot & Hnode & Hids).
  split; [exact Hslot|]. split; [|exact Hids].
  intros node Hnot. apply Hnode. intros Hin. apply Hnot.
  simpl in Hin. simpl. intuition.
Qed.

Lemma txt2img_substitution_frame_witness :
  param_value Scenario.params "scheduler" = Some (JStr "karras")
  /\ exists workflow',
       get_txt2img_payload Scenario.txt2img_template Scenario.params
       = Val workflow'
       /\ slot_value workflow' "3" "scheduler" = Some (JStr "normal")
       /\ node_of workflow' "9" = node_of Scenario.txt2img_template "9".
Proof.
  split; [reflexivity|].
  eexists. split; [reflexivity|].
  destruct (txt2img_substitution_frame Scenario.txt2img_template
              Scenario.params _ eq_refl) as (Hslot & Hnode & _).
  split.
  - rewrite (Hslot "3" "scheduler"); [reflexivity|].
    simpl. intuition discriminate.
  - apply Hnode. simpl. intuition discriminate.
Defined.

(** ** Early exits of the handler *)

Lemma get_workflow_payload_trace (W : world) (workflow_name payload : json)
      (s : state) :
  trace (snd (get_workflow_payload W workflow_name payload s))
  = (trace s ++ [EvOpen (workflow_path W workflow_name)])%list.
Proof.
  unfold get_workflow_payload, bind, emit.
  destruct (load_json W (workflow_path W workflow_name)) as [workflow|];
    [|reflexivity].
  destruct (Py.eq_str workflow_name "txt2img"); [|reflexivity].
  now destruct (get_txt2img_payload workflow payload).
Qed.

(** X3.  A workflow that cannot be built: for a name other than "custom"
    and "default", when [get_workflow_payload] raises (the template cannot
    be loaded, or a parameter or a node the table names is missing), the
    handler logs that the workflow could not be loaded and returns
    [{error: text, refresh_worker: true}], where [text] is the traceback
    of that exception; nothing is posted to the generation service. *)
Theorem workflow_build_failure_reported (W : world) (event workflow_name payload : json)
        (job_id : string) (s s1 : state) (e : exn) :
  Py.getitem event "id" = Val (JStr job_id) ->
  resource_guard W s = (Ok tt, s) ->
  validated_as W event workflow_name payload ->
  Py.eq_str workflow_name "default" = false ->
  Py.eq_str workflow_name "custom" = false ->
  get_workflow_payload W workflow_name payload
    (add_events s [EvLog INFO (LogWorkflow workflow_name)]) = (Raise e, s1) ->
  handler W event s
  = (Ok (JDict [("error", JStr (format_exc W e));
                ("refresh_worker", JBool true)]),
     add_events s1 [EvLog ERROR (LogWorkflowLoadError workflow_name);
                    EvLog ERROR (LogException e)])
  /\ count is_post (trace (snd (handler W event s))) = count is_post (trace s).
Proof.
  intros Hid Hg Hv Hdef Hcus Hload.
  assert (Hh : handler W event s
               = (Ok (JDict [("error", JStr (format_exc W e));
                             ("refresh_worker", JBool true)]),
                  add_events s1 [EvLog ERROR (LogWorkflowLoadError workflow_name);
                                 EvLog ERROR (LogException e)])).
  { change (JDict [("error", JStr (format_exc W e));
                   ("refresh_worker", JBool true)])
      with (error_response W e).
    rewrite (handler_run W event job_id s Hid).
    unfold call, try_except, handler_try.
    rewrite (bind_ok _ _ _ _ _ Hg). unfold bind at 1.
    rewrite (prepare_payload_validated W event workflow_name payload s Hv).
    unfold build_payload. rewrite Hdef, Hcus. cbn [negb].
    unfold bind at 1, log at 1, emit at 1. unfold bind at 1, try_except.
    unfold add_events in Hload. rewrite Hload.
    unfold bind, log, emit, raise, return_, add_events. cbn.
    now rewrite <- app_assoc. }
  split; [exact Hh|]. rewrite Hh.
  pose proof (get_workflow_payload_trace W workflow_name payload
                (add_events s [EvLog INFO (LogWorkflow workflow_name)])) as Ht.
  rewrite Hload in Ht. unfold add_events in *. cbn [snd trace] in *.
  rewrite Ht. unfold count. rewrite !filter_app, !length_app. simpl. lia.
Qed.

Lemma workflow_build_failure_reported_witness :
  fst (handler Scenario.worker (Scenario.job "upscale" Scenario.params)
         (Scenario.start [] Scenario.done_script))
  = Ok (JDict [("error",
                JStr (format_exc Scenario.worker
                        (FileError "/workflows/upscale.json")));
               ("refresh_worker", JBool true)])
  /\ count is_post
       (trace (snd (handler Scenario.worker
                      (Scenario.job "upscale" Scenario.params)
                      (Scenario.start [] Scenario.done_script)))) = 0%nat.
Proof.
  destruct (workflow_build_failure_reported Scenario.worker
              (Scenario.job "upscale" Scenario.params) (JStr "upscale")
              Scenario.params "job-1" (Scenario.start [] Scenario.done_script)
              _ (FileError "/workflows/upscale.json")
              eq_refl eq_refl (scenario_validated "upscale" Scenario.params)
              eq_refl eq_refl eq_refl) as [Hh Hc].
  split; [now rewrite Hh | exact Hc].
Defined.

(** X4.  Rejected input: when the validator answers with [errors], the
    handler returns a dictionary whose only key is [error], bound to the
    error strings joined by newlines, without a [refresh_worker] key.  It
    ends there: no workflow template is opened, nothing is posted to or
    requested from the generation service, no token is drawn, and the
    files and the history script are as they were. *)
Theorem validation_errors_returned (W : world) (event input errors : json)
        (job_id text : string) (s : state) :
  Py.getitem event "id" = Val (JStr job_id) ->
  resource_guard W s = (Ok tt, s) ->
  Py.getitem event "input" = Val input ->
  Py.contains "errors" (validate W input) = Val true ->
  Py.getitem (validate W input) "errors" = Val errors ->
  Py.join newline errors = Val text ->
  fst (handler W event s) = Ok (JDict [("error", JStr text)])
  /\ fs (snd (handler W event s)) = fs s
  /\ uuid_next (snd (handler W event s)) = uuid_next s
  /\ history (snd (handler W event s)) = history s
  /\ count is_open (trace (snd (handler W event s))) = count is_open (trace s)
  /\ count is_post (trace (snd (handler W event s))) = count is_post (trace s)
  /\ count is_get (trace (snd (handler W event s))) = count is_get (trace s).
Proof.
  intros Hid Hg Hin Hc He Hj.
  assert (Hh : handler W event s = (Ok (JDict [("error", JStr text)]), s)).
  { apply (handler_returns W event job_id s s _ Hid). left.
    unfold handler_try. rewrite (bind_ok _ _ _ _ _ Hg).
    unfold bind at 1, prepare_payload.
    unfold bind at 1. rewrite Hin. cbn [lift ret].
    unfold bind at 1. rewrite Hc. cbn [lift ret].
    unfold bind at 1. rewrite He. cbn [lift ret].
    unfold bind at 1. rewrite Hj. reflexivity. }
  rewrite Hh. cbn [fst snd]. repeat split.
Qed.

Lemma validation_errors_returned_witness :
  fst (handler Cases.strict_worker (Scenario.job "txt2img" Scenario.params)
         (Scenario.start [] Scenario.done_script))
  = Ok (JDict [("error",
                JStr ("workflow is a required input." ++ newline
                        ++ "payload is a required input."))])
  /\ count is_post
       (trace (snd (handler Cases.strict_worker
                      (Scenario.job "txt2img" Scenario.params)
                      (Scenario.start [] Scenario.done_script)))) = 0%nat.
Proof.
  destruct (validation_errors_returned Cases.strict_worker
              (Scenario.job "txt2img" Scenario.params) _ _ "job-1" _
              (Scenario.start [] Scenario.done_script)
              eq_refl eq_refl eq_refl eq_refl eq_refl eq_refl)
    as (Hr & _ & _ & _ & _ & Hpost & _).
  split; [exact Hr | exact Hpost].
Defined.

(** X5.  A prompt the service does not accept: when the queue request is
    answered with a status other than 200, the handler returns
    [{error: "HTTP status code: <code>", output: <body>}], the body being
    the parsed JSON or, when it does not parse, the text of the content.
    The response has no [refresh_worker] key, the history endpoint is
    never requested, and nothing is harvested: the handler ends right
    after logging the status and the body. *)
Theorem http_error_returned (W : world) (event payload : json) (job_id : string)
        (s s1 : state) (queue_response : http_response) :
  Py.getitem event "id" = Val (JStr job_id) ->
  resource_guard W s = (Ok tt, s) ->
  prepare_payload W event s = (Ok payload, s1) ->
  post W "prompt" (JDict [("prompt", payload)]) = Some queue_response ->
  status_code queue_response <> 200 ->
  handler W event s
  = (Ok (JDict [("error",
                 JStr ("HTTP status code: "
                         ++ py_str W (JInt (status_code queue_response))));
                ("output", http_error_output queue_response)]),
     add_events s1
       [EvLog DEBUG LogQueuingPrompt;
        EvPost "prompt" (JDict [("prompt", payload)]);
        EvLog ERROR (LogHttpStatus (status_code queue_response));
        EvLog ERROR (LogHttpContent (http_error_output queue_response))]).
Proof.
  intros Hid Hg Hp Hpost Hcode.
  apply (handler_returns W event job_id s _ _ Hid). left.
  unfold handler_try. rewrite (bind_ok _ _ _ _ _ Hg), (bind_ok _ _ _ _ _ Hp).
  unfold bind at 1, submit_and_poll.
  unfold bind at 1, log at 1, emit at 1.
  unfold bind at 1, send_post_request. unfold bind at 1, emit at 1.
  rewrite Hpost. cbn [ret]. unfold handle_queue_response.
  destruct (Z.eqb_spec (status_code queue_response) 200) as [E|_];
    [contradiction|].
  unfold http_error_output, try_except, response_json, bind, lift, ret, raise,
    log, emit, return_, add_events.
  destruct (json_body queue_response); cbn; now rewrite <- !app_assoc.
Qed.

Lemma http_error_returned_witness :
  fst (handler Cases.refused_worker
         (Scenario.job "custom" Scenario.custom_payload)
         (Scenario.start [] Scenario.done_script))
  = Ok (JDict [("error", JStr "HTTP status code: 400");
               ("output",
                JDict [("error", JStr "prompt_outputs_failed_validation")])])
  /\ count is_get
       (trace (snd (handler Cases.refused_worker
                      (Scenario.job "custom" Scenario.custom_payload)
                      (Scenario.start [] Scenario.done_script)))) = 0%nat.
Proof.
  assert (Hprep : exists payload s1,
            prepare_payload Cases.refused_worker
              (Scenario.job "custom" Scenario.custom_payload)
              (Scenario.start [] Scenario.done_script) = (Ok payload, s1)).
  { do 2 eexists. vm_compute. reflexivity. }
  destruct Hprep as (payload & s1 & Hprep).
  pose proof (http_error_returned Cases.refused_worker
                (Scenario.job "custom" Scenario.custom_payload) payload "job-1"
                (Scenario.start [] Scenario.done_script) s1 Cases.bad_request
                eq_refl eq_refl Hprep eq_refl ltac:(discriminate)) as Hh.
  split.
  - rewrite Hh. reflexivity.
  - vm_compute. reflexivity.
Defined.

(** X6.  The handler's exception boundary: the id is read and stored in
    the environment before the [try], so an exception leaves the handler
    exactly when the event has no [id] key ([KeyError]), or its id is not
    a string ([TypeError]), or it is a string that the environment
    refuses, because it does not encode or holds a NUL character
    ([ValueError]); with any other id every exception raised later is
    turned into a response. *)
Theorem handler_raises_iff_unusable_job_id (W : world) (encodes : string -> bool)
        (event : json) (s : state) :
  ((exists e s', handler_entry W encodes event s = (Raise e, s'))
   <-> ~ (exists job_id, Py.getitem event "id" = Val (JStr job_id)
                         /\ encodes job_id = true
                         /\ holds_nul job_id = false))
  /\ (forall e, Py.getitem event "id" = Exc e ->
                handler_entry W encodes event s = (Raise e, s))
  /\ (forall job_id, Py.getitem event "id" = Val job_id ->
                     Py.is_str job_id = false ->
                     handler_entry W encodes event s = (Raise TypeError, s))
  /\ (forall job_id, Py.getitem event "id" = Val (JStr job_id) ->
                     encodes job_id = false \/ holds_nul job_id = true ->
                     handler_entry W encodes event s = (Raise ValueError, s))
  /\ (forall job_id, Py.getitem event "id" = Val (JStr job_id) ->
                     encodes job_id = true ->
                     holds_nul job_id = false ->
                     handler_entry W encodes event s = handler W event s).
Proof.
  assert (Hkey : forall e, Py.getitem event "id" = Exc e ->
                           handler_entry W encodes event s = (Raise e, s)).
  { intros e He. unfold handler_entry, call, bind at 1. now rewrite He. }
  assert (Htype : forall job_id, Py.getitem event "id" = Val job_id ->
                                 Py.is_str job_id = false ->
                                 handler_entry W encodes event s
                                 = (Raise TypeError, s)).
  { intros job_id Hid Hs. unfold handler_entry, call, bind at 1. rewrite Hid.
    cbn [lift ret]. unfold bind at 1.
    destruct job_id; try discriminate Hs; reflexivity. }
  assert (Hbad : forall job_id, Py.getitem event "id" = Val (JStr job_id) ->
                                encodes job_id = false \/ holds_nul job_id = true ->
                                handler_entry W encodes event s
                                = (Raise ValueError, s)).
  { intros job_id Hid Hn. unfold handler_entry, call, bind at 1. rewrite Hid.
    cbn [lift ret]. unfold bind at 1. cbn [set_job_environ lift].
    destruct (encodes job_id); [|reflexivity].
    destruct Hn as [Hn|Hn]; [discriminate Hn|]. now rewrite Hn. }
  assert (Hok : forall job_id, Py.getitem event "id" = Val (JStr job_id) ->
                               encodes job_id = true ->
                               holds_nul job_id = false ->
                               handler_entry W encodes event s = handler W event s).
  { intros job_id Hid He Hn. rewrite (handler_run W event job_id s Hid).
    unfold handler_entry, call, bind at 1. rewrite Hid.
    cbn [lift ret]. unfold bind at 1.
    cbn [set_job_environ lift]. rewrite He, Hn. reflexivity. }
  split; [|now repeat split].
  split.
  - intros (e & s' & H) (job_id & Hid & He & Hn).
    rewrite (Hok job_id Hid He Hn), (handler_run W event job_id s Hid) in H.
    unfold call, try_except in H.
    destruct (handler_try W event s) as [[r|r|e0|] s0]; try discriminate H.
  - intros Hno.
    destruct (Py.getitem event "id") as [job_id|e] eqn:E.
    + destruct (Py.is_str job_id) eqn:Es.
      * destruct job_id as [| | | |job_id| |]; try discriminate Es.
        destruct (encodes job_id) eqn:Ee.
        -- destruct (holds_nul job_id) eqn:En.
           ++ exists ValueError, s. apply (Hbad job_id); [reflexivity | now right].
           ++ exfalso. apply Hno. now exists job_id.
        -- exists ValueError, s. apply (Hbad job_id); [reflexivity | now left].
      * exists TypeError, s. now apply (Htype job_id).
    + exists e, s. now apply Hkey.
Qed.

(** ** The tokens of the prefix injection *)

Lemma prefix_node_token (W : world) (value value' : json) (s s' : state) :
  prefix_node W value s = (Ok value', s') ->
  (value' = value /\ s' = s)
  \/ (injected_with W (uuid4 W (uuid_next s)) value value' /\ s' = bump_uuid s).
Proof.
  intros H. unfold prefix_node in H.
  unfold bind at 1 in H. unfold lift at 1 in H.
  destruct (Py.get value "class_type") as [class_type|] eqn:Ect;
    [|discriminate H].
  cbv beta iota in H. unfold ret at 1 in H. cbv beta iota in H.
  destruct (Py.eq_str class_type "SaveImage") eqn:Eimg.
  - invert_run H. injection H as <- <-. right. split; [|reflexivity].
    left. assumption.
  - destruct (existsb (Py.eq_str class_type) text_output_types) eqn:Etxt.
    + invert_run H; injection H as <- <-;
        first [ left; split; reflexivity
              | right; split; [|reflexivity];
                first [ left; eassumption
                      | right; left; do 2 eexists;
                        split; [|split]; eassumption
                      | right; right; do 2 eexists;
                        split; [|split]; eassumption ] ].
    + unfold ret in H. injection H as <- <-. left. now split.
Qed.

Lemma prefix_items_tokens (W : world) (items : list (string * json)) :
  forall items' s s',
    prefix_items W items s = (Ok items', s') ->
    exists tokens,
      injection W items items' tokens
      /\ tokens = map (uuid4 W) (seq (uuid_next s) (List.length tokens))
      /\ uuid_next s' = (uuid_next s + List.length tokens)%nat.
Proof.
  induction items as [|[key value] rest IH]; intros items' s s' H.
  - injection H as <- <-. exists []. repeat split; [constructor | simpl; lia].
  - cbn [prefix_items] in H. unfold bind at 1 in H.
    destruct (prefix_node W value s) as [[value'| | |] s1] eqn:Enode;
      try discriminate H.
    unfold bind at 1 in H.
    destruct (prefix_items W rest s1) as [[rest'| | |] s2] eqn:Erest;
      try discriminate H.
    injection H as <- <-.
    destruct (IH _ _ _ Erest) as (tokens & Hinj & Htok & Hnext).
    destruct (prefix_node_token W _ _ _ _ Enode) as [[-> ->]|[Hw ->]].
    + exists tokens. repeat split; [now constructor | exact Htok | exact Hnext].
    + exists (uuid4 W (uuid_next s) :: tokens). cbn [uuid_next bump_uuid] in *.
      repeat split.
      * now constructor.
      * cbn [List.length seq map]. now rewrite <- Htok.
      * cbn [List.length]. lia.
Qed.

Lemma NoDup_map_seq (f : nat -> string) (n k : nat) :
  (forall a b, f a = f b -> a = b) -> NoDup (map f (seq n k)).
Proof.
  intros Hinj. revert n. induction k as [|k IH]; intros n; simpl.
  - constructor.
  - constructor; [|apply IH].
    intros Hin. apply in_map_iff in Hin. destruct Hin as (m & Hm & Hin).
    apply Hinj in Hm. subst m. apply in_seq in Hin. lia.
Qed.

(** X7.  One token per output node: when the prefix injection returns, the
    payload is the old one node by node, keys and order unchanged, where
    each changed node carries the next token drawn from the token source
    (as its [filename_prefix], or prepended with an underscore to its
    [file] or [filename]); the tokens are consecutive draws, one per
    changed node, so that no two nodes share a token as long as the source
    does not repeat itself. *)
Theorem injection_draws_one_token_per_node (W : world)
        (items : list (string * json)) (payload' : json) (s s' : state) :
  create_unique_filename_prefix W (JDict items) s = (Ok payload', s') ->
  exists items' tokens,
    payload' = JDict items'
    /\ injection W items items' tokens
    /\ tokens = map (uuid4 W) (seq (uuid_next s) (List.length tokens))
    /\ uuid_next s' = (uuid_next s + List.length tokens)%nat
    /\ ((forall a b, uuid4 W a = uuid4 W b -> a = b) -> NoDup tokens).
Proof.
  intros H. unfold create_unique_filename_prefix in H.
  unfold bind at 1 in H. cbn [lift Py.items ret] in H. unfold bind at 1 in H.
  destruct (prefix_items W items s) as [[items'| | |] s1] eqn:E;
    try discriminate H.
  unfold ret in H. injection H as <- <-.
  destruct (prefix_items_tokens W items _ _ _ E) as (tokens & Hinj & Htok & Hn).
  exists items', tokens. repeat split; try assumption.
  intros Hu. rewrite Htok. now apply NoDup_map_seq.
Qed.

Lemma injection_draws_one_token_per_node_witness :
  exists items' tokens,
    fst (create_unique_filename_prefix Scenario.worker Scenario.custom_payload
           (Scenario.start [] [])) = Ok (JDict items')
    /\ injection Scenario.worker
         [("6", Scenario.node "CLIPTextEncode" [("text", JStr "a red fox")]);
          ("9", Scenario.node "SaveImage"
                  [("filename_prefix", JStr "ComfyUI");
                   ("images", Scenario.link "8" 0)]);
          ("10", Scenario.node "SaveText|pysssss"
                   [("root_dir", JStr "output"); ("file", JStr "caption.txt");
                    ("text", Scenario.link "11" 0)])]
         items' tokens
    /\ tokens = [Scenario.uuids 0; Scenario.uuids 1].
Proof.
  assert (Hrun : exists payload' s',
            create_unique_filename_prefix Scenario.worker
              Scenario.custom_payload (Scenario.start [] [])
            = (Ok payload', s')
            /\ uuid_next s' = 2%nat).
  { do 2 eexists. split; vm_compute; reflexivity. }
  destruct Hrun as (payload' & s' & Hrun & Hnext).
  destruct (injection_draws_one_token_per_node Scenario.worker _ payload'
              (Scenario.start [] []) s' Hrun)
    as (items' & tokens & -> & Hinj & Htok & Hn & _).
  exists items', tokens. split; [now rewrite Hrun|]. split; [exact Hinj|].
  rewrite Hnext in Hn. cbn in Hn.
  destruct tokens as [|t1 [|t2 [|t3 tokens]]]; try discriminate Hn.
  exact Htok.
Defined.

Lemma set_node_input_frame (value : json) (slot : string) (v value' : json) :
  set_node_input value slot v = Val value' ->
  (exists node inputs,
      value = JDict node /\ Dict.get "inputs" node = Some (JDict inputs))
  /\ input_of value' slot = Some v
  /\ forall k, k <> slot -> input_of value' k = input_of value k.
Proof.
  unfold set_node_input, bindr, Py.getitem, Py.setitem.
  destruct value as [| | | | | |node]; try discriminate.
  destruct (Dict.get "inputs" node) as [i|] eqn:Ei; try discriminate.
  destruct i as [| | | | | |inputs]; try discriminate.
  intros H. injection H as <-. split; [now exists node, inputs|].
  unfold input_of. rewrite dict_get_set_same, Ei. split.
  - apply dict_get_set_same.
  - intros k Hk. now apply dict_get_set_other.
Qed.

Lemma text_type_not_save_image (class_type : json) :
  existsb (Py.eq_str class_type) text_output_types = true ->
  Py.eq_str class_type "SaveImage" = false.
Proof.
  destruct class_type as [| | | |t| |]; try reflexivity.
  unfold text_output_types. cbn [existsb Py.eq_str].
  rewrite !orb_true_iff, !String.eqb_eq.
  intros [->|[->|[->|[->|H]]]]; try reflexivity. discriminate H.
Qed.

Lemma input_of_inputs (value : json) (inputs : Dict.t) (slot : string) :
  Py.getitem value "inputs" = Val (JDict inputs) ->
  input_of value slot = Dict.get slot inputs.
Proof.
  unfold Py.getitem, input_of. destruct value as [| | | | | |node]; try discriminate.
  destruct (Dict.get "inputs" node) as [i|]; [|discriminate].
  now intros [= ->].
Qed.

(** X8.  A text-output node receives its token by the first convention its
    inputs match, and by that one only; the token is the next one of the
    run.  With a [filename_prefix] input that slot becomes the token and
    every other input, [file] and [filename] included, keeps its value;
    without it, a [file] input becomes the token, an underscore and its
    former value, and it is the only one that changes; without both, a
    [filename] input does; a node with none of the three is returned
    unchanged and draws no token. *)
Theorem text_node_first_convention (W : world) (value value' class_type : json)
        (inputs : Dict.t) (s s' : state) :
  Py.get value "class_type" = Val class_type ->
  existsb (Py.eq_str class_type) text_output_types = true ->
  Py.getitem value "inputs" = Val (JDict inputs) ->
  prefix_node W value s = (Ok value', s') ->
  (Dict.mem "filename_prefix" inputs = true ->
   input_of value' "filename_prefix" = Some (JStr (uuid4 W (uuid_next s)))
   /\ (forall slot, slot <> "filename_prefix" ->
                    input_of value' slot = input_of value slot)
   /\ s' = bump_uuid s)
  /\ (Dict.mem "filename_prefix" inputs = false ->
      Dict.mem "file" inputs = true ->
      (exists original,
          input_of value "file" = Some original
          /\ input_of value' "file"
             = Some (JStr (uuid4 W (uuid_next s) ++ "_" ++ py_str W original)))
      /\ (forall slot, slot <> "file" ->
                       input_of value' slot = input_of value slot)
      /\ s' = bump_uuid s)
  /\ (Dict.mem "filename_prefix" inputs = false ->
      Dict.mem "file" inputs = false ->
      Dict.mem "filename" inputs = true ->
      (exists original,
          input_of value "filename" = Some original
          /\ input_of value' "filename"
             = Some (JStr (uuid4 W (uuid_next s) ++ "_" ++ py_str W original)))
      /\ (forall slot, slot <> "filename" ->
                       input_of value' slot = input_of value slot)
      /\ s' = bump_uuid s)
  /\ (Dict.mem "filename_prefix" inputs = false ->
      Dict.mem "file" inputs = false ->
      Dict.mem "filename" inputs = false ->
      value' = value /\ s' = s).
Proof.
  intros Hct Htxt Hin H.
  pose proof (text_type_not_save_image class_type Htxt) as Himg.
  unfold prefix_node in H. unfold bind at 1 in H. rewrite Hct in H.
  cbv beta iota delta [lift ret] in H. rewrite Himg, Htxt in H.
  unfold bind at 1 in H. rewrite Hin in H.
  cbv beta iota delta [lift ret] in H.
  unfold bind at 1 in H. cbn [Py.contains lift ret] in H.
  destruct (Dict.mem "filename_prefix" inputs) eqn:E1.
  - unfold bind at 1, fresh_uuid at 1 in H.
    destruct (set_node_input value "filename_prefix" (JStr (uuid4 W (uuid_next s))))
      as [v|e] eqn:Hs; cbn [lift] in H; [|discriminate H].
    injection H as <- <-.
    destruct (set_node_input_frame _ _ _ _ Hs) as (_ & Hsame & Hother).
    repeat split; try discriminate; auto.
  - unfold bind at 1 in H. cbn [Py.contains lift ret] in H.
    destruct (Dict.mem "file" inputs) eqn:E2.
    + unfold bind at 1 in H. cbn [Py.getitem lift] in H.
      destruct (Dict.get "file" inputs) as [original|] eqn:Eo;
        [|discriminate H].
      cbn [ret] in H. unfold bind at 1, fresh_uuid at 1 in H.
      destruct (set_node_input value "file"
                  (JStr (uuid4 W (uuid_next s) ++ "_" ++ py_str W original)))
        as [v|e] eqn:Hs; cbn [lift] in H; [|discriminate H].
      injection H as <- <-.
      destruct (set_node_input_frame _ _ _ _ Hs) as (_ & Hsame & Hother).
      split; [discriminate|]. split; [|split; [discriminate|discriminate]].
      intros _ _. split; [|split; [exact Hother | reflexivity]].
      exists original. split; [|exact Hsame].
      now rewrite (input_of_inputs value inputs "file" Hin).
    + unfold bind at 1 in H. cbn [Py.contains lift ret] in H.
      destruct (Dict.mem "filename" inputs) eqn:E3.
      * unfold bind at 1 in H. cbn [Py.getitem lift] in H.
        destruct (Dict.get "filename" inputs) as [original|] eqn:Eo;
          [|discriminate H].
        cbn [ret] in H. unfold bind at 1, fresh_uuid at 1 in H.
        destruct (set_node_input value "filename"
                    (JStr (uuid4 W (uuid_next s) ++ "_" ++ py_str W original)))
          as [v|e] eqn:Hs; cbn [lift] in H; [|discriminate H].
        injection H as <- <-.
        destruct (set_node_input_frame _ _ _ _ Hs) as (_ & Hsame & Hother).
        split; [discriminate|]. split; [discriminate|]. split; [|discriminate].
        intros _ _ _. split; [|split; [exact Hother | reflexivity]].
        exists original. split; [|exact Hsame].
        now rewrite (input_of_inputs value inputs "filename" Hin).
      * unfold ret in H. injection H as <- <-.
        repeat split; try discriminate; auto.
Qed.

Lemma text_node_first_convention_witness :
  exists value' s',
    prefix_node Scenario.worker
      (Scenario.node "SaveText|pysssss"
         [("root_dir", JStr "output"); ("file", JStr "caption.txt")])
      (Scenario.start [] [])
    = (Ok value', s')
    /\ input_of value' "file" = Some (JStr (Scenario.uuids 0 ++ "_caption.txt"))
    /\ input_of value' "root_dir" = Some (JStr "output").
Proof.
  assert (Hrun : exists value' s',
            prefix_node Scenario.worker
              (Scenario.node "SaveText|pysssss"
                 [("root_dir", JStr "output"); ("file", JStr "caption.txt")])
              (Scenario.start [] []) = (Ok value', s')).
  { do 2 eexists. vm_compute. reflexivity. }
  destruct Hrun as (value' & s' & Hrun).
  destruct (text_node_first_convention Scenario.worker
              (Scenario.node "SaveText|pysssss"
                 [("root_dir", JStr "output"); ("file", JStr "caption.txt")])
              value' (JStr "SaveText|pysssss") _ (Scenario.start [] []) s'
              eq_refl eq_refl eq_refl Hrun) as (_ & Hfile & _).
  destruct (Hfile eq_refl eq_refl) as ((original & Horig & Htoken) & Hothers & _).
  exists value', s'. split; [exact Hrun|]. split.
  - rewrite Htoken. injection Horig as <-. reflexivity.
  - rewrite (Hothers "root_dir"); [reflexivity | discriminate].
Defined.

(** ** Reported images *)

Lemma remove_temp_outcome (path : string) (s : state) :
  exists s',
    remove_temp path s = (Ok tt, s')
    /\ (forall f, Fs.lookup path (fs s) = Some (File f) -> removable f = true ->
                  Fs.exists_ path (fs s') = false).
Proof.
  unfold remove_temp, bind, log, emit, try_except, os_remove, bind, get_fs,
    lift, put_fs, ret, raise, Fs.remove. cbn [fs].
  destruct (Fs.lookup path (fs s)) as [[|f]|] eqn:El.
  - eexists. split; [reflexivity|]. intros f Hf. discriminate.
  - destruct (removable f) eqn:Er.
    + eexists. split; [reflexivity|]. intros _ _ _. cbn [fs].
      unfold Fs.exists_. now rewrite lookup_delete.
    + eexists. split; [reflexivity|]. intros f0 Hf Hr.
      injection Hf as <-. congruence.
  - eexists. split; [reflexivity|]. intros f Hf. discriminate.
Qed.

Lemma process_image_file (W : world) (images : list json) (data filename file_type : json)
      (s : state) :
  Py.get data "filename" = Val filename ->
  Py.get data "type" = Val file_type ->
  process_output_file W images (image_file data) s
  = (if Py.eq_str file_type "output" then
       present <- os_path_exists (output_path W filename) ;;
       if (present : bool) then
         log INFO (LogOutputImageSize (output_path W filename)) ;;;
         images' <- try_except
                      (cur <- get_fs ;;
                       image_data <- lift (Fs.convert_jpeg (output_path W filename) cur) ;;
                       log INFO (LogJpegImageSize (output_path W filename)) ;;;
                       ret (images ++ [JStr image_data])%list)
                      (fun e =>
                         log ERROR (LogConvertError (output_path W filename) e) ;;;
                         ret images) ;;
         log INFO (LogConverted (output_path W filename)) ;;;
         log INFO (LogDeletingOutput (output_path W filename)) ;;;
         os_remove (output_path W filename) ;;;
         ret images'
       else ret images
     else if Py.eq_str file_type "temp" then
       present <- os_path_exists (temp_path W filename) ;;
       if (present : bool) then remove_temp (temp_path W filename) ;;; ret images
       else
         present <- os_path_exists (tmp_path W filename) ;;
         if (present : bool) then remove_temp (tmp_path W filename) ;;; ret images
         else ret images
     else ret images) s.
Proof.
  intros Hf Ht. unfold process_output_file, image_file.
  unfold bind at 1. cbn [Py.getitem Dict.get String.eqb Ascii.eqb Bool.eqb lift ret].
  cbn [Py.eq_str String.eqb Ascii.eqb Bool.eqb].
  unfold bind at 1. cbn [Py.getitem Dict.get String.eqb Ascii.eqb Bool.eqb lift ret].
  unfold bind at 1. rewrite Hf. cbn [lift ret].
  unfold bind at 1. rewrite Ht. cbn [lift ret].
  reflexivity.
Qed.

(** X9.  Temp images: an image the service reports with type [temp] is
    never added to the image list and never makes the harvest raise; its
    file in the service's temp directory is deleted when it can be, and
    when there is no such file the one of the same name in [/tmp] is. *)
Theorem temp_image_deleted_not_reported (W : world) (images : list json)
        (data filename : json) (s : state) :
  Py.get data "filename" = Val filename ->
  Py.get data "type" = Val (JStr "temp") ->
  exists s',
    process_output_file W images (image_file data) s = (Ok images, s')
    /\ (forall f, Fs.lookup (temp_path W filename) (fs s) = Some (File f) ->
                  removable f = true ->
                  Fs.exists_ (temp_path W filename) (fs s') = false)
    /\ (Fs.exists_ (temp_path W filename) (fs s) = false ->
        forall f, Fs.lookup (tmp_path W filename) (fs s) = Some (File f) ->
                  removable f = true ->
                  Fs.exists_ (tmp_path W filename) (fs s') = false).
Proof.
  intros Hf Ht. rewrite (process_image_file W images data filename _ s Hf Ht).
  cbn [Py.eq_str String.eqb Ascii.eqb Bool.eqb].
  unfold bind at 1, os_path_exists at 1, bind at 1, get_fs at 1, ret at 1.
  destruct (Fs.exists_ (temp_path W filename) (fs s)) eqn:E1.
  - destruct (remove_temp_outcome (temp_path W filename) s) as (s' & Hr & Hgone).
    exists s'. rewrite (bind_ok _ _ _ _ _ Hr). split; [reflexivity|].
    split; [exact Hgone|]. discriminate.
  - unfold bind at 1, os_path_exists at 1, bind at 1, get_fs at 1, ret at 1.
    destruct (Fs.exists_ (tmp_path W filename) (fs s)) eqn:E2.
    + destruct (remove_temp_outcome (tmp_path W filename) s) as (s' & Hr & Hgone).
      exists s'. rewrite (bind_ok _ _ _ _ _ Hr). split; [reflexivity|].
      split; [|intros _; exact Hgone].
      intros f Hl. unfold Fs.exists_ in E1. rewrite Hl in E1. discriminate.
    + exists s. split; [reflexivity|]. split.
      * intros f Hl. unfold Fs.exists_ in E1. rewrite Hl in E1. discriminate.
      * intros _ f Hl. unfold Fs.exists_ in E2. rewrite Hl in E2. discriminate.
Qed.

(** X10.  Output images: an image the service reports with type [output],
    whose file exists and can be removed, is deleted whether or not it can
    be converted; it is appended to the image list, as the encoded JPEG,
    only when the conversion succeeds.  A file that cannot be converted is
    thus deleted without being returned. *)
Theorem output_image_consumed (W : world) (images : list json)
        (data filename : json) (f : file) (s : state) :
  Py.get data "filename" = Val filename ->
  Py.get data "type" = Val (JStr "output") ->
  Fs.lookup (output_path W filename) (fs s) = Some (File f) ->
  removable f = true ->
  exists s',
    process_output_file W images (image_file data) s
    = (Ok (match jpeg_base64 f with
           | Some image_data => (images ++ [JStr image_data])%list
           | None => images
           end), s')
    /\ Fs.exists_ (output_path W filename) (fs s') = false.
Proof.
  intros Hf Ht Hl Hr. rewrite (process_image_file W images data filename _ s Hf Ht).
  cbn [Py.eq_str String.eqb Ascii.eqb Bool.eqb].
  unfold os_path_exists, os_remove.
  unfold bind, get_fs, ret, log, emit, try_except, lift, raise,
    put_fs, Fs.exists_, Fs.convert_jpeg, Fs.remove.
  unfold ret. repeat (progress (cbn [fs]; rewrite ?Hl, ?Hr)).
  destruct (jpeg_base64 f) as [image_data|];
    repeat (progress (cbn [fs]; rewrite ?Hl, ?Hr));
    (eexists; split; [reflexivity|]); cbn [fs]; now rewrite lookup_delete.
Qed.

(** X11.  An output image that cannot be deleted makes the harvest raise:
    when [os.remove] fails on the image's file (it is a directory, or the
    removal is refused), the exception leaves the loop over the output
    files although the image may already have been converted, and the file
    stays where it was. *)
Theorem output_image_removal_failure_raises (W : world) (images : list json)
        (data filename : json) (e : entry) (s : state) :
  Py.get data "filename" = Val filename ->
  Py.get data "type" = Val (JStr "output") ->
  Fs.lookup (output_path W filename) (fs s) = Some e ->
  (e = Dir \/ exists f, e = File f /\ removable f = false) ->
  exists s',
    process_output_file W images (image_file data) s
    = (Raise (FileError (output_path W filename)), s')
    /\ fs s' = fs s.
Proof.
  intros Hf Ht Hl He. rewrite (process_image_file W images data filename _ s Hf Ht).
  cbn [Py.eq_str String.eqb Ascii.eqb Bool.eqb].
  unfold os_path_exists, os_remove.
  unfold bind, get_fs, ret, log, emit, try_except, lift, raise,
    put_fs, Fs.exists_, Fs.convert_jpeg, Fs.remove.
  unfold ret. destruct He as [->|(f & -> & Hr)].
  - repeat (progress (cbn [fs]; rewrite ?Hl)).
    eexists. split; reflexivity.
  - repeat (progress (cbn [fs]; rewrite ?Hl, ?Hr)).
    destruct (jpeg_base64 f);
      repeat (progress (cbn [fs]; rewrite ?Hl, ?Hr));
      eexists; split; reflexivity.
Qed.

Lemma temp_image_deleted_not_reported_witness :
  exists s',
    process_output_file Scenario.worker []
      (image_file (Cases.descriptor "preview.png" "temp"))
      (Scenario.start
         [("/runpod-volume/ComfyUI/temp/preview.png", File Cases.png)] [])
    = (Ok [], s')
    /\ Fs.exists_ "/runpod-volume/ComfyUI/temp/preview.png" (fs s') = false.
Proof.
  destruct (temp_image_deleted_not_reported Scenario.worker []
              (Cases.descriptor "preview.png" "temp") (JStr "preview.png")
              (Scenario.start
                 [("/runpod-volume/ComfyUI/temp/preview.png", File Cases.png)] [])
              eq_refl eq_refl) as (s' & Hrun & Hgone & _).
  exists s'. split; [exact Hrun|].
  apply (Hgone Cases.png); reflexivity.
Defined.

Lemma output_image_consumed_witness :
  exists s',
    process_output_file Scenario.worker []
      (image_file (Cases.descriptor "broken.png" "output"))
      (Scenario.start
         [("/runpod-volume/ComfyUI/output/broken.png", File Cases.broken_png)] [])
    = (Ok [], s')
    /\ Fs.exists_ "/runpod-volume/ComfyUI/output/broken.png" (fs s') = false.
Proof.
  exact (output_image_consumed Scenario.worker []
           (Cases.descriptor "broken.png" "output") (JStr "broken.png")
           Cases.broken_png
           (Scenario.start
              [("/runpod-volume/ComfyUI/output/broken.png",
                File Cases.broken_png)] [])
           eq_refl eq_refl eq_refl eq_refl).
Defined.

Lemma output_image_removal_failure_raises_witness :
  exists s',
    process_output_file Scenario.worker []
      (image_file (Cases.descriptor "kept.png" "output"))
      (Scenario.start
         [("/runpod-volume/ComfyUI/output/kept.png", File Cases.locked_png)] [])
    = (Raise (FileError "/runpod-volume/ComfyUI/output/kept.png"), s')
    /\ fs s'
       = fs (Scenario.start
               [("/runpod-volume/ComfyUI/output/kept.png",
                 File Cases.locked_png)] []).
Proof.
  apply (output_image_removal_failure_raises Scenario.worker []
           (Cases.descriptor "kept.png" "output") (JStr "kept.png")
           (File Cases.locked_png)
           (Scenario.start
              [("/runpod-volume/ComfyUI/output/kept.png",
                File Cases.locked_png)] [])
           eq_refl eq_refl eq_refl).
  right. exists Cases.locked_png. split; reflexivity.
Defined.

(** ** The scan for text files *)

Lemma lookup_delete_other (path q : string) (fs0 : filesystem) :
  q <> path -> Fs.lookup q (Fs.delete path fs0) = Fs.lookup q fs0.
Proof.
  intros Hne. unfold Fs.delete.
  induction fs0 as [|[p e] fs0 IH]; simpl; [reflexivity|].
  destruct (String.eqb_spec path p) as [->|Hp]; simpl.
  - destruct (String.eqb_spec q p); [contradiction|exact IH].
  - now rewrite IH.
Qed.

Ltac effect_done :=
  split; [reflexivity|];
  split; [repeat (constructor; [eexists; reflexivity|]); constructor|];
  split; [first [left; reflexivity | right; reflexivity]|];
  split; reflexivity.

(** What reading one file does, whatever the file: it never raises, it
    appends entries under the file's name only, and it leaves the file
    system as it was or without that one path. *)
Lemma read_text_file_effect (file_path filename : string)
      (text_files : list json) (s : state) :
  exists extra s',
    read_text_file file_path filename text_files s
    = (Ok (text_files ++ extra)%list, s')
    /\ Forall (fun e => exists content, e = text_entry filename content) extra
    /\ (fs s' = fs s \/ fs s' = Fs.delete file_path (fs s))
    /\ uuid_next s' = uuid_next s /\ history s' = history s.
Proof.
  unfold read_text_file, read_binary, os_remove.
  unfold bind, get_fs, lift, put_fs, ret, raise, log, emit, try_except,
    Fs.read_text, Fs.read_bytes, Fs.remove.
  cbn [fs].
  destruct (Fs.lookup file_path (fs s)) as [[|f]|] eqn:El;
    repeat (progress (cbn [fs]; rewrite ?El)).
  - exists []. eexists. rewrite app_nil_r. effect_done.
  - destruct (text_utf8 f) as [c|] eqn:Et;
      repeat (progress (cbn [fs]; rewrite ?El, ?Et)).
    + destruct (removable f) eqn:Er;
        repeat (progress (cbn [fs]; rewrite ?El, ?Et, ?Er)).
      * exists [text_entry filename c]. eexists. effect_done.
      * destruct (bytes_replace f) as [c'|] eqn:Eb;
          repeat (progress (cbn [fs]; rewrite ?El, ?Et, ?Er, ?Eb)).
        -- exists [text_entry filename c; text_entry filename c']. eexists.
           rewrite <- app_assoc. effect_done.
        -- exists [text_entry filename c]. eexists. effect_done.
    + destruct (bytes_replace f) as [c'|] eqn:Eb;
        repeat (progress (cbn [fs]; rewrite ?El, ?Et, ?Eb)).
      * destruct (removable f) eqn:Er;
          repeat (progress (cbn [fs]; rewrite ?El, ?Et, ?Er, ?Eb));
          (exists [text_entry filename c']; eexists; effect_done).
      * exists []. eexists. rewrite app_nil_r. effect_done.
  - exists []. eexists. rewrite app_nil_r. effect_done.
Qed.

Lemma scan_effect_nothing (unique_prefix : json) (touched : string -> Prop)
      (text_files : list json) (s s' : state) :
  fs s' = fs s -> uuid_next s' = uuid_next s -> history s' = history s ->
  scan_effect unique_prefix touched text_files s (Ok text_files, s').
Proof.
  intros Hfs Hu Hh. exists []. cbn [fst snd]. rewrite app_nil_r, Hfs.
  repeat split; auto.
Qed.

Lemma scan_effect_weaken (unique_prefix : json) (touched touched' : string -> Prop)
      (text_files : list json) (s : state) r :
  (forall q, touched q -> touched' q) ->
  scan_effect unique_prefix touched text_files s r ->
  scan_effect unique_prefix touched' text_files s r.
Proof.
  intros Hsub (extra & Hr & Hrep & Hframe & Hshrink & Hu & Hh).
  exists extra. repeat split; auto.
Qed.

Lemma scan_effect_seq (unique_prefix : json) (touched : string -> Prop)
      (text_files text_files1 : list json) (s s1 : state) r :
  scan_effect unique_prefix touched text_files s (Ok text_files1, s1) ->
  scan_effect unique_prefix touched text_files1 s1 r ->
  scan_effect unique_prefix touched text_files s r.
Proof.
  intros (extra1 & Hr1 & Hrep1 & Hframe1 & Hshrink1 & Hu1 & Hh1)
         (extra2 & Hr2 & Hrep2 & Hframe2 & Hshrink2 & Hu2 & Hh2).
  cbn [fst snd] in *. injection Hr1 as ->.
  exists (extra1 ++ extra2)%list. repeat split.
  - now rewrite Hr2, app_assoc.
  - now apply Forall_app.
  - intros q Hq. now rewrite Hframe2, Hframe1.
  - intros q. destruct (Hshrink2 q) as [H|H]; [now left|].
    rewrite H. apply Hshrink1.
  - congruence.
  - congruence.
Qed.

Lemma scan_names_effect (unique_prefix : json) (scan_dir : string)
      (names : list string) :
  forall text_files s,
    scan_effect unique_prefix
      (fun q => exists n, In n names /\ is_text_file n = true /\
                          skipped_by_prefix unique_prefix n = Val false /\
                          q = scan_dir ++ "/" ++ n)
      text_files s
      (scan_names unique_prefix scan_dir names text_files s).
Proof.
  induction names as [|filename rest IH]; intros text_files s.
  - now apply scan_effect_nothing.
  - cbn [scan_names].
    assert (Hrest : forall tf s0,
              scan_effect unique_prefix
                (fun q => exists n, In n (filename :: rest) /\
                                    is_text_file n = true /\
                                    skipped_by_prefix unique_prefix n = Val false /\
                                    q = scan_dir ++ "/" ++ n)
                tf s0 (scan_names unique_prefix scan_dir rest tf s0)).
    { intros tf s0. eapply scan_effect_weaken; [|apply IH].
      intros q (n & Hn & H). exists n. split; [now right | exact H]. }
    destruct (is_text_file filename) eqn:Etxt; [|apply Hrest].
    destruct (skipped_by_prefix unique_prefix filename) as [[|]|e] eqn:Eskip.
    + apply Hrest.
    + destruct (read_text_file_effect (scan_dir ++ "/" ++ filename) filename
                  text_files s) as (extra & s1 & Hread & Hnames & Hfs & Hu & Hh).
      unfold bind at 1. rewrite Hread.
      eapply scan_effect_seq; [|apply Hrest].
      exists extra. cbn [fst snd]. repeat split; auto.
      * eapply Forall_impl; [|exact Hnames].
        intros e (content & ->). now exists filename, content.
      * intros q Hq. destruct Hfs as [-> | ->]; [reflexivity|].
        apply lookup_delete_other. intros ->. apply Hq.
        exists filename. repeat split; auto. now left.
      * intros q. destruct Hfs as [-> | ->]; [now right|].
        destruct (String.eqb_spec q (scan_dir ++ "/" ++ filename)) as [->|Hne].
        -- left. apply lookup_delete.
        -- right. now apply lookup_delete_other.
    + unfold bind, log, emit, ret. cbn.
      now apply scan_effect_nothing.
Qed.

Lemma scan_dir_effect (unique_prefix : json) (scan_dir : string)
      (text_files : list json) (s : state) :
  scan_effect unique_prefix
    (fun q => exists n, is_text_file n = true /\
                        skipped_by_prefix unique_prefix n = Val false /\
                        q = scan_dir ++ "/" ++ n)
    text_files s
    (scan_dir_for_text_files unique_prefix scan_dir text_files s).
Proof.
  unfold scan_dir_for_text_files, os_path_exists.
  unfold bind at 1, bind at 1, get_fs at 1, ret at 1.
  destruct (Fs.exists_ scan_dir (fs s)); [|now apply scan_effect_nothing].
  unfold bind at 1, get_fs at 1.
  destruct (Fs.listdir scan_dir (fs s)) as [names|e].
  - eapply scan_effect_weaken; [|apply scan_names_effect].
    intros q (n & _ & H). now exists n.
  - unfold bind, log, emit, ret. cbn. now apply scan_effect_nothing.
Qed.

Lemma scan_all_effect (unique_prefix : json) (dirs : list string) :
  forall text_files s,
    scan_effect unique_prefix
      (fun q => exists d n, In d dirs /\ q = d ++ "/" ++ n /\
                            is_text_file n = true /\
                            skipped_by_prefix unique_prefix n = Val false)
      text_files s
      (scan_all unique_prefix dirs text_files s).
Proof.
  induction dirs as [|d rest IH]; intros text_files s.
  - now apply scan_effect_nothing.
  - cbn [scan_all]. unfold bind at 1.
    pose proof (scan_dir_effect unique_prefix d text_files s) as Hd.
    destruct (scan_dir_for_text_files unique_prefix d text_files s)
      as [[tf1| | |] s1] eqn:E;
      try (destruct Hd as (extra & Hr & _); discriminate Hr).
    eapply scan_effect_seq.
    + eapply scan_effect_weaken; [|exact Hd].
      intros q (n & Ht & Hs & ->). exists d, n. repeat split; auto. now left.
    + eapply scan_effect_weaken; [|apply IH].
      intros q (d0 & n & Hin & H). exists d0, n. split; [now right | exact H].
Qed.

(** X12.  The scan for text files never raises, whatever the prefix and
    whatever is on disk: unreadable files, failed removals and directories
    that cannot be listed are logged and passed over.  Every entry it
    returns carries a file name with one of the text extensions that the
    prefix filter lets through, and the scan leaves the token counter and
    the history script as they were. *)
Theorem scan_never_raises (unique_prefix : json) (s : state) :
  exists text_files s',
    scan_for_text_files unique_prefix s = (Ok text_files, s')
    /\ Forall (reported_name unique_prefix) text_files
    /\ uuid_next s' = uuid_next s
    /\ history s' = history s.
Proof.
  destruct (scan_all_effect unique_prefix scan_dirs [] s)
    as (extra & Hr & Hrep & _ & _ & Hu & Hh).
  unfold scan_for_text_files.
  destruct (scan_all unique_prefix scan_dirs [] s) as [r s'].
  cbn [fst snd] in *. subst r. exists extra, s'. now repeat split.
Qed.








Lemma read_text_file_exact (file_path filename : string) (f : file)
      (text_files : list json) (s : state) :
  Fs.lookup file_path (fs s) = Some (File f) ->
  removable f = true ->
  exists s',
    read_text_file file_path filename text_files s
    = (Ok (text_files ++ harvested_entries filename f)%list, s')
    /\ fs s' = match harvested_entries filename f with
               | [] => fs s
               | _ => Fs.delete file_path (fs s)
               end.
Proof.
  intros Hl Hr. unfold read_text_file, read_binary, os_remove, harvested_entries.
  unfold bind, get_fs, lift, put_fs, ret, raise, log, emit, try_except,
    Fs.read_text, Fs.read_bytes, Fs.remove.
  repeat (progress (cbn [fs]; rewrite ?Hl, ?Hr)).
  destruct (text_utf8 f) as [c|];
    repeat (progress (cbn [fs]; rewrite ?Hl, ?Hr)).
  - eexists. split; reflexivity.
  - destruct (bytes_replace f) as [c'|];
      repeat (progress (cbn [fs]; rewrite ?Hl, ?Hr)).
    + eexists. split; reflexivity.
    + eexists. rewrite app_nil_r. split; reflexivity.
Qed.

(** X14.  One file of the scan, when it can be removed: a file that reads
    as UTF-8 text is returned with that text; one that does not is read in
    binary mode and returned with the permissive decoding; either way it
    is returned once and deleted.  A file that cannot be read at all is
    passed over: nothing is appended and the file stays on disk. *)
Theorem text_file_read_outcome (file_path filename : string) (f : file)
        (text_files : list json) (s : state) :
  Fs.lookup file_path (fs s) = Some (File f) ->
  removable f = true ->
  exists s',
    read_text_file file_path filename text_files s
    = (Ok (text_files ++ harvested_entries filename f)%list, s')
    /\ Fs.exists_ file_path (fs s')
       = match text_utf8 f, bytes_replace f with
         | None, None => true
         | _, _ => false
         end.
Proof.
  intros Hl Hr.
  destruct (read_text_file_exact file_path filename f text_files s Hl Hr)
    as (s' & Hrun & Hfs).
  exists s'. split; [exact Hrun|]. rewrite Hfs.
  unfold harvested_entries, Fs.exists_.
  destruct (text_utf8 f); [now rewrite lookup_delete|].
  destruct (bytes_replace f); [now rewrite lookup_delete|].
  now rewrite Hl.
Qed.

Lemma text_file_read_outcome_witness :
  exists s',
    read_text_file "/tmp/latin1.txt" "latin1.txt" []
      (Scenario.start
         [("/tmp/latin1.txt",
           File {| text_utf8 := None; bytes_replace := Some "caf?";
                   jpeg_base64 := None; removable := true |})] [])
    = (Ok [text_entry "latin1.txt" "caf?"], s')
    /\ Fs.exists_ "/tmp/latin1.txt" (fs s') = false.
Proof.
  exact (text_file_read_outcome "/tmp/latin1.txt" "latin1.txt"
           {| text_utf8 := None; bytes_replace := Some "caf?";
              jpeg_base64 := None; removable := true |} []
           (Scenario.start
              [("/tmp/latin1.txt",
                File {| text_utf8 := None; bytes_replace := Some "caf?";
                        jpeg_base64 := None; removable := true |})] [])
           eq_refl eq_refl).
Defined.

Lemma strip_prefix_app (pre s : string) :
  Fs.strip_prefix pre (pre ++ s) = Some s.
Proof.
  induction pre as [|a pre IH]; simpl.
  - now destruct s.
  - now rewrite Ascii.eqb_refl.
Qed.

Lemma name_in_app (dir name : string) :
  name <> "" -> Str.contains "/" name = false ->
  Fs.name_in dir (dir ++ "/" ++ name) = Some name.
Proof.
  intros Hne Hslash. unfold Fs.name_in.
  rewrite <- append_assoc, strip_prefix_app, Hslash.
  destruct (String.eqb_spec name ""); [contradiction|reflexivity].
Qed.

Lemma names_in_lookup (dir path name : string) (e : entry) (fs0 : filesystem) :
  Fs.lookup path fs0 = Some e ->
  Fs.name_in dir path = Some name ->
  In name (Fs.names_in dir fs0).
Proof.
  intros Hl Hn. induction fs0 as [|[p e0] fs0 IH]; simpl in *; [discriminate|].
  destruct (String.eqb_spec path p) as [<-|Hp].
  - rewrite Hn. now left.
  - destruct (Fs.name_in dir p); [right|]; now apply IH.
Qed.

Lemma append_cancel_l (d a b : string) : d ++ a = d ++ b -> a = b.
Proof.
  induction d as [|x d IH]; simpl; [trivial|].
  intros H. injection H as H. now apply IH.
Qed.

Lemma falsy_prefix_skips_nothing (unique_prefix : json) (filename : string) :
  Py.truthy unique_prefix = false ->
  skipped_by_prefix unique_prefix filename = Val false.
Proof. intros H. unfold skipped_by_prefix. now rewrite H. Qed.

Lemma scan_dirs_apart (d dir n m : string) :
  In d scan_dirs -> In dir scan_dirs ->
  d ++ "/" ++ n = dir ++ "/" ++ m -> d = dir.
Proof.
  intros Hd Hdir H. cbv in Hd, Hdir.
  destruct Hd as [<-|[<-|[<-|[]]]]; destruct Hdir as [<-|[<-|[<-|[]]]];
    try reflexivity; cbv in H; inversion H.
Qed.

Lemma scan_dir_is_no_scanned_file (d dir n : string) :
  In d scan_dirs -> In dir scan_dirs -> dir <> d ++ "/" ++ n.
Proof.
  intros Hd Hdir H. cbv in Hd, Hdir.
  destruct Hd as [<-|[<-|[<-|[]]]]; destruct Hdir as [<-|[<-|[<-|[]]]];
    cbv in H; inversion H.
Qed.

Section Unprefixed.

Variable unique_prefix : json.
Variables dir name content : string.
Variable f : file.
Hypothesis falsy : Py.truthy unique_prefix = false.
Hypothesis dir_scanned : In dir scan_dirs.
Hypothesis name_text : is_text_file name = true.
Hypothesis f_removable : removable f = true.
Hypothesis f_readable :
  text_utf8 f = Some content \/
  (text_utf8 f = None /\ bytes_replace f = Some content).

Let path := dir ++ "/" ++ name.

(** The file has been returned and is gone. *)
Let done (r : outcome (list json) * state) : Prop :=
  exists text_files,
    fst r = Ok text_files
    /\ In (text_entry name content) text_files
    /\ Fs.lookup path (fs (snd r)) = None.

Lemma harvested_entries_readable :
  harvested_entries name f = [text_entry name content].
Proof.
  unfold harvested_entries.
  destruct f_readable as [-> | [-> ->]]; reflexivity.
Qed.

Lemma done_preserved (touched : string -> Prop) (text_files : list json)
      (s : state) r :
  In (text_entry name content) text_files ->
  Fs.lookup path (fs s) = None ->
  scan_effect unique_prefix touched text_files s r ->
  done r.
Proof.
  intros Hin Hgone (extra & Hr & _ & _ & Hshrink & _).
  exists (text_files ++ extra)%list. split; [exact Hr|]. split.
  - apply in_or_app. now left.
  - destruct (Hshrink path) as [H|H]; [exact H | now rewrite H].
Qed.

Lemma scan_names_harvests (names : list string) :
  forall text_files s,
    In name names ->
    Fs.lookup path (fs s) = Some (File f) ->
    done (scan_names unique_prefix dir names text_files s).
Proof.
  induction names as [|n rest IH]; intros text_files s Hin Hl; [contradiction|].
  cbn [scan_names].
  destruct (String.eqb_spec n name) as [->|Hne].
  - rewrite name_text, (falsy_prefix_skips_nothing unique_prefix name falsy).
    destruct (read_text_file_exact path name f text_files s Hl f_removable)
      as (s1 & Hread & Hfs).
    rewrite harvested_entries_readable in Hread, Hfs.
    unfold bind at 1. fold path. rewrite Hread.
    eapply done_preserved; [| |apply scan_names_effect].
    + apply in_or_app. right. now left.
    + rewrite Hfs. apply lookup_delete.
  - destruct Hin as [Heq|Hin]; [contradiction|].
    destruct (is_text_file n); [|now apply IH].
    rewrite (falsy_prefix_skips_nothing unique_prefix n falsy).
    destruct (read_text_file_effect (dir ++ "/" ++ n) n text_files s)
      as (extra & s1 & Hread & _ & Hfs & _).
    unfold bind at 1. rewrite Hread. apply IH; [exact Hin|].
    destruct Hfs as [-> | ->]; [exact Hl|].
    rewrite lookup_delete_other; [exact Hl|].
    unfold path. intros H. apply append_cancel_l in H.
    injection H as H. congruence.
Qed.

Lemma scan_dir_harvests (text_files : list json) (s : state) :
  name <> "" -> Str.contains "/" name = false ->
  Fs.lookup dir (fs s) = Some Dir ->
  Fs.lookup path (fs s) = Some (File f) ->
  done (scan_dir_for_text_files unique_prefix dir text_files s).
Proof.
  intros Hne Hslash Hdir Hl.
  unfold scan_dir_for_text_files, os_path_exists.
  unfold bind at 1, bind at 1, get_fs at 1, ret at 1.
  unfold Fs.exists_. rewrite Hdir.
  unfold bind at 1, get_fs at 1. unfold Fs.listdir. rewrite Hdir.
  apply scan_names_harvests; [|exact Hl].
  eapply names_in_lookup; [exact Hl|]. now apply name_in_app.
Qed.

Lemma scan_all_harvests (dirs : list string) :
  forall text_files s,
    (forall d, In d dirs -> In d scan_dirs) ->
    In dir dirs ->
    name <> "" -> Str.contains "/" name = false ->
    Fs.lookup dir (fs s) = Some Dir ->
    Fs.lookup path (fs s) = Some (File f) ->
    done (scan_all unique_prefix dirs text_files s).
Proof.
  induction dirs as [|d rest IH]; intros text_files s Hsub Hin Hne Hslash Hdir Hl;
    [contradiction|].
  cbn [scan_all]. unfold bind at 1.
  destruct (String.eqb_spec d dir) as [->|Hd].
  - destruct (scan_dir_harvests text_files s Hne Hslash Hdir Hl)
      as (tf1 & Hr & Hin1 & Hgone).
    destruct (scan_dir_for_text_files unique_prefix dir text_files s)
      as [r s1]. cbn [fst snd] in *. subst r.
    eapply done_preserved; [exact Hin1 | exact Hgone | apply scan_all_effect].
  - destruct Hin as [Heq|Hin]; [contradiction|].
    destruct (scan_dir_effect unique_prefix d text_files s)
      as (extra & Hr & _ & Hframe & _).
    destruct (scan_dir_for_text_files unique_prefix d text_files s)
      as [r s1]. cbn [fst snd] in *. subst r.
    apply IH; auto.
    + intros d0 Hd0. apply Hsub. now right.
    + rewrite Hframe; [exact Hdir|].
      intros (n & _ & _ & H).
      apply (scan_dir_is_no_scanned_file d dir n); auto. apply Hsub. now left.
    + rewrite Hframe; [exact Hl|].
      intros (n & _ & _ & H). apply Hd. symmetry.
      apply (scan_dirs_apart dir d name n); auto. apply Hsub. now left.
Qed.

End Unprefixed.

(** X15.  Without a prefix the scan is not confined to one job: when the
    prefix is [None] or empty, every file directly in a scan directory
    that has a text extension, can be read and can be removed is returned
    and deleted, whichever job wrote it. *)
Theorem unprefixed_scan_harvests_every_text_file (unique_prefix : json)
        (dir name content : string) (f : file) (s : state) :
  Py.truthy unique_prefix = false ->
  In dir scan_dirs ->
  Fs.lookup dir (fs s) = Some Dir ->
  name <> "" ->
  Str.contains "/" name = false ->
  is_text_file name = true ->
  Fs.lookup (dir ++ "/" ++ name) (fs s) = Some (File f) ->
  removable f = true ->
  (text_utf8 f = Some content \/
   (text_utf8 f = None /\ bytes_replace f = Some content)) ->
  exists text_files s',
    scan_for_text_files unique_prefix s = (Ok text_files, s')
    /\ In (text_entry name content) text_files
    /\ Fs.exists_ (dir ++ "/" ++ name) (fs s') = false.
Proof.
  intros Hfalsy Hdir Hd Hne Hslash Htext Hl Hr Hread.
  destruct (scan_all_harvests unique_prefix dir name content f Hfalsy Hdir
              Htext Hr Hread scan_dirs [] s (fun d H => H) Hdir Hne Hslash Hd Hl)
    as (text_files & Hrun & Hin & Hgone).
  unfold scan_for_text_files.
  destruct (scan_all unique_prefix scan_dirs [] s) as [r s'].
  cbn [fst snd] in *. subst r. exists text_files, s'.
  split; [reflexivity|]. split; [exact Hin|].
  unfold Fs.exists_. now rewrite Hgone.
Qed.

Lemma unprefixed_scan_harvests_every_text_file_witness :
  exists text_files s',
    scan_for_text_files JNull
      (Scenario.start
         [("/tmp/other-job.log", Scenario.plain_file "not ours")] [])
    = (Ok text_files, s')
    /\ In (text_entry "other-job.log" "not ours") text_files
    /\ Fs.exists_ "/tmp/other-job.log" (fs s') = false.
Proof.
  apply (unprefixed_scan_harvests_every_text_file JNull "/tmp" "other-job.log"
           "not ours"
           {| text_utf8 := Some "not ours"; bytes_replace := Some "not ours";
              jpeg_base64 := None; removable := true |}
           (Scenario.start
              [("/tmp/other-job.log", Scenario.plain_file "not ours")] []));
    try reflexivity.
  - cbv. auto.
  - discriminate.
  - now left.
Defined.

(** ** Waiting for the service *)

Lemma div15_succ (n : nat) :
  (S n / 15 = n / 15 + (if Nat.eqb (S n mod 15) 0 then 1 else 0))%nat.
Proof.
  pose proof (Nat.div_mod_eq n 15) as E1.
  pose proof (Nat.mod_upper_bound n 15 ltac:(lia)) as B1.
  pose proof (Nat.div_mod_eq (S n) 15) as E2.
  pose proof (Nat.mod_upper_bound (S n) 15 ltac:(lia)) as B2.
  destruct (Nat.eqb_spec (S n mod 15) 0) as [E|E]; lia.
Qed.

Lemma tally_app {A : Type} (f : A -> bool) (a b : list A) :
  Startup.tally f (a ++ b) = (Startup.tally f a + Startup.tally f b)%nat.
Proof. unfold Startup.tally. now rewrite filter_app, length_app. Qed.

Lemma wait_from_returns (downs rest : list Startup.probe) :
  Forall (fun p => Startup.is_up p = false) downs ->
  forall retries,
  exists evs,
    Startup.wait_from (downs ++ Startup.Up :: rest) retries = Some evs
    /\ (Startup.tally Startup.is_not_ready_log evs + retries / 15
        = (retries + Startup.tally Startup.is_refused downs) / 15)%nat
    /\ Startup.tally Startup.is_probe_error_log evs
       = Startup.tally Startup.is_failed downs
    /\ Startup.tally Startup.is_sleep evs = List.length downs.
Proof.
  induction 1 as [|p downs Hp _ IH]; intros retries.
  - exists []. cbn. repeat split. now rewrite Nat.add_0_r.
  - destruct p; [discriminate Hp| |].
    + destruct (IH (S retries)) as (evs & Hrun & Hlog & Herr & Hsleep).
      cbn [app Startup.wait_from]. rewrite Hrun. eexists. split; [reflexivity|].
      rewrite !tally_app.
      change (Startup.tally Startup.is_not_ready_log (Startup.StartupSleep :: evs))
        with (Startup.tally Startup.is_not_ready_log evs).
      change (Startup.tally Startup.is_probe_error_log (Startup.StartupSleep :: evs))
        with (Startup.tally Startup.is_probe_error_log evs).
      change (Startup.tally Startup.is_sleep (Startup.StartupSleep :: evs))
        with (S (Startup.tally Startup.is_sleep evs)).
      change (Startup.tally Startup.is_refused (Startup.Refused :: downs))
        with (S (Startup.tally Startup.is_refused downs)).
      change (Startup.tally Startup.is_failed (Startup.Refused :: downs))
        with (Startup.tally Startup.is_failed downs).
      pose proof (div15_succ retries) as Hdiv.
      unfold Startup.not_ready_line.
      replace (retries + S (Startup.tally Startup.is_refused downs))%nat
        with (S retries + Startup.tally Startup.is_refused downs)%nat by lia.
      destruct (Nat.eqb (S retries mod 15) 0); cbn [Startup.tally filter
        Startup.is_not_ready_log Startup.is_probe_error_log Startup.is_sleep
        List.length]; cbn [List.length]; repeat split; lia.
    + destruct (IH retries) as (evs & Hrun & Hlog & Herr & Hsleep).
      cbn [app Startup.wait_from]. rewrite Hrun. eexists. split; [reflexivity|].
      change (Startup.tally Startup.is_not_ready_log
                (Startup.ProbeErrorLog :: Startup.StartupSleep :: evs))
        with (Startup.tally Startup.is_not_ready_log evs).
      change (Startup.tally Startup.is_probe_error_log
                (Startup.ProbeErrorLog :: Startup.StartupSleep :: evs))
        with (S (Startup.tally Startup.is_probe_error_log evs)).
      change (Startup.tally Startup.is_sleep
                (Startup.ProbeErrorLog :: Startup.StartupSleep :: evs))
        with (S (Startup.tally Startup.is_sleep evs)).
      change (Startup.tally Startup.is_refused (Startup.Failed :: downs))
        with (Startup.tally Startup.is_refused downs).
      change (Startup.tally Startup.is_failed (Startup.Failed :: downs))
        with (S (Startup.tally Startup.is_failed downs)).
      cbn [List.length]. repeat split; lia.
Qed.

(** X16.  Waiting for the service: when the probes fail some number of
    times and then one returns, [wait_for_service] returns at that probe,
    having slept once per failed probe.  Only the probes that raised a
    [RequestException] count as retries: "not ready" is logged once for
    every fifteen of them (and not on the first), while a probe that
    raised anything else is logged as an error every time and does not
    advance the count. *)
Theorem wait_for_service_returns (downs rest : list Startup.probe) :
  Forall (fun p => Startup.is_up p = false) downs ->
  exists evs,
    Startup.wait_for_service (downs ++ Startup.Up :: rest) = Some evs
    /\ Startup.tally Startup.is_not_ready_log evs
       = (Startup.tally Startup.is_refused downs / 15)%nat
    /\ Startup.tally Startup.is_probe_error_log evs
       = Startup.tally Startup.is_failed downs
    /\ Startup.tally Startup.is_sleep evs = List.length downs.
Proof.
  intros Hdowns.
  destruct (wait_from_returns downs rest Hdowns 0)
    as (evs & Hrun & Hlog & Herr & Hsleep).
  exists evs. split; [exact Hrun|]. split; [|now split].
  change (0 / 15)%nat with 0%nat in Hlog.
  now rewrite Nat.add_0_r, Nat.add_0_l in Hlog.
Qed.

Lemma wait_for_service_returns_witness :
  exists evs,
    Startup.wait_for_service
      (List.repeat Startup.Refused 31 ++ Startup.Up :: [Startup.Refused])
    = Some evs
    /\ Startup.tally Startup.is_not_ready_log evs = 2%nat
    /\ Startup.tally Startup.is_sleep evs = 31%nat.
Proof.
  destruct (wait_for_service_returns (List.repeat Startup.Refused 31)
              [Startup.Refused])
    as (evs & Hrun & Hlog & _ & Hsleep).
  - apply Forall_forall. intros p Hp. apply repeat_spec in Hp. now subst p.
  - exists evs. split; [exact Hrun|]. split; [exact Hlog | exact Hsleep].
Defined.

(** ** Telemetry *)

Section TelemetryFacts.

Variable F : Type.
Variable P : Telemetry.python F.
Variable OS : Telemetry.system.

Lemma read_meminfo_keeps_cgroup_figures (lines : list string) (m : Telemetry.mem_info F) :
  Telemetry.mem_limit (snd (Telemetry.read_meminfo F P lines m)) = Telemetry.mem_limit m
  /\ Telemetry.mem_used (snd (Telemetry.read_meminfo F P lines m)) = Telemetry.mem_used m.
Proof.
  revert m. induction lines as [|line rest IH]; intros m; [now split|].
  cbn [Telemetry.read_meminfo].
  repeat match goal with
         | |- context [if ?c then _ else _] => destruct c
         | |- context [match Telemetry.gb_of_kb_field F P ?l with _ => _ end] =>
             destruct (Telemetry.gb_of_kb_field F P l)
         end;
    try (now split); try (destruct (IH m) as [IH1 IH2]; now split);
    match goal with
    | |- context [Telemetry.read_meminfo F P rest ?m'] =>
        destruct (IH m') as [IH1 IH2]; now split
    end.
Qed.

Lemma host_memory_no_limit :
  Telemetry.mem_limit (fst (Telemetry.host_memory P OS Telemetry.empty_mem)) = None.
Proof.
  unfold Telemetry.host_memory.
  destruct (Telemetry.read_file OS Telemetry.MEMINFO) as [| |content]; try reflexivity.
  pose proof (read_meminfo_keeps_cgroup_figures
                (Telemetry.py_lines P content) Telemetry.empty_mem) as [Hl _].
  destruct (Telemetry.read_meminfo F P (Telemetry.py_lines P content) Telemetry.empty_mem)
    as [[|] m1]; cbn [fst snd] in *; [|exact Hl].
  destruct (Telemetry.mem_total m1), (Telemetry.mem_free m1); exact Hl.
Qed.

End TelemetryFacts.

(** X17.  Memory snapshot under cgroup v2 with a limit: when memory.max
    and memory.current both give a number, the snapshot's limit and used
    figures are these two, and its available figure is their difference,
    whatever /proc/meminfo said about MemAvailable; the total and free
    figures stay those of the host. *)
Theorem cgroup_limit_overrides_host_available
        (F : Type) (P : Telemetry.python F) (OS : Telemetry.system)
        (a b : string) (L U : Z) (l u : F) :
  Telemetry.read_file OS Telemetry.MEMORY_MAX = Telemetry.Text a ->
  Telemetry.py_strip P a <> "max" ->
  Telemetry.py_int P (Telemetry.py_strip P a) = Some L ->
  Telemetry.true_div P L Telemetry.BYTES_PER_GIB = Some l ->
  Telemetry.read_file OS Telemetry.MEMORY_CURRENT = Telemetry.Text b ->
  Telemetry.py_int P (Telemetry.py_strip P b) = Some U ->
  Telemetry.true_div P U Telemetry.BYTES_PER_GIB = Some u ->
  Telemetry.mem_limit (fst (Telemetry.get_container_memory_info P OS)) = Some l
  /\ Telemetry.mem_used (fst (Telemetry.get_container_memory_info P OS)) = Some u
  /\ Telemetry.mem_available (fst (Telemetry.get_container_memory_info P OS))
     = Some (Telemetry.float_sub P l u)
  /\ Telemetry.mem_total (fst (Telemetry.get_container_memory_info P OS))
     = Telemetry.mem_total (fst (Telemetry.host_memory P OS Telemetry.empty_mem))
  /\ Telemetry.mem_free (fst (Telemetry.get_container_memory_info P OS))
     = Telemetry.mem_free (fst (Telemetry.host_memory P OS Telemetry.empty_mem)).
Proof.
  intros Hmax Hnot HL Hl Hcur HU Hu.
  unfold Telemetry.get_container_memory_info.
  destruct (Telemetry.host_memory P OS Telemetry.empty_mem) as [m1 host_log].
  unfold Telemetry.cgroup_memory, Telemetry.cgroup_v2, Telemetry.read_usage,
    Telemetry.gb_of_bytes.
  apply String.eqb_neq in Hnot.
  rewrite Hmax, Hnot, HL, Hl, Hcur, HU, Hu.
  cbn. repeat split.
Qed.

Lemma cgroup_limit_overrides_host_available_witness :
  Telemetry.mem_available
    (fst (Telemetry.get_container_memory_info Hosts.rational Hosts.limited))
  = Some (Telemetry.float_sub Hosts.rational
            (inject_Z 8589934592 / inject_Z Telemetry.BYTES_PER_GIB)%Q
            (inject_Z 6442450944 / inject_Z Telemetry.BYTES_PER_GIB)%Q).
Proof.
  refine (proj1 (proj2 (proj2
    (cgroup_limit_overrides_host_available Q Hosts.rational Hosts.limited
       ("8589934592" ++ Hosts.newline) ("6442450944" ++ Hosts.newline)
       8589934592 6442450944 _ _ eq_refl _ eq_refl eq_refl eq_refl eq_refl eq_refl)))).
  vm_compute. discriminate.
Defined.

(** X18.  Memory snapshot under cgroup v2 without a limit: when
    memory.max reads 'max' and memory.current gives a number, no limit is
    recorded, the used figure is the container's, and the available
    figure is the one the host block left (MemAvailable of
    /proc/meminfo, if it was read). *)
Theorem unlimited_cgroup_keeps_host_available
        (F : Type) (P : Telemetry.python F) (OS : Telemetry.system)
        (a b : string) (U : Z) (u : F) :
  Telemetry.read_file OS Telemetry.MEMORY_MAX = Telemetry.Text a ->
  Telemetry.py_strip P a = "max" ->
  Telemetry.read_file OS Telemetry.MEMORY_CURRENT = Telemetry.Text b ->
  Telemetry.py_int P (Telemetry.py_strip P b) = Some U ->
  Telemetry.true_div P U Telemetry.BYTES_PER_GIB = Some u ->
  Telemetry.mem_limit (fst (Telemetry.get_container_memory_info P OS)) = None
  /\ Telemetry.mem_used (fst (Telemetry.get_container_memory_info P OS)) = Some u
  /\ Telemetry.mem_available (fst (Telemetry.get_container_memory_info P OS))
     = Telemetry.mem_available (fst (Telemetry.host_memory P OS Telemetry.empty_mem)).
Proof.
  intros Hmax Hunl Hcur HU Hu.
  pose proof (host_memory_no_limit F P OS) as Hlim.
  unfold Telemetry.get_container_memory_info.
  destruct (Telemetry.host_memory P OS Telemetry.empty_mem) as [m1 host_log].
  cbn [fst] in Hlim.
  unfold Telemetry.cgroup_memory, Telemetry.cgroup_v2.
  unfold Telemetry.read_usage, Telemetry.gb_of_bytes.
  rewrite Hmax, Hunl. cbn [String.eqb Ascii.eqb Bool.eqb].
  rewrite Hcur, HU, Hu.
  unfold Telemetry.derive_available.
  cbn [Telemetry.set_used Telemetry.mem_limit Telemetry.mem_used fst].
  rewrite Hlim. cbn. repeat split. exact Hlim.
Qed.

Lemma unlimited_cgroup_keeps_host_available_witness :
  Telemetry.mem_limit
    (fst (Telemetry.get_container_memory_info Hosts.rational Hosts.unlimited)) = None
  /\ Telemetry.mem_used
       (fst (Telemetry.get_container_memory_info Hosts.rational Hosts.unlimited))
     = Some (inject_Z 6442450944 / inject_Z Telemetry.BYTES_PER_GIB)%Q
  /\ Telemetry.mem_available
       (fst (Telemetry.get_container_memory_info Hosts.rational Hosts.unlimited))
     = Telemetry.mem_available
         (fst (Telemetry.host_memory Hosts.rational Hosts.unlimited Telemetry.empty_mem)).
Proof.
  exact (unlimited_cgroup_keeps_host_available Q Hosts.rational Hosts.unlimited
           ("max" ++ Hosts.newline) ("6442450944" ++ Hosts.newline) 6442450944 _
           eq_refl eq_refl eq_refl eq_refl eq_refl).
Defined.

(** X19.  Memory snapshot without cgroup files: when none of the three
    limit files exists, the snapshot is exactly what the host block read
    from /proc/meminfo, and the missing cgroup information is logged as a
    warning once. *)
Theorem missing_cgroup_leaves_host_memory
        (F : Type) (P : Telemetry.python F) (OS : Telemetry.system) :
  Telemetry.read_file OS Telemetry.MEMORY_MAX = Telemetry.Missing ->
  Telemetry.read_file OS Telemetry.V1_MEMORY_LIMIT = Telemetry.Missing ->
  Telemetry.read_file OS Telemetry.FLAT_MEMORY_LIMIT = Telemetry.Missing ->
  fst (Telemetry.get_container_memory_info P OS)
  = fst (Telemetry.host_memory P OS Telemetry.empty_mem)
  /\ Startup.tally
       (fun e => match e with Telemetry.CgroupMemoryWarning => true | _ => false end)
       (snd (Telemetry.get_container_memory_info P OS)) = 1%nat.
Proof.
  intros H2 H1 H0.
  pose proof (host_memory_no_limit F P OS) as Hlim.
  unfold Telemetry.get_container_memory_info.
  destruct (Telemetry.host_memory P OS Telemetry.empty_mem) as [m1 host_log] eqn:Hhost.
  cbn [fst] in Hlim.
  unfold Telemetry.cgroup_memory, Telemetry.cgroup_v2, Telemetry.cgroup_v1.
  rewrite H2, H1, H0. unfold Telemetry.derive_available. rewrite Hlim.
  cbn [fst snd]. split; [reflexivity|].
  rewrite !tally_app.
  assert (Hhl : Startup.tally
            (fun e => match e with Telemetry.CgroupMemoryWarning => true | _ => false end)
            host_log = 0%nat).
  { unfold Telemetry.host_memory in Hhost.
    destruct (Telemetry.read_file OS Telemetry.MEMINFO);
      try (injection Hhost as _ <-; reflexivity).
    destruct (Telemetry.read_meminfo F P _ _) as [[|] m'];
      injection Hhost as _ <-; reflexivity. }
  rewrite Hhl. unfold Telemetry.memory_line.
  destruct (_ ++ _)%list; reflexivity.
Qed.

Lemma missing_cgroup_leaves_host_memory_witness :
  fst (Telemetry.get_container_memory_info Hosts.rational Hosts.bare)
  = fst (Telemetry.host_memory Hosts.rational Hosts.bare Telemetry.empty_mem)
  /\ Startup.tally
       (fun e => match e with Telemetry.CgroupMemoryWarning => true | _ => false end)
       (snd (Telemetry.get_container_memory_info Hosts.rational Hosts.bare)) = 1%nat.
Proof.
  exact (missing_cgroup_leaves_host_memory Q Hosts.rational Hosts.bare
           eq_refl eq_refl eq_refl).
Defined.

Lemma read_usage_unusable
      (F : Type) (P : Telemetry.python F) (OS : Telemetry.system)
      (path : string) (m : Telemetry.mem_info F) :
  Telemetry.unusable P OS path ->
  fst (Telemetry.read_usage F P OS path m) = Telemetry.Broken.
Proof.
  unfold Telemetry.unusable, Telemetry.read_usage.
  destruct (Telemetry.read_file OS path); [contradiction|reflexivity|].
  now intros ->.
Qed.

Lemma broken_memory_snapshot
      (F : Type) (P : Telemetry.python F) (OS : Telemetry.system) :
  Telemetry.read_file OS Telemetry.MEMORY_MAX = Telemetry.Unreadable
  \/ (Telemetry.read_file OS Telemetry.MEMORY_MAX <> Telemetry.Missing
      /\ Telemetry.unusable P OS Telemetry.MEMORY_CURRENT) ->
  Telemetry.get_container_memory_info P OS
  = (Telemetry.empty_mem,
     (snd (Telemetry.host_memory P OS Telemetry.empty_mem)
      ++ [Telemetry.MemoryError])%list).
Proof.
  intros H.
  unfold Telemetry.get_container_memory_info.
  destruct (Telemetry.host_memory P OS Telemetry.empty_mem) as [m1 host_log].
  cbn [snd].
  assert (Hv2 : fst (Telemetry.cgroup_v2 F P OS m1) = Telemetry.Broken).
  { unfold Telemetry.cgroup_v2.
    destruct H as [->|[Hthere Hcur]]; [reflexivity|].
    destruct (Telemetry.read_file OS Telemetry.MEMORY_MAX) as [| |a];
      [congruence|reflexivity|].
    cbv zeta.
    destruct (String.eqb (Telemetry.py_strip P a) "max");
      [now apply read_usage_unusable|].
    destruct (Telemetry.py_int P (Telemetry.py_strip P a)); [|reflexivity].
    destruct (Telemetry.gb_of_bytes F P z); [|reflexivity].
    now apply read_usage_unusable. }
  unfold Telemetry.cgroup_memory.
  destruct (Telemetry.cgroup_v2 F P OS m1) as [st m2]. cbn [fst] in Hv2. subst st.
  reflexivity.
Qed.

(** X20.  A cgroup v2 memory file that is there and cannot be used: when
    memory.max cannot be read, or it exists and memory.current cannot be
    read or does not hold a number, the function returns the empty
    snapshot and logs an error; everything read from /proc/meminfo before
    is dropped, and the v1 paths are not tried. *)
Theorem unusable_cgroup_file_empties_memory_snapshot
        (F : Type) (P : Telemetry.python F) (OS : Telemetry.system) :
  Telemetry.read_file OS Telemetry.MEMORY_MAX = Telemetry.Unreadable
  \/ (Telemetry.read_file OS Telemetry.MEMORY_MAX <> Telemetry.Missing
      /\ Telemetry.unusable P OS Telemetry.MEMORY_CURRENT) ->
  fst (Telemetry.get_container_memory_info P OS) = Telemetry.empty_mem
  /\ snd (Telemetry.get_container_memory_info P OS)
     = (snd (Telemetry.host_memory P OS Telemetry.empty_mem)
        ++ [Telemetry.MemoryError])%list.
Proof.
  intros H. rewrite (broken_memory_snapshot F P OS H). now split.
Qed.

Lemma unusable_cgroup_file_empties_memory_snapshot_witness :
  fst (Telemetry.get_container_memory_info Hosts.rational Hosts.locked)
  = Telemetry.empty_mem
  /\ snd (Telemetry.get_container_memory_info Hosts.rational Hosts.locked)
     = (snd (Telemetry.host_memory Hosts.rational Hosts.locked Telemetry.empty_mem)
        ++ [Telemetry.MemoryError])%list.
Proof.
  apply (unusable_cgroup_file_empties_memory_snapshot Q Hosts.rational Hosts.locked).
  right. split; [discriminate | exact I].
Defined.

(** X21.  Disk snapshot when the usage percentage cannot be computed:
    with [shutil.disk_usage] answering, io.stat present and the three
    byte figures small enough to be divided for the log line, the three
    byte figures of the snapshot are those of [shutil.disk_usage] even
    when dividing used by total raises (a total of zero); then only the
    percentage is missing and a warning is logged.  A failing
    [os.statvfs] does not touch them either. *)
Theorem disk_figures_survive_failed_percentage
        (F : Type) (P : Telemetry.python F) (OS : Telemetry.system)
        (total used free : Z) (raw : string) :
  Telemetry.disk_usage OS = Some (total, used, free) ->
  Telemetry.read_file OS Telemetry.IO_STAT = Telemetry.Text raw ->
  Telemetry.true_div P total Telemetry.BYTES_PER_GIB <> None ->
  Telemetry.true_div P used Telemetry.BYTES_PER_GIB <> None ->
  Telemetry.true_div P free Telemetry.BYTES_PER_GIB <> None ->
  Telemetry.total_bytes (fst (Telemetry.get_container_disk_info P OS)) = Some total
  /\ Telemetry.used_bytes (fst (Telemetry.get_container_disk_info P OS)) = Some used
  /\ Telemetry.free_bytes (fst (Telemetry.get_container_disk_info P OS)) = Some free
  /\ (Telemetry.true_div P used total = None ->
      Telemetry.usage_percent (fst (Telemetry.get_container_disk_info P OS)) = None
      /\ In Telemetry.DiskUsageWarning (snd (Telemetry.get_container_disk_info P OS))).
Proof.
  intros Hdu Hio Hdt Hdused Hdf.
  unfold Telemetry.get_container_disk_info, Telemetry.root_usage.
  rewrite Hdu.
  assert (Hlog : forall d : Telemetry.disk_info F,
             Telemetry.total_bytes d = Some total ->
             Telemetry.used_bytes d = Some used ->
             Telemetry.free_bytes d = Some free ->
             Telemetry.io_bytes d = None ->
             exists keys, Telemetry.disk_log_parts F P d = Some keys).
  { intros d Ht Hu Hf Hi. unfold Telemetry.disk_log_parts, Telemetry.scaled.
    rewrite Ht, Hu, Hf, Hi.
    destruct (Telemetry.true_div P total Telemetry.BYTES_PER_GIB) eqn:E1;
      [|congruence].
    destruct (Telemetry.true_div P used Telemetry.BYTES_PER_GIB) eqn:E2;
      [|congruence].
    destruct (Telemetry.true_div P free Telemetry.BYTES_PER_GIB) eqn:E3;
      [|congruence].
    eexists. reflexivity. }
  assert (Hframe : forall d : Telemetry.disk_info F,
             Telemetry.total_bytes d = Some total ->
             Telemetry.used_bytes d = Some used ->
             Telemetry.free_bytes d = Some free ->
             Telemetry.io_bytes d = None ->
             forall up, Telemetry.usage_percent d = up ->
             match Telemetry.cgroup_io F P OS d with
             | (true, d2, io_log) =>
                 Telemetry.total_bytes (fst (Telemetry.inodes F P OS d2)) = Some total
                 /\ Telemetry.used_bytes (fst (Telemetry.inodes F P OS d2)) = Some used
                 /\ Telemetry.free_bytes (fst (Telemetry.inodes F P OS d2)) = Some free
                 /\ Telemetry.io_bytes (fst (Telemetry.inodes F P OS d2)) = None
                 /\ Telemetry.usage_percent (fst (Telemetry.inodes F P OS d2)) = up
             | (false, _, _) => False
             end).
  { intros d Ht Hu Hf Hi up Hup.
    unfold Telemetry.cgroup_io, Telemetry.io_v2. rewrite Hio. cbv zeta.
    unfold Telemetry.inodes.
    destruct (String.eqb (Telemetry.py_strip P raw) "");
      destruct (Telemetry.statvfs OS) as [[files ffree]|];
      try destruct (0 <? files);
      try destruct (Telemetry.true_div P (files - ffree) files);
      cbn; repeat split; assumption. }
  destruct (Telemetry.true_div P used total) as [q|] eqn:Hq.
  - specialize (Hframe
      (Telemetry.set_usage_percent F (Telemetry.float_mul_int P q 100)
         (Telemetry.set_usage F total used free Telemetry.empty_disk))
      eq_refl eq_refl eq_refl eq_refl _ eq_refl).
    destruct (Telemetry.cgroup_io F P OS _) as [[[|] d2] io_log]; [|contradiction].
    destruct Hframe as (Ht & Hu & Hf & Hi & Hup).
    destruct (Telemetry.inodes F P OS d2) as [d3 inode_log]. cbn [fst] in *.
    destruct (Hlog d3 Ht Hu Hf Hi) as [keys ->]. cbn [fst snd].
    split; [|split; [|split]]; try assumption. intros E. discriminate E.
  - specialize (Hframe (Telemetry.set_usage F total used free Telemetry.empty_disk)
      eq_refl eq_refl eq_refl eq_refl _ eq_refl).
    destruct (Telemetry.cgroup_io F P OS _) as [[[|] d2] io_log]; [|contradiction].
    destruct Hframe as (Ht & Hu & Hf & Hi & Hup).
    destruct (Telemetry.inodes F P OS d2) as [d3 inode_log]. cbn [fst] in *.
    destruct (Hlog d3 Ht Hu Hf Hi) as [keys ->]. cbn [fst snd].
    split; [|split; [|split]]; try assumption. intros _.
    split; [exact Hup | now left].
Qed.

Lemma disk_figures_survive_failed_percentage_witness :
  Telemetry.free_bytes
    (fst (Telemetry.get_container_disk_info Hosts.rational Hosts.sizeless))
  = Some (2 * 1024 ^ 3)
  /\ Telemetry.usage_percent
       (fst (Telemetry.get_container_disk_info Hosts.rational Hosts.sizeless)) = None
  /\ In Telemetry.DiskUsageWarning
       (snd (Telemetry.get_container_disk_info Hosts.rational Hosts.sizeless)).
Proof.
  assert (Hdiv : forall n,
             Telemetry.true_div Hosts.rational n Telemetry.BYTES_PER_GIB <> None)
    by (intros n; vm_compute; discriminate).
  destruct (disk_figures_survive_failed_percentage Q Hosts.rational Hosts.sizeless
              0 0 (2 * 1024 ^ 3) _ eq_refl eq_refl (Hdiv _) (Hdiv _) (Hdiv _))
    as (_ & _ & Hfree & Hpercent).
  split; [exact Hfree | exact (Hpercent eq_refl)].
Defined.

Lemma broken_disk_snapshot
      (F : Type) (P : Telemetry.python F) (OS : Telemetry.system) :
  Telemetry.read_file OS Telemetry.IO_STAT = Telemetry.Unreadable ->
  fst (Telemetry.get_container_disk_info P OS) = Telemetry.empty_disk.
Proof.
  intros Hio. unfold Telemetry.get_container_disk_info.
  destruct (Telemetry.root_usage F P OS Telemetry.empty_disk) as [d1 usage_log].
  unfold Telemetry.cgroup_io, Telemetry.io_v2. rewrite Hio. reflexivity.
Qed.

(** X22.  The guard behind the telemetry: in a container whose cgroup v2
    files memory.max and io.stat exist and cannot be read, both
    snapshots come back empty, so the handler's resource guard lets the
    job through whatever [shutil.disk_usage] and /proc/meminfo report. *)
Theorem unreadable_cgroup_files_open_the_guard
        (F : Type) (to_Q : F -> Q) (P : Telemetry.python F)
        (OS : Telemetry.system) (W : world) (s : state) :
  Telemetry.read_file OS Telemetry.MEMORY_MAX = Telemetry.Unreadable ->
  Telemetry.read_file OS Telemetry.IO_STAT = Telemetry.Unreadable ->
  memory_available_gb (Telemetry.measured to_Q P OS W) = None
  /\ disk_free_bytes (Telemetry.measured to_Q P OS W) = None
  /\ resource_guard (Telemetry.measured to_Q P OS W) s = (Ok tt, s).
Proof.
  intros Hmem Hio.
  assert (Hm : memory_available_gb (Telemetry.measured to_Q P OS W) = None).
  { cbn [Telemetry.measured memory_available_gb].
    now rewrite (broken_memory_snapshot F P OS (or_introl Hmem)). }
  assert (Hd : disk_free_bytes (Telemetry.measured to_Q P OS W) = None).
  { cbn [Telemetry.measured disk_free_bytes].
    now rewrite (broken_disk_snapshot F P OS Hio). }
  split; [exact Hm|]. split; [exact Hd|].
  apply resource_guard_passes; now left.
Qed.

Lemma unreadable_cgroup_files_open_the_guard_witness :
  Telemetry.disk_usage Hosts.sealed
  = Some (100 * 1024 ^ 3, 100 * 1024 ^ 3 - 100 * 1024 ^ 2, 100 * 1024 ^ 2)
  /\ resource_guard
       (Telemetry.measured (fun q => q) Hosts.rational Hosts.sealed Scenario.worker)
       (Scenario.start [] [])
     = (Ok tt, Scenario.start [] []).
Proof.
  split; [reflexivity|].
  exact (proj2 (proj2
    (unreadable_cgroup_files_open_the_guard Q (fun q => q) Hosts.rational
       Hosts.sealed Scenario.worker (Scenario.start [] []) eq_refl eq_refl))).
Defined.

(** X23.  The cgroup v1 threshold: under cgroup v1 (no memory.max), a
    limit below 2^63 bytes is recorded and the available figure becomes
    limit minus usage; a limit of 2^63 bytes or more counts as no limit,
    so none is recorded and the available figure stays the host's.  The
    value 9223372036854771712 is below the threshold, so it is recorded
    as a limit. *)
Theorem cgroup_v1_limit_sentinel
        (F : Type) (P : Telemetry.python F) (OS : Telemetry.system)
        (a b : string) (L U : Z) (l u : F) :
  Telemetry.read_file OS Telemetry.MEMORY_MAX = Telemetry.Missing ->
  Telemetry.read_file OS Telemetry.V1_MEMORY_LIMIT = Telemetry.Text a ->
  Telemetry.py_int P (Telemetry.py_strip P a) = Some L ->
  Telemetry.true_div P L Telemetry.BYTES_PER_GIB = Some l ->
  Telemetry.read_file OS Telemetry.V1_MEMORY_USAGE = Telemetry.Text b ->
  Telemetry.py_int P (Telemetry.py_strip P b) = Some U ->
  Telemetry.true_div P U Telemetry.BYTES_PER_GIB = Some u ->
  Telemetry.mem_used (fst (Telemetry.get_container_memory_info P OS)) = Some u
  /\ (L < 2 ^ 63 ->
      Telemetry.mem_limit (fst (Telemetry.get_container_memory_info P OS)) = Some l
      /\ Telemetry.mem_available (fst (Telemetry.get_container_memory_info P OS))
         = Some (Telemetry.float_sub P l u))
  /\ (2 ^ 63 <= L ->
      Telemetry.mem_limit (fst (Telemetry.get_container_memory_info P OS)) = None
      /\ Telemetry.mem_available (fst (Telemetry.get_container_memory_info P OS))
         = Telemetry.mem_available
             (fst (Telemetry.host_memory P OS Telemetry.empty_mem))).
Proof.
  intros Hmax Hlim HL Hl Hcur HU Hu.
  pose proof (host_memory_no_limit F P OS) as Hno.
  unfold Telemetry.get_container_memory_info.
  destruct (Telemetry.host_memory P OS Telemetry.empty_mem) as [m1 host_log].
  cbn [fst] in Hno.
  unfold Telemetry.cgroup_memory, Telemetry.cgroup_v2, Telemetry.cgroup_v1,
    Telemetry.read_usage, Telemetry.gb_of_bytes.
  rewrite Hmax, Hlim, HL, Hl, Hcur, HU, Hu.
  destruct (Z.ltb_spec L (2 ^ 63)) as [Hlt|Hge].
  - cbn. split; [reflexivity|]. split; [now intros _|]. intros Hge. lia.
  - unfold Telemetry.derive_available.
    cbn [Telemetry.set_used Telemetry.mem_limit Telemetry.mem_used fst].
    rewrite Hno. cbn. split; [reflexivity|]. split; [intros Hlt; lia|].
    intros _. now split.
Qed.

Lemma cgroup_v1_limit_sentinel_witness :
  Telemetry.mem_limit
    (fst (Telemetry.get_container_memory_info Hosts.rational Hosts.legacy))
  = Some (inject_Z 9223372036854771712 / inject_Z Telemetry.BYTES_PER_GIB)%Q
  /\ Telemetry.mem_available
       (fst (Telemetry.get_container_memory_info Hosts.rational Hosts.legacy))
     = Some (Telemetry.float_sub Hosts.rational
               (inject_Z 9223372036854771712 / inject_Z Telemetry.BYTES_PER_GIB)%Q
               (inject_Z 6442450944 / inject_Z Telemetry.BYTES_PER_GIB)%Q).
Proof.
  refine (proj1 (proj2
    (cgroup_v1_limit_sentinel Q Hosts.rational Hosts.legacy
       ("9223372036854771712" ++ Hosts.newline) ("6442450944" ++ Hosts.newline)
       9223372036854771712 6442450944 _ _
       eq_refl eq_refl eq_refl eq_refl eq_refl eq_refl eq_refl)) _).
  lia.
Defined.

(** ** The output files of a history entry *)

Lemma output_files_of_dicts (items : list (string * json)) :
  Forall (fun kv => is_dict (snd kv)) items ->
  output_files_of items
  = Val (map image_file (flat_map (fun kv => listed_images (snd kv)) items)).
Proof.
  induction 1 as [|[key value] items Hv _ IH]; [reflexivity|].
  cbn [output_files_of flat_map snd]. rewrite IH.
  destruct value as [| | | | | |d]; try contradiction.
  unfold listed_images, Py.contains, Py.getitem, Dict.mem, bindr.
  destruct (Dict.get "images" d) as [[| | | | |l|]|];
    cbn; rewrite ?map_app; reflexivity.
Qed.

(** X24.  The output files of a history entry: when every node's output
    is a dict, [get_output_files] does not raise and returns one record
    of type 'image' for each element of each node's ['images'] list, node
    by node in the order of the outputs and image by image in the order
    of the list; a node without ['images'], or whose ['images'] is not a
    list, contributes nothing. *)
Theorem output_files_are_the_listed_images (nodes : list (string * json)) :
  Forall (fun kv => is_dict (snd kv)) nodes ->
  get_output_files (JDict nodes)
  = Val (map image_file (flat_map (fun kv => listed_images (snd kv)) nodes)).
Proof.
  intros Hn. unfold get_output_files. cbn [Py.items bindr].
  now apply output_files_of_dicts.
Qed.

Lemma output_files_are_the_listed_images_witness :
  get_output_files
    (JDict [("9", JDict [("images", JList [JStr "a.png"; JStr "b.png"])]);
            ("12", JDict [("text", JList [JStr "caption"])]);
            ("14", JDict [("images", JStr "c.png")]);
            ("15", JDict [("images", JList [JStr "d.png"])])])
  = Val [image_file (JStr "a.png"); image_file (JStr "b.png");
         image_file (JStr "d.png")].
Proof.
  apply (output_files_are_the_listed_images
           [("9", JDict [("images", JList [JStr "a.png"; JStr "b.png"])]);
            ("12", JDict [("text", JList [JStr "caption"])]);
            ("14", JDict [("images", JStr "c.png")]);
            ("15", JDict [("images", JList [JStr "d.png"])])]).
  repeat constructor.
Defined.

(** ** Answers the poll loop retries or fails on *)

Lemma poll_from_retries (W : world) (prompt_id : json) (a : option http_response)
      (rest : list (option http_response)) (retries : nat) (s : state) :
  retried_answer a ->
  poll_from W prompt_id (a :: rest) retries s
  = poll_from W prompt_id rest (S retries)
      (set_history s rest
         (status_line prompt_id retries
            ++ [EvGet (status_endpoint W prompt_id); EvSleep])).
Proof.
  intros (r & j & -> & Hbody & Hwhy).
  change (poll_from W prompt_id (Some r :: rest) retries)
    with ((if should_log_status retries
           then log INFO (LogGettingStatus prompt_id) else ret tt) ;;;
          emit (EvGet (status_endpoint W prompt_id)) ;;;
          take_history rest ;;;
          resp_json <- lift (response_json r) ;;
          stop <- (if status_code r =? 200
                   then n <- lift (Py.len resp_json) ;; ret (negb (Nat.eqb n 0))
                   else ret false) ;;
          if (stop : bool) then ret resp_json
          else emit EvSleep ;;; poll_from W prompt_id rest (S retries)).
  unfold status_line, bind, log, emit, take_history, response_json, set_history.
  destruct Hwhy as [Hcode|Hlen].
  - apply Z.eqb_neq in Hcode.
    destruct (should_log_status retries); simpl;
      rewrite Hbody; simpl; rewrite Hcode; simpl;
      rewrite <- ?app_assoc; reflexivity.
  - destruct (should_log_status retries); simpl;
      rewrite Hbody; simpl; destruct (status_code r =? 200); simpl;
      rewrite ?Hlen; simpl; rewrite <- ?app_assoc; reflexivity.
Qed.

Lemma poll_from_fails (W : world) (prompt_id : json) (a : option http_response)
      (e : exn) (rest : list (option http_response)) (retries : nat) (s : state) :
  failing_answer a e ->
  poll_from W prompt_id (a :: rest) retries s
  = (Raise e, set_history s rest
                (status_line prompt_id retries
                   ++ [EvGet (status_endpoint W prompt_id)])).
Proof.
  intros [[-> ->]|[(r & -> & Hbody & ->)|(r & j & -> & Hbody & Hcode & Hlen)]];
    simpl;
    unfold status_line, bind, log, emit, take_history, response_json, set_history,
      raise;
    destruct (should_log_status retries); simpl;
    rewrite ?Hbody; simpl; rewrite ?Hcode; simpl; rewrite ?Hlen; simpl;
    rewrite <- ?app_assoc; reflexivity.
Qed.

Lemma poll_from_ends (W : world) (prompt_id : json)
      (retried : list (option http_response)) (r : http_response) (j : json)
      (rest : list (option http_response)) :
  Forall retried_answer retried -> terminal_answer r j ->
  forall retries s,
    poll_from W prompt_id (retried ++ Some r :: rest) retries s
    = (Ok j, set_history s rest
               (poll_events W prompt_id retries (List.length retried))).
Proof.
  intros Hp Ht. induction Hp as [|a retried Ha Hp IH]; intros retries s.
  - apply poll_from_stops, Ht.
  - rewrite <- app_comm_cons, (poll_from_retries W prompt_id a _ retries s Ha).
    rewrite IH. unfold set_history. simpl.
    now rewrite <- !app_assoc.
Qed.

Lemma poll_from_aborts (W : world) (prompt_id : json)
      (retried : list (option http_response)) (a : option http_response)
      (e : exn) (rest : list (option http_response)) :
  Forall retried_answer retried -> failing_answer a e ->
  forall retries s,
    poll_from W prompt_id (retried ++ a :: rest) retries s
    = (Raise e, set_history s rest
                  (poll_events W prompt_id retries (List.length retried))).
Proof.
  intros Hp Hf. induction Hp as [|a' retried Ha Hp IH]; intros retries s.
  - now apply poll_from_fails.
  - rewrite <- app_comm_cons, (poll_from_retries W prompt_id a' _ retries s Ha).
    rewrite IH. unfold set_history. simpl.
    now rewrite <- !app_assoc.
Qed.

(** X25.  An error status while polling: an answer of the history
    endpoint whose status is not 200 is tried again like an empty one,
    whatever its body holds, as long as the body parses; the loop ends on
    the first answer with status 200 and a body that is not empty, and
    what it logs and requests is the same as for empty answers. *)
Theorem error_status_is_polled_past (W : world) (prompt_id body : json)
        (s : state) (retried rest : list (option http_response))
        (r : http_response) :
  history s = (retried ++ Some r :: rest)%list ->
  Forall retried_answer retried ->
  terminal_answer r body ->
  poll_history W prompt_id s
  = (Ok body,
     set_history s rest (poll_events W prompt_id 0 (List.length retried))).
Proof.
  intros Hh Hp Ht. unfold poll_history. rewrite Hh.
  now apply poll_from_ends.
Qed.

Lemma error_status_is_polled_past_witness :
  poll_history Scenario.worker (JStr "p-1")
    (Scenario.start []
       [Some {| status_code := 500;
                json_body := Some (JDict [("error", JStr "busy")]);
                content_str := "" |};
        Some {| status_code := 200;
                json_body := Some (JDict [("p-1", JNull)]);
                content_str := "" |}])
  = (Ok (JDict [("p-1", JNull)]),
     set_history
       (Scenario.start []
          [Some {| status_code := 500;
                   json_body := Some (JDict [("error", JStr "busy")]);
                   content_str := "" |};
           Some {| status_code := 200;
                   json_body := Some (JDict [("p-1", JNull)]);
                   content_str := "" |}])
       [] (poll_events Scenario.worker (JStr "p-1") 0 1)).
Proof.
  apply (error_status_is_polled_past Scenario.worker (JStr "p-1")
           (JDict [("p-1", JNull)]) _
           [Some {| status_code := 500;
                    json_body := Some (JDict [("error", JStr "busy")]);
                    content_str := "" |}]
           []
           {| status_code := 200;
              json_body := Some (JDict [("p-1", JNull)]);
              content_str := "" |}).
  - reflexivity.
  - constructor; [|constructor]. do 2 eexists. split; [reflexivity|].
    split; [reflexivity|]. left. discriminate.
  - split; [reflexivity|]. split; [reflexivity|]. now exists 0%nat.
Defined.

(** X26.  A failure while polling: when, after any number of retried
    answers, a history request fails in transport, or its body is not
    JSON, or it has status 200 and a body without a length, the handler
    stops polling at that answer and returns
    [{error: text, refresh_worker: true}], where [text] is the traceback
    of that exception; nothing is harvested. *)
Theorem poll_failure_aborts_job (W : world) (event : json) (job_id : string)
        (s s1 : state) (payload prompt_id queued : json)
        (queue_response : http_response)
        (retried rest : list (option http_response))
        (a : option http_response) (e : exn) :
  Py.getitem event "id" = Val (JStr job_id) ->
  resource_guard W s = (Ok tt, s) ->
  prepare_payload W event s = (Ok payload, s1) ->
  post W "prompt" (JDict [("prompt", payload)]) = Some queue_response ->
  status_code queue_response = 200 ->
  json_body queue_response = Some queued ->
  Py.getitem queued "prompt_id" = Val prompt_id ->
  history s1 = (retried ++ a :: rest)%list ->
  Forall retried_answer retried ->
  failing_answer a e ->
  handler W event s
  = (Ok (JDict [("error", JStr (format_exc W e));
                ("refresh_worker", JBool true)]),
     add_events
       (set_history
          (add_events s1 [EvLog DEBUG LogQueuingPrompt;
                          EvPost "prompt" (JDict [("prompt", payload)]);
                          EvLog INFO (LogPromptQueued prompt_id)])
          rest (poll_events W prompt_id 0 (List.length retried)))
       [EvLog ERROR (LogException e)]).
Proof.
  intros Hid Hg Hprep Hpost Hcode Hbody Hpid Hhist Hp Hf.
  change (JDict [("error", JStr (format_exc W e));
                 ("refresh_worker", JBool true)])
    with (error_response W e).
  apply (handler_catches W event job_id); [exact Hid|].
  unfold handler_try.
  rewrite (bind_ok _ _ _ _ _ Hg), (bind_ok _ _ _ _ _ Hprep).
  unfold bind at 1.
  rewrite (submit_and_poll_queued W payload prompt_id queued queue_response s1
             Hpost Hcode Hbody Hpid).
  unfold bind at 1, poll_history. cbn [history add_events].
  rewrite Hhist, (poll_from_aborts W prompt_id retried a e rest Hp Hf).
  reflexivity.
Qed.

Lemma poll_failure_aborts_job_witness :
  fst (handler Scenario.worker (Scenario.job "txt2img" Scenario.params)
         (Scenario.start [] [Some Scenario.pending; None]))
  = Ok (JDict [("error", JStr (format_exc Scenario.worker RequestException));
               ("refresh_worker", JBool true)]).
Proof.
  refine (f_equal fst
    (poll_failure_aborts_job Scenario.worker
       (Scenario.job "txt2img" Scenario.params) "job-1"
       (Scenario.start [] [Some Scenario.pending; None]) _ _ (JStr "p-1") _
       Scenario.queued [Some Scenario.pending] [] None RequestException
       eq_refl eq_refl _ eq_refl eq_refl eq_refl eq_refl _ _ _)).
  - vm_compute. reflexivity.
  - reflexivity.
  - constructor; [|constructor]. do 2 eexists. split; [reflexivity|].
    split; [reflexivity|]. right. reflexivity.
  - left. now split.
Defined.
